(** * BR-data-integration: per-client summary workbooks

    A shallow embedding of [main.py].  The script copies a template
    workbook, strips formulas with external links, and adds one tab per
    client file: the tab has the formatting of the template tab [tab1] and
    the values of the client's sheet, and is named after a date found in the
    sheet or in the file name.

    Conventions of the embedding:
    - a Python [str] is a [string]; slicing, [startswith], [in], [split],
      [join], [lower] and [str(int)] are the functions of [PyStr];
    - a worksheet is a finite map from 1-based coordinates to cells; a
      coordinate without an entry reads as the empty, unstyled cell, which is
      what [ws.cell(row, column)] gives for a cell it has to create;
    - the style of a cell is what openpyxl keeps for it: an array of
      positions in tables of the workbook, one table of fonts, one of
      fills, and so on.  Reading [cell.font] looks the position up, and
      assigning to it stores the position of an equal entry of the table,
      adding the value to the table only when no entry equals it;
    - a cell inside a merged range, other than the top left one, is a
      [MergedCell]: its value cannot be assigned;
    - the sheets of the output workbook are referred to by their position in
      the workbook, the way Python refers to them by object identity;
    - what the script leaves to openpyxl and the embedding does not
      reproduce (the table of built-in number formats, the test for a date
      format, the styles of the cells of a merged range) is a parameter ([Openpyxl]);
    - the file system is a record of oracles ([World]); exceptions are the
      [Raised] outcome of [result], and an exception does not undo what was
      done before it. *)

From Stdlib Require Import ZArith NArith Ascii String List Lia.
From stdpp Require Import base option list gmap strings fin_maps fin_sets
  sorting.

Local Open Scope string_scope.

(* ===================================================================== *)
(** ** Python strings *)
(* ===================================================================== *)

Module PyStr.

(** [s[:n]] for [0 <= n]. *)
Fixpoint take (n : nat) (s : string) : string :=
  match n, s with
  | S k, String c t => String c (take k t)
  | _, _ => EmptyString
  end.

(** [s[:stop]] for any integer [stop]: a negative [stop] counts from the
    end of the string, and is clamped at the start. *)
Definition slice_to (stop : Z) (s : string) : string :=
  let len := Z.of_nat (String.length s) in
  let stop' := if (stop <? 0)%Z then Z.max 0 (len + stop) else stop in
  take (Z.to_nat stop') s.

(** [s.startswith(p)] *)
Definition startswith (p s : string) : bool := String.prefix p s.

(** [c in s] for a one-character string [c]. *)
Fixpoint contains (c : ascii) (s : string) : bool :=
  match s with
  | EmptyString => false
  | String a t => if Ascii.eqb a c then true else contains c t
  end.

(** [s.split(sep)] for a one-character separator: never the empty list. *)
Fixpoint split (sep : ascii) (s : string) : list string :=
  match s with
  | EmptyString => [EmptyString]
  | String a t =>
      let r := split sep t in
      if Ascii.eqb a sep then EmptyString :: r
      else match r with
           | h :: tl => String a h :: tl
           | [] => [String a EmptyString]
           end
  end.

(** [sep.join(parts)] *)
Fixpoint join (sep : string) (parts : list string) : string :=
  match parts with
  | [] => EmptyString
  | [p] => p
  | p :: rest => p ++ sep ++ join sep rest
  end.

(** [parts[-1]] of a list ([EmptyString] stands for the IndexError that no
    caller below can trigger: [split] never returns the empty list). *)
Definition last_part (parts : list string) : string :=
  List.last parts EmptyString.

Definition digit_char (d : N) : ascii := ascii_of_N (48 + d).

Fixpoint digits_of (fuel : nat) (n : N) (acc : string) : string :=
  match fuel with
  | O => acc
  | S f =>
      let acc' := String (digit_char (n mod 10)) acc in
      if (n <? 10)%N then acc' else digits_of f (n / 10) acc'
  end.

(** [str(n)] for a non-negative integer: its decimal digits.  A number has
    no more decimal digits than binary ones, which bounds the recursion. *)
Definition str_of_N (n : N) : string :=
  digits_of (S (N.to_nat (N.log2 n))) n EmptyString.

(** The value of a string of decimal digits, most significant first. *)
Fixpoint value_acc (s : string) (acc : N) : N :=
  match s with
  | EmptyString => acc
  | String c t => value_acc t (10 * acc + (N_of_ascii c - 48))%N
  end.

Definition is_digit (c : ascii) : bool :=
  ((48 <=? N_of_ascii c) && (N_of_ascii c <=? 57))%N.

Fixpoint all_chars (P : ascii -> bool) (s : string) : bool :=
  match s with
  | EmptyString => true
  | String c t => P c && all_chars P t
  end.

(** Truth value of a string: non-empty. *)
Definition truthy (s : string) : bool :=
  match s with EmptyString => false | _ => true end.

(** Some character of [s] satisfies [P]. *)
Fixpoint any_char (P : ascii -> bool) (s : string) : bool :=
  match s with
  | EmptyString => false
  | String c t => P c || any_char P t
  end.

(** [c.lower()] for a character below code point 256: the letters [A-Z]
    and the capital letters of Latin-1 (192-222 without the sign 215). *)
Definition lower_char (c : ascii) : ascii :=
  let n := N_of_ascii c in
  if (((65 <=? n) && (n <=? 90))
      || ((192 <=? n) && (n <=? 222) && negb (n =? 215)))%N
  then ascii_of_N (n + 32) else c.

(** [s.lower()] *)
Fixpoint lower (s : string) : string :=
  match s with
  | EmptyString => EmptyString
  | String c t => String (lower_char c) (lower t)
  end.

End PyStr.

(* ===================================================================== *)
(** ** Regular expressions, as far as [re.search] is used *)
(* ===================================================================== *)

Module Regex.

Inductive re : Type :=
| Void                      (* matches nothing *)
| Eps                       (* the empty string *)
| Chr (c : ascii)           (* a literal character, written escaped or not *)
| Dot                       (* [.]: any character but a newline *)
| AnyChar                   (* any character *)
| Cat (r1 r2 : re)
| Alt (r1 r2 : re)
| Star (r : re).

Definition newline : ascii := ascii_of_nat 10.

Fixpoint nullable (r : re) : bool :=
  match r with
  | Void | Chr _ | Dot | AnyChar => false
  | Eps | Star _ => true
  | Cat r1 r2 => nullable r1 && nullable r2
  | Alt r1 r2 => nullable r1 || nullable r2
  end.

(** Brzozowski derivative: what is left of [r] after reading [a]. *)
Fixpoint deriv (a : ascii) (r : re) : re :=
  match r with
  | Void | Eps => Void
  | Chr c => if Ascii.eqb a c then Eps else Void
  | Dot => if Ascii.eqb a newline then Void else Eps
  | AnyChar => Eps
  | Cat r1 r2 =>
      if nullable r1 then Alt (Cat (deriv a r1) r2) (deriv a r2)
      else Cat (deriv a r1) r2
  | Alt r1 r2 => Alt (deriv a r1) (deriv a r2)
  | Star r1 => Cat (deriv a r1) (Star r1)
  end.

(** [re.fullmatch(r, s) is not None] *)
Fixpoint fullmatch (r : re) (s : string) : bool :=
  match s with
  | EmptyString => nullable r
  | String a t => fullmatch (deriv a r) t
  end.

(** [re.search(r, s)] is truthy: some substring of [s] matches [r]. *)
Definition search (r : re) (s : string) : bool :=
  fullmatch (Cat (Star AnyChar) (Cat r (Star AnyChar))) s.

(** The denotation of a regular expression, to state what [search] finds. *)
Inductive matches : re -> string -> Prop :=
| MEps : matches Eps EmptyString
| MChr c : matches (Chr c) (String c EmptyString)
| MDot c : c <> newline -> matches Dot (String c EmptyString)
| MAny c : matches AnyChar (String c EmptyString)
| MCat r1 r2 s1 s2 :
    matches r1 s1 -> matches r2 s2 -> matches (Cat r1 r2) (s1 ++ s2)
| MAltL r1 r2 s : matches r1 s -> matches (Alt r1 r2) s
| MAltR r1 r2 s : matches r2 s -> matches (Alt r1 r2) s
| MStar0 r : matches (Star r) EmptyString
| MStarS r s1 s2 :
    matches r s1 -> matches (Star r) s2 -> matches (Star r) (s1 ++ s2).

End Regex.

(* ===================================================================== *)
(** ** Dates: [datetime], [strftime] and [strptime] *)
(* ===================================================================== *)

Module PyDate.

Record datetime : Type := mk_datetime {
  year : N; month : N; day : N;
  hour : N; minute : N; second : N
}.

(** Left padding with zeros to a width, as [%m] and [%d] print. *)
Definition zero_pad (width : nat) (s : string) : string :=
  PyStr.join EmptyString (replicate (width - String.length s) "0") ++ s.

(** [d.strftime("%Y%m%d")].  CPython hands [%Y] to the C library, and
    glibc prints the year as it is, without padding: the year 999 gives
    three digits.  [%m] and [%d] are padded to two digits. *)
Definition strftime_Ymd (d : datetime) : string :=
  PyStr.str_of_N (year d) ++
  zero_pad 2 (PyStr.str_of_N (month d)) ++
  zero_pad 2 (PyStr.str_of_N (day d)).

(** The directives of the four formats the script tries. *)
Inductive directive : Type :=
| DirY                      (* %Y *)
| Dirm                      (* %m *)
| Dird                      (* %d *)
| Lit (c : ascii).

Definition fmt_Y_m_d : list directive := [DirY; Lit "-"; Dirm; Lit "-"; Dird].
Definition fmt_m_d_Y : list directive := [Dirm; Lit "/"; Dird; Lit "/"; DirY].
Definition fmt_d_m_Y : list directive := [Dird; Lit "/"; Dirm; Lit "/"; DirY].
Definition fmt_Ymd : list directive := [DirY; Dirm; Dird].

Definition digit_val (c : ascii) : option N :=
  if PyStr.is_digit c then Some (N_of_ascii c - 48)%N else None.

Definition in_range (lo hi : N) (c : ascii) : option N :=
  match digit_val c with
  | Some v => if ((lo <=? v) && (v <=? hi))%N then Some v else None
  | None => None
  end.

(** One alternative of a directive's pattern: a first character in
    [lo1..hi1] followed by one in [lo2..hi2]. *)
Definition two_digits (lo1 hi1 lo2 hi2 : N) (s : string) : list (N * string) :=
  match s with
  | String a (String b rest) =>
      match in_range lo1 hi1 a, in_range lo2 hi2 b with
      | Some x, Some y => [((10 * x + y)%N, rest)]
      | _, _ => []
      end
  | _ => []
  end.

Definition one_digit (lo hi : N) (s : string) : list (N * string) :=
  match s with
  | String a rest =>
      match in_range lo hi a with
      | Some x => [(x, rest)]
      | None => []
      end
  | _ => []
  end.

(** The last alternative of [%d]: a space and a digit [1-9]. *)
Definition space_digit (s : string) : list (N * string) :=
  match s with
  | String a rest => if Ascii.eqb a " " then one_digit 1 9 rest else []
  | _ => []
  end.

Definition four_digits (s : string) : list (N * string) :=
  match s with
  | String a (String b (String c (String d rest))) =>
      match digit_val a, digit_val b, digit_val c, digit_val d with
      | Some w, Some x, Some y, Some z =>
          [((1000 * w + 100 * x + 10 * y + z)%N, rest)]
      | _, _, _, _ => []
      end
  | _ => []
  end.

(** The ways a directive can match a prefix of [s], in the order the
    regular expression of [_strptime] tries them:
    [%Y] is [\d\d\d\d], [%m] is [1[0-2]|0[1-9]|[1-9]] and
    [%d] is [3[0-1]|[1-2]\d|0[1-9]|[1-9]| [1-9]]. *)
Definition alternatives (d : directive) (s : string) : list (N * string) :=
  match d with
  | DirY => four_digits s
  | Dirm => two_digits 1 1 0 2 s ++ two_digits 0 0 1 9 s ++ one_digit 1 9 s
  | Dird => two_digits 3 3 0 1 s ++ two_digits 1 2 0 9 s ++
            two_digits 0 0 1 9 s ++ one_digit 1 9 s ++ space_digit s
  | Lit c =>
      match s with
      | String a rest => if Ascii.eqb a c then [(0%N, rest)] else []
      | _ => []
      end
  end.

(** Year, month and day as read so far. *)
Definition ymd : Type := (N * N * N)%type.

Definition record_field (d : directive) (v : N) (acc : ymd) : ymd :=
  let '(y, m, dd) := acc in
  match d with
  | DirY => (v, m, dd)
  | Dirm => (y, v, dd)
  | Dird => (y, m, v)
  | Lit _ => acc
  end.

(** All the matches of the format at the start of [s], in backtracking
    order, each with the input it leaves unread. *)
Fixpoint matches_of (fmt : list directive) (s : string) (acc : ymd)
  : list (ymd * string) :=
  match fmt with
  | [] => [(acc, s)]
  | d :: rest =>
      flat_map (fun '(v, s') => matches_of rest s' (record_field d v acc))
               (alternatives d s)
  end.

Definition is_leap (y : N) : bool :=
  ((y mod 4 =? 0) && (negb (y mod 100 =? 0) || (y mod 400 =? 0)))%N.

Definition days_in_month (y m : N) : N :=
  match m with
  | 2 => if is_leap y then 29 else 28
  | 4 | 6 | 9 | 11 => 30
  | _ => 31
  end%N.

(** What [datetime(y, m, d)] accepts. *)
Definition valid_date (y m d : N) : bool :=
  ((1 <=? y) && (y <=? 9999) && (1 <=? m) && (m <=? 12) &&
   (1 <=? d) && (d <=? days_in_month y m))%N.

(** [datetime.strptime(s, fmt)]: [None] stands for [ValueError].  The
    pattern is matched at the start of [s]; the first match in backtracking
    order is the one taken, it has to consume all of [s] (otherwise
    unconverted data remains), and the fields have to form a date. *)
Definition strptime (s : string) (fmt : list directive) : option datetime :=
  match matches_of fmt s (1900, 1, 1)%N with
  | ((y, m, d), EmptyString) :: _ =>
      if valid_date y m d then Some (mk_datetime y m d 0 0 0) else None
  | _ => None
  end.

End PyDate.

(* ===================================================================== *)
(** ** Workbooks, worksheets, cells, styles *)
(* ===================================================================== *)

(** A cell value.  [None] at the level of [option Value] is Python's [None],
    the empty cell.  Numbers are integers here: the script only copies them
    and tests them for zero. *)
Inductive Value : Type :=
| VStr (s : string)
| VNum (x : Z)
| VBool (b : bool)
| VDate (d : PyDate.datetime).

(** Python's truth value of a cell value ([if cell_value:]). *)
Definition truthy (v : option Value) : bool :=
  match v with
  | None => false
  | Some (VStr s) => PyStr.truthy s
  | Some (VNum x) => negb (x =? 0)%Z
  | Some (VBool b) => b
  | Some (VDate _) => true
  end.

(** The contents of a style object.  The script only reads, copies and
    assigns style objects, so a few attributes of each kind stand for all
    of them; two style objects are equal when their contents are. *)
Inductive StyleObj : Type :=
| Font (name : string) (sz : N) (bold italic : bool)
| Border (left right top bottom : string)
| PatternFill (fill_type fgColor : string)
| Protection (locked hidden : bool)
| Alignment (horizontal vertical : string) (wrap_text : bool).

#[global] Instance StyleObj_inhabited : Inhabited StyleObj :=
  populate (Font "Calibri" 11 false false).

#[global] Instance StyleObj_eq_dec : EqDecision StyleObj.
Proof. solve_decision. Defined.

(** [cell._style], a [StyleArray]: nine numbers.  The first six are
    positions: of the font, the fill and the border in the tables of the
    workbook, of the number format among the built-in formats or in the
    workbook's own table, of the protection and of the alignment. *)
Record StyleArray : Type := mk_style {
  fontId : nat;
  fillId : nat;
  borderId : nat;
  numFmtId : nat;
  protectionId : nat;
  alignmentId : nat;
  pivotButton : nat;
  quotePrefix : nat;
  xfId : nat
}.

(** [StyleArray()] *)
Definition no_style : StyleArray := mk_style 0 0 0 0 0 0 0 0 0.

(** A cell: its value and its [_style], which is [None] until a style is
    assigned or the cell is read from a file. *)
Record Cell : Type := mk_cell {
  value : option Value;
  style : option StyleArray
}.

Definition empty_cell : Cell := mk_cell None None.

(** [cell.has_style]: [_style] is there and one of its numbers is not 0. *)
Definition has_style (c : Cell) : bool :=
  match style c with
  | None => false
  | Some a =>
      negb (forallb (Nat.eqb 0)
              [fontId a; fillId a; borderId a; numFmtId a; protectionId a;
               alignmentId a; pivotButton a; quotePrefix a; xfId a])
  end.

Abbreviation coord := (positive * positive)%type (only parsing).

(** A [CellRange], as [A1:C2] is: [first_row] and [first_col] are openpyxl's
    [min_row] and [min_col], [last_row] and [last_col] its [max_row] and
    [max_col].  [str(range)] and the parsing of the string by [merge_cells]
    are inverse to each other and are left out. *)
Record CellRange : Type := mk_range {
  first_row : positive;
  first_col : positive;
  last_row : positive;
  last_col : positive
}.

#[global] Instance CellRange_eq_dec : EqDecision CellRange.
Proof. solve_decision. Defined.

Record Worksheet : Type := mk_sheet {
  cells : gmap coord Cell;
  column_dimensions : gmap string Z;     (* column letter -> width *)
  row_dimensions : gmap positive Z;      (* row index -> height *)
  merged_cells : list CellRange          (* [merged_cells.ranges] *)
}.

Definition empty_sheet : Worksheet := mk_sheet ∅ ∅ ∅ [].

(** [ws.cell(row, column)], read. *)
Definition cell_at (ws : Worksheet) (p : coord) : Cell :=
  default empty_cell (cells ws !! p).

Definition set_cell (p : coord) (c : Cell) (ws : Worksheet) : Worksheet :=
  mk_sheet (<[p := c]> (cells ws))
           (column_dimensions ws) (row_dimensions ws) (merged_cells ws).

(** The value of the cell at [p] becomes [v]; its style stays. *)
Definition set_value (p : coord) (v : option Value) (ws : Worksheet) : Worksheet :=
  set_cell p (mk_cell v (style (cell_at ws p))) ws.

(** The style of the cell at [p] becomes [s]; its value stays. *)
Definition set_style (p : coord) (s : StyleArray) (ws : Worksheet) : Worksheet :=
  set_cell p (mk_cell (value (cell_at ws p)) (Some s)) ws.

Definition max_row (ws : Worksheet) : positive :=
  map_fold (fun (p : coord) (_ : Cell) m => Pos.max p.1 m) 1%positive (cells ws).

Definition max_column (ws : Worksheet) : positive :=
  map_fold (fun (p : coord) (_ : Cell) m => Pos.max p.2 m) 1%positive (cells ws).

(** [1, 2, ..., n] *)
Definition pos_range (n : positive) : list positive :=
  map Pos.of_nat (seq 1 (Pos.to_nat n)).

(** The coordinates [ws.iter_rows()] visits: rows [1..max_row], and in each
    row the columns [1..max_column]. *)
Definition iter_rows (ws : Worksheet) : list coord :=
  flat_map (fun r => map (fun c => (r, c)) (pos_range (max_column ws)))
           (pos_range (max_row ws)).

(** [lo, lo+1, ..., hi] *)
Definition pos_between (lo hi : positive) : list positive :=
  map Pos.of_nat (seq (Pos.to_nat lo) (S (Pos.to_nat hi) - Pos.to_nat lo)).

(** [range.cells]: the cells of a range, row by row; the first is the top
    left cell. *)
Definition range_cells (r : CellRange) : list coord :=
  flat_map (fun row => map (fun c => (row, c))
                           (pos_between (first_col r) (last_col r)))
           (pos_between (first_row r) (last_row r)).

(** [r <= other]: [r.issubset(other)] *)
Definition issubset (r other : CellRange) : bool :=
  ((first_row other <=? first_row r) && (first_row r <=? last_row r)
   && (last_row r <=? last_row other)
   && (first_col other <=? first_col r) && (first_col r <=? last_col r)
   && (last_col r <=? last_col other))%positive.

(** The cell at [p] is a [MergedCell]: a cell of a merged range other than
    its first.  The reader of openpyxl and [merge_cells] put a [MergedCell]
    at exactly these coordinates. *)
Definition merged_cell (ws : Worksheet) (p : coord) : bool :=
  existsb (fun r => bool_decide (p ∈ tail (range_cells r))) (merged_cells ws).

(** A workbook: its sheets in order, each with its title. *)
Abbreviation Workbook := (list (string * Worksheet)) (only parsing).

Definition sheetnames (wb : Workbook) : list string := fst <$> wb.

(** The sheet at a position; sheets are referred to by position. *)
Definition sheet_at (wb : Workbook) (i : nat) : Worksheet :=
  match wb !! i with Some (_, ws) => ws | None => empty_sheet end.

Definition update_sheet (i : nat) (f : Worksheet -> Worksheet) (wb : Workbook)
  : Workbook :=
  alter (fun '(n, ws) => (n, f ws)) i wb.

(** [name in wb.sheetnames] *)
Definition has_sheet (name : string) (wb : Workbook) : bool :=
  bool_decide (name ∈ sheetnames wb).

(** The position of [wb[name]]. *)
Fixpoint index_of (name : string) (wb : Workbook) : option nat :=
  match wb with
  | [] => None
  | (n, _) :: rest =>
      if String.eqb n name then Some O else S <$> index_of name rest
  end.

(** [wb.remove(wb[name])] *)
Fixpoint remove_sheet (name : string) (wb : Workbook) : Workbook :=
  match wb with
  | [] => []
  | (n, ws) :: rest =>
      if String.eqb n name then rest else (n, ws) :: remove_sheet name rest
  end.

(** The style tables of a workbook: [wb._fonts], [wb._fills],
    [wb._borders], [wb._protections], [wb._alignments] and
    [wb._number_formats]. *)
Record StyleTables : Type := mk_tables {
  fonts : list StyleObj;
  fills : list StyleObj;
  borders : list StyleObj;
  protections : list StyleObj;
  alignments : list StyleObj;
  number_formats : list string
}.

(** An open workbook: its sheets and its style tables. *)
Record State : Type := mk_state {
  wb : Workbook;
  heap : StyleTables
}.

(** [copy(obj)] of a style object: a new object with the contents of
    [obj].  A style object stands for its contents here: that is all a
    setter keeps of it, which stores in the cell the position of an equal
    entry of the workbook's table. *)
Definition copy (obj : StyleObj) : StyleObj := obj.

(** What the library brings and the embedding takes as given:
    - [BUILTIN_FORMATS], the table of the built-in number formats;
    - [is_date_format], the test on a number format that the assignment of a
      date to a cell makes;
    - [merged_format], what [MergedCellRange] does to the styles of a range
      that is merged (it derives borders for the cells at the edge of the
      range and gives every cell the protection of the first): from the
      template sheet (whose extent decides which cells of the new sheet
      exist), the table of borders, the sheet and the range, the borders it
      adds to the table and the style array it gives a cell of the range,
      if it gives it one. *)
Record Openpyxl : Type := mk_openpyxl {
  BUILTIN_FORMATS : nat -> option string;
  is_date_format : string -> bool;
  merged_format : Worksheet -> list StyleObj -> Worksheet -> CellRange ->
                  list StyleObj * (coord -> option StyleArray)
}.

(** Exceptions, and the outcome of a piece of Python code: it returns, it
    raises, or the model ran out of fuel in a [while] loop. *)
Inductive exn : Type :=
| TemplateError                  (* raised by copy2 or load_workbook *)
| FileReadError (path : string)  (* raised by load_workbook(filepath) *)
| SaveError (path : string)      (* raised by summary_wb.save *)
| SheetTitleError                (* raised by create_sheet: invalid title *)
| MergedCellError (p : coord)    (* AttributeError: the value of a
                                    MergedCell is read-only *)
| IllegalCharacterError.         (* raised by the assignment of a string *)

Inductive result (A : Type) : Type :=
| Returned (a : A)
| Raised (e : exn)
| OutOfFuel.

Arguments Returned {A} a.
Arguments Raised {A} e.
Arguments OutOfFuel {A}.

(* ===================================================================== *)
(** ** [remove_external_links] *)
(* ===================================================================== *)

(** The pattern [\[.*\.xl.*\]]. *)
Definition external_workbook_re : Regex.re :=
  Regex.Cat (Regex.Chr "[")
    (Regex.Cat (Regex.Star Regex.Dot)
      (Regex.Cat (Regex.Chr ".")
        (Regex.Cat (Regex.Chr "x")
          (Regex.Cat (Regex.Chr "l")
            (Regex.Cat (Regex.Star Regex.Dot) (Regex.Chr "]")))))).

(** The nested tests of the loop body: [true] when the cell is cleared. *)
Definition is_cleared (v : option Value) : bool :=
  match v with
  | Some (VStr s) =>
      if PyStr.truthy s then
        if Regex.search external_workbook_re s || PyStr.contains "'" s then
          if PyStr.startswith "=" s then
            if PyStr.contains "[" s && PyStr.contains "]" s then true
            else false
          else false
        else false
      else false
  | _ => false
  end.

Definition sanitize_cell (ws : Worksheet) (p : coord) : Worksheet :=
  if is_cleared (value (cell_at ws p)) then set_value p None ws else ws.

Definition sanitize_sheet (ws : Worksheet) : Worksheet :=
  fold_left sanitize_cell (iter_rows ws) ws.

Definition remove_external_links (workbook : Workbook) : Workbook :=
  (fun '(n, ws) => (n, sanitize_sheet ws)) <$> workbook.

(* ===================================================================== *)
(** ** [extract_date_from_sheet] *)
(* ===================================================================== *)

Definition date_formats : list (list PyDate.directive) :=
  [PyDate.fmt_Y_m_d; PyDate.fmt_m_d_Y; PyDate.fmt_d_m_Y; PyDate.fmt_Ymd].

(** The loop over the formats: the first one that parses wins. *)
Fixpoint try_formats (fmts : list (list PyDate.directive)) (s : string)
  : option string :=
  match fmts with
  | [] => None
  | f :: rest =>
      match PyDate.strptime s f with
      | Some parsed_date => Some (PyDate.strftime_Ymd parsed_date)
      | None => try_formats rest s
      end
  end.

(** What one cell of the window contributes to [date_value]. *)
Definition probe_cell (cell_value : option Value) : option string :=
  if truthy cell_value then
    match cell_value with
    | Some (VDate d) => Some (PyDate.strftime_Ymd d)
    | Some (VStr s) => try_formats date_formats s
    | _ => None
    end
  else None.

(** The inner loop, over the columns of one row, with its [break]. *)
Fixpoint scan_columns (client_ws : Worksheet) (row : positive)
  (cols : list positive) : option string :=
  match cols with
  | [] => None
  | col :: rest =>
      match probe_cell (value (cell_at client_ws (row, col))) with
      | Some date_value => Some date_value
      | None => scan_columns client_ws row rest
      end
  end.

(** The outer loop, over the rows, with its [break]. *)
Fixpoint scan_rows (client_ws : Worksheet) (rows : list positive)
  : option string :=
  match rows with
  | [] => None
  | row :: rest =>
      match scan_columns client_ws row (pos_range 5) with
      | Some date_value => Some date_value
      | None => scan_rows client_ws rest
      end
  end.

Definition extract_date_from_sheet (client_ws : Worksheet) : option string :=
  scan_rows client_ws (pos_range 5).

(* ===================================================================== *)
(** ** What the script uses of openpyxl *)
(* ===================================================================== *)

(** *** Style tables

    [wb._fonts] and the like are [IndexedList]s: lists with a dictionary
    from each value to a position; for a value that occurs more than once
    that is the position of its last occurrence. *)

Fixpoint index_last {A} `{EqDecision A} (x : A) (l : list A) : option nat :=
  match l with
  | [] => None
  | y :: t =>
      match index_last x t with
      | Some i => Some (S i)
      | None => if decide (x = y) then Some O else None
      end
  end.

(** [coll.add(value)]: the value is appended unless the list has it, and
    its position is returned. *)
Definition indexed_add {A} `{EqDecision A} (x : A) (l : list A) : list A * nat :=
  match index_last x l with
  | Some i => (l, i)
  | None => ((l ++ [x])%list, length l)
  end.

(** The five style attributes that a [StyleDescriptor] gives a cell, each
    with its table and its place in the style array. *)
Inductive component : Type := FontC | FillC | BorderC | ProtectionC | AlignmentC.

#[global] Instance component_eq_dec : EqDecision component.
Proof. solve_decision. Defined.

Definition collection (k : component) (t : StyleTables) : list StyleObj :=
  match k with
  | FontC => fonts t
  | FillC => fills t
  | BorderC => borders t
  | ProtectionC => protections t
  | AlignmentC => alignments t
  end.

Definition with_collection (k : component) (l : list StyleObj) (t : StyleTables)
  : StyleTables :=
  match k with
  | FontC => mk_tables l (fills t) (borders t) (protections t) (alignments t)
               (number_formats t)
  | FillC => mk_tables (fonts t) l (borders t) (protections t) (alignments t)
               (number_formats t)
  | BorderC => mk_tables (fonts t) (fills t) l (protections t) (alignments t)
                 (number_formats t)
  | ProtectionC => mk_tables (fonts t) (fills t) (borders t) l (alignments t)
                     (number_formats t)
  | AlignmentC => mk_tables (fonts t) (fills t) (borders t) (protections t) l
                    (number_formats t)
  end.

Definition style_key (k : component) (a : StyleArray) : nat :=
  match k with
  | FontC => fontId a
  | FillC => fillId a
  | BorderC => borderId a
  | ProtectionC => protectionId a
  | AlignmentC => alignmentId a
  end.

Definition with_style_key (k : component) (i : nat) (a : StyleArray) : StyleArray :=
  match k with
  | FontC => mk_style i (fillId a) (borderId a) (numFmtId a) (protectionId a)
               (alignmentId a) (pivotButton a) (quotePrefix a) (xfId a)
  | FillC => mk_style (fontId a) i (borderId a) (numFmtId a) (protectionId a)
               (alignmentId a) (pivotButton a) (quotePrefix a) (xfId a)
  | BorderC => mk_style (fontId a) (fillId a) i (numFmtId a) (protectionId a)
                 (alignmentId a) (pivotButton a) (quotePrefix a) (xfId a)
  | ProtectionC => mk_style (fontId a) (fillId a) (borderId a) (numFmtId a) i
                     (alignmentId a) (pivotButton a) (quotePrefix a) (xfId a)
  | AlignmentC => mk_style (fontId a) (fillId a) (borderId a) (numFmtId a)
                    (protectionId a) i (pivotButton a) (quotePrefix a) (xfId a)
  end.

Definition with_numFmtId (i : nat) (a : StyleArray) : StyleArray :=
  mk_style (fontId a) (fillId a) (borderId a) i (protectionId a)
    (alignmentId a) (pivotButton a) (quotePrefix a) (xfId a).

(** The style array of a cell, made when the cell has none. *)
Definition style_array (c : Cell) : StyleArray := default no_style (style c).

(** [cell.font], [cell.fill], ...: the entry of the table at the position
    the cell holds. *)
Definition descriptor_get (k : component) (t : StyleTables) (c : Cell) : StyleObj :=
  collection k t !!! style_key k (style_array c).

(** The operations below are methods of a sheet or of one of its cells:
    they act on the sheet and on the tables of its workbook. *)
Definition update_style (p : coord) (f : StyleArray -> StyleArray)
  (ws : Worksheet) : Worksheet :=
  set_style p (f (style_array (cell_at ws p))) ws.

(** [cell.font = v], [cell.fill = v], ... for the cell at [p]. *)
Definition descriptor_set (k : component) (p : coord) (v : StyleObj)
  (s : Worksheet * StyleTables) : Worksheet * StyleTables :=
  let '(l, idx) := indexed_add v (collection k s.2) in
  (update_style p (with_style_key k idx) s.1, with_collection k l s.2).

Definition BUILTIN_FORMATS_MAX_SIZE : nat := 164.

(** [BUILTIN_FORMATS_REVERSE]: from a format to its number; of two numbers
    with the same format the table keeps the later one. *)
Definition BUILTIN_FORMATS_REVERSE (lib : Openpyxl) (fmt : string) : option nat :=
  find (fun i => bool_decide (BUILTIN_FORMATS lib i = Some fmt))
       (rev (seq 0 BUILTIN_FORMATS_MAX_SIZE)).

(** [cell.number_format] *)
Definition get_number_format (lib : Openpyxl) (t : StyleTables) (c : Cell)
  : string :=
  let idx := numFmtId (style_array c) in
  if (idx <? BUILTIN_FORMATS_MAX_SIZE)%nat
  then default "General" (BUILTIN_FORMATS lib idx)
  else number_formats t !!! (idx - BUILTIN_FORMATS_MAX_SIZE).

(** [cell.number_format = v] for the cell at [p]. *)
Definition set_number_format (lib : Openpyxl) (p : coord) (v : string)
  (s : Worksheet * StyleTables) : Worksheet * StyleTables :=
  match BUILTIN_FORMATS_REVERSE lib v with
  | Some idx => (update_style p (with_numFmtId idx) s.1, s.2)
  | None =>
      let '(l, i) := indexed_add v (number_formats s.2) in
      (update_style p (with_numFmtId (i + BUILTIN_FORMATS_MAX_SIZE)) s.1,
       mk_tables (fonts s.2) (fills s.2) (borders s.2) (protections s.2)
         (alignments s.2) l)
  end.

(** *** The value of a cell *)

(** [ILLEGAL_CHARACTERS_RE]: the control characters 0-8, 11, 12, 14-31. *)
Definition ILLEGAL_CHARACTER (c : ascii) : bool :=
  let n := N_of_ascii c in
  ((n <=? 8) || ((11 <=? n) && (n <=? 12)) || ((14 <=? n) && (n <=? 31)))%N.

(** [cell.check_string(s)]: the string is cut to 32767 characters; [None]
    stands for [IllegalCharacterError]. *)
Definition check_string (s : string) : option string :=
  let s' := PyStr.slice_to 32767 s in
  if PyStr.any_char ILLEGAL_CHARACTER s' then None else Some s'.

Definition FORMAT_DATE_DATETIME : string := "yyyy-mm-dd h:mm:ss".

(** [cell.value = v] for the cell at [p], with what the sheet and the
    tables are when the assignment raises.  A [MergedCell] refuses the
    assignment; a string is checked; a date gives the cell a date format
    when the format it has is none. *)
Definition assign_value (lib : Openpyxl) (p : coord) (v : Value)
  (s : Worksheet * StyleTables) : (Worksheet * StyleTables) * result unit :=
  if merged_cell s.1 p then (s, Raised (MergedCellError p))
  else
    match v with
    | VStr x =>
        match check_string x with
        | Some x' => ((set_value p (Some (VStr x')) s.1, s.2), Returned tt)
        | None => (s, Raised IllegalCharacterError)
        end
    | VDate d =>
        let s1 :=
          if is_date_format lib (get_number_format lib s.2 (cell_at s.1 p))
          then s else set_number_format lib p FORMAT_DATE_DATETIME s in
        ((set_value p (Some v) s1.1, s1.2), Returned tt)
    | _ => ((set_value p (Some v) s.1, s.2), Returned tt)
    end.

(** *** Merged ranges *)

(** [ws.merged_cells.add(r)]: a range that lies within a range of the list
    is not added. *)
Definition add_range (r : CellRange) (ws : Worksheet) : Worksheet :=
  mk_sheet (cells ws) (column_dimensions ws) (row_dimensions ws)
    (if existsb (issubset r) (merged_cells ws) then merged_cells ws
     else (merged_cells ws ++ [r])%list).

(** [ws._clean_merge_range(r)], the cells: every cell of the range but the
    first becomes a new [MergedCell], without value and without style. *)
Definition clean_merge_range (r : CellRange) (ws : Worksheet) : Worksheet :=
  fold_left (fun s p => set_cell p empty_cell s) (tail (range_cells r)) ws.

(** [mcr.format()]: the styles that the merge gives the cells of the
    range. *)
Definition format_merged (styles : coord -> option StyleArray) (r : CellRange)
  (ws : Worksheet) : Worksheet :=
  fold_left (fun s p => match styles p with
                        | Some a => set_style p a s
                        | None => s
                        end)
            (range_cells r) ws.

(** [ws.merge_cells(str(r))], called while the sheet is built after the
    template [tab1]. *)
Definition merge_cells (lib : Openpyxl) (tab1 : Worksheet) (r : CellRange)
  (s : Worksheet * StyleTables) : Worksheet * StyleTables :=
  let '(added, styles) := merged_format lib tab1 (borders s.2) s.1 r in
  (format_merged styles r (clean_merge_range r (add_range r s.1)),
   with_collection BorderC (borders s.2 ++ added)%list s.2).

(** *** Sheets *)

Definition set_width (col : string) (w : Z) (ws : Worksheet) : Worksheet :=
  mk_sheet (cells ws) (<[col := w]> (column_dimensions ws))
           (row_dimensions ws) (merged_cells ws).

Definition set_height (row : positive) (h : Z) (ws : Worksheet) : Worksheet :=
  mk_sheet (cells ws) (column_dimensions ws)
           (<[row := h]> (row_dimensions ws)) (merged_cells ws).

(** [INVALID_TITLE_REGEX]: the characters a sheet title cannot have. *)
Definition INVALID_TITLE_CHARACTER (c : ascii) : bool :=
  existsb (Ascii.eqb c) ["\"; "*"; "?"; ":"; "/"; "["; "]"]%char.

(** What is left of [s] after [p] matched at its start, ignoring case. *)
Fixpoint match_ignoring_case (p s : string) : option string :=
  match p, s with
  | EmptyString, _ => Some s
  | String a p', String b s' =>
      if Ascii.eqb (PyStr.lower_char a) (PyStr.lower_char b)
      then match_ignoring_case p' s' else None
  | String _ _, EmptyString => None
  end.

(** The digits at the start of [s], and what follows them. *)
Fixpoint span_digits (s : string) : string * string :=
  match s with
  | String c t =>
      if PyStr.is_digit c
      then let '(d, r) := span_digits t in (String c d, r)
      else (EmptyString, s)
  | EmptyString => (EmptyString, EmptyString)
  end.

(** [re.findall] of the title, ignoring case, followed by digits and
    perhaps a comma: the digits of each match, from left to right; a match
    starts where the one before it ended ([skip] characters from here). *)
Fixpoint findall_counts (title : string) (skip : nat) (s : string) : list string :=
  match s with
  | EmptyString => []
  | String _ t =>
      match skip with
      | S k => findall_counts title k t
      | O =>
          match match_ignoring_case title s with
          | Some rest =>
              let '(count, rest') := span_digits rest in
              let comma := match rest' with
                           | String ","%char _ => 1
                           | _ => 0
                           end in
              count :: findall_counts title
                         (String.length title + String.length count + comma - 1) t
          | None => findall_counts title 0 t
          end
      end
  end.

(** [avoid_duplicate_name(names, value)]: a title that equals one of the
    workbook's up to case gets a number appended, one more than the largest
    that follows the title in the names. *)
Definition avoid_duplicate_name (names : list string) (value : string) : string :=
  if existsb (fun n => String.eqb (PyStr.lower n) (PyStr.lower value)) names
  then
    match findall_counts value 0 (PyStr.join "," names) with
    | [] => value
    | matches =>
        let counts := map (fun idx => PyStr.value_acc idx 0)
                          (List.filter PyStr.truthy matches) in
        value ++ PyStr.str_of_N (fold_right N.max 0%N counts + 1)
    end
  else value.

(** The title a new sheet gets: [None] stands for the exception that an
    invalid character raises; an empty title is replaced by [Sheet]. *)
Definition sheet_title (names : list string) (title : string) : option string :=
  let value := if PyStr.truthy title then title else "Sheet" in
  if PyStr.any_char INVALID_TITLE_CHARACTER value then None
  else Some (avoid_duplicate_name names value).

(** [wb.create_sheet(title)]: a new, empty sheet at the end; the result is
    the position of the new sheet. *)
Definition create_sheet (title : string) (st : State) : option (State * nat) :=
  match sheet_title (sheetnames (wb st)) title with
  | None => None
  | Some t =>
      Some (mk_state (wb st ++ [(t, empty_sheet)])%list (heap st),
            length (wb st))
  end.

(** A method of the sheet at position [i], or of one of its cells, run in
    the workbook. *)
Definition on_sheet (i : nat)
  (f : Worksheet * StyleTables -> Worksheet * StyleTables) (st : State) : State :=
  let r := f (sheet_at (wb st) i, heap st) in
  mk_state (update_sheet i (fun _ => r.1) (wb st)) r.2.

(* ===================================================================== *)
(** ** [copy_tab1_format_with_client_data] *)
(* ===================================================================== *)

(** The body of the first loop, for the template cell at [p].  The cell
    [new_ws.cell(row, column)] that the loop creates for a template cell
    without style is the empty cell, which the new sheet reads there
    anyway. *)
Definition copy_cell_format (lib : Openpyxl) (tab1_ws new_ws : nat) (st : State)
  (p : coord) : State :=
  let cell := cell_at (sheet_at (wb st) tab1_ws) p in
  if has_style cell then
    let st1 := on_sheet new_ws
                 (descriptor_set FontC p (copy (descriptor_get FontC (heap st) cell)))
                 st in
    let st2 := on_sheet new_ws
                 (descriptor_set BorderC p (copy (descriptor_get BorderC (heap st1) cell)))
                 st1 in
    let st3 := on_sheet new_ws
                 (descriptor_set FillC p (copy (descriptor_get FillC (heap st2) cell)))
                 st2 in
    let st4 := on_sheet new_ws
                 (set_number_format lib p (get_number_format lib (heap st3) cell))
                 st3 in
    let st5 := on_sheet new_ws
                 (descriptor_set ProtectionC p
                    (copy (descriptor_get ProtectionC (heap st4) cell)))
                 st4 in
    on_sheet new_ws
      (descriptor_set AlignmentC p (copy (descriptor_get AlignmentC (heap st5) cell)))
      st5
  else st.

Definition copy_column_width (tab1_ws new_ws : nat) (st : State) (col : string)
  : State :=
  match column_dimensions (sheet_at (wb st) tab1_ws) !! col with
  | Some w => mk_state (update_sheet new_ws (set_width col w) (wb st)) (heap st)
  | None => st
  end.

Definition copy_row_height (tab1_ws new_ws : nat) (st : State) (row : positive)
  : State :=
  match row_dimensions (sheet_at (wb st) tab1_ws) !! row with
  | Some h => mk_state (update_sheet new_ws (set_height row h) (wb st)) (heap st)
  | None => st
  end.

Definition copy_merged_range (lib : Openpyxl) (tab1_ws new_ws : nat) (st : State)
  (rng : CellRange) : State :=
  on_sheet new_ws (merge_cells lib (sheet_at (wb st) tab1_ws) rng) st.

(** The body of the last loop, for the client cell at [p]: nothing happens
    once an assignment has raised. *)
Definition copy_cell_value (lib : Openpyxl) (client_ws : Worksheet) (new_ws : nat)
  (acc : State * result unit) (p : coord) : State * result unit :=
  match acc.2 with
  | Returned _ =>
      match value (cell_at client_ws p) with
      | Some v =>
          let r := assign_value lib p v
                     (sheet_at (wb acc.1) new_ws, heap acc.1) in
          (mk_state (update_sheet new_ws (fun _ => r.1.1) (wb acc.1)) r.1.2, r.2)
      | None => acc
      end
  | _ => acc
  end.

(** The template is the sheet at position [tab1_ws] of the workbook of
    [st]; the client's sheet belongs to another workbook and is only read.
    The result is the state when the call ends, and the position of
    [new_ws] or the exception that ended the call: an invalid title raises
    before there is a new sheet, a refused assignment leaves the new sheet
    as far as it was filled. *)
Definition copy_tab1_format_with_client_data (lib : Openpyxl)
  (tab1_ws : nat) (client_ws : Worksheet) (new_tab_name : string) (st : State)
  : State * result nat :=
  match create_sheet new_tab_name st with
  | None => (st, Raised SheetTitleError)
  | Some (st0, new_ws) =>
      let st1 := fold_left (copy_cell_format lib tab1_ws new_ws)
                   (iter_rows (sheet_at (wb st0) tab1_ws)) st0 in
      let st2 := fold_left (copy_column_width tab1_ws new_ws)
                   (map fst (map_to_list (column_dimensions (sheet_at (wb st1) tab1_ws))))
                   st1 in
      let st3 := fold_left (copy_row_height tab1_ws new_ws)
                   (map fst (map_to_list (row_dimensions (sheet_at (wb st2) tab1_ws))))
                   st2 in
      let st4 := fold_left (copy_merged_range lib tab1_ws new_ws)
                   (merged_cells (sheet_at (wb st3) tab1_ws)) st3 in
      let r := fold_left (copy_cell_value lib client_ws new_ws)
                 (iter_rows client_ws) (st4, Returned tt) in
      (r.1, match r.2 with
            | Returned _ => Returned new_ws
            | Raised e => Raised e
            | OutOfFuel => OutOfFuel
            end)
  end.

(* ===================================================================== *)
(** ** File names *)
(* ===================================================================== *)

(** [os.path.basename(p)]: what follows the last [/]. *)
Definition basename (p : string) : string :=
  PyStr.last_part (PyStr.split "/" p).

(** [os.path.splitext(b)[0]] for a name without directory part: the name up
    to its last dot, unless only dots come before that dot. *)
Definition splitext_root (b : string) : string :=
  let parts := PyStr.split "." b in
  if existsb PyStr.truthy (removelast parts)
  then PyStr.join "." (removelast parts)
  else b.

Definition extract_client_name (filename : string) : string :=
  let name_without_ext := splitext_root (basename filename) in
  let parts := PyStr.split "_" name_without_ext in
  if (2 <=? length parts)%nat then PyStr.join "_" (removelast parts)
  else name_without_ext.

Definition extract_date_from_filename (filename : string) : string :=
  let name_without_ext := splitext_root (basename filename) in
  let parts := PyStr.split "_" name_without_ext in
  if (2 <=? length parts)%nat then PyStr.last_part parts
  else EmptyString.

(* ===================================================================== *)
(** ** [get_client_files] *)
(* ===================================================================== *)

(** [s.endswith(suffix)] *)
Fixpoint endswith (suffix s : string) : bool :=
  String.eqb s suffix ||
  match s with
  | EmptyString => false
  | String _ t => endswith suffix t
  end.

(** [glob.glob(os.path.join(dir, "*" + suffix))] over the entries [names]
    of the directory, in the order the directory lists them: the names that
    end with [suffix], without those that start with a dot, which a pattern
    that starts with [*] never matches; each comes back joined to [dir].
    Paths are POSIX paths: the separator is [/] and names are compared
    character by character. *)
Definition glob_star (dir suffix : string) (names : list string) : list string :=
  map (fun n => dir ++ "/" ++ n)
      (List.filter (fun n => endswith suffix n && negb (PyStr.startswith "." n))
                   names).

(** The suffixes of [excel_patterns]. *)
Definition excel_suffixes : list string := [".xlsx"; ".xls"; ".xlsm"].

(** [listing] is what the directory [client_portfolio] holds, [None] when
    [os.path.exists] says it is not there. *)
Definition get_client_files (listing : option (list string)) : list string :=
  match listing with
  | None => []
  | Some names =>
      fold_left
        (fun client_files suffix =>
           (client_files ++
            List.filter (fun f => negb (PyStr.startswith "~$" (basename f)))
                        (glob_star "client_portfolio" suffix names))%list)
        excel_suffixes []
  end.

(* ===================================================================== *)
(** ** The unique tab name (lines 232-239 of [create_summary_for_client]) *)
(* ===================================================================== *)

(** The name tried for a value of [counter]:
    [f"{original_name[:31-len(suffix)]}{suffix}"] with [suffix = f"_{counter}"]. *)
Definition candidate (original_name : string) (counter : N) : string :=
  let suffix := "_" ++ PyStr.str_of_N counter in
  PyStr.slice_to (31 - Z.of_nat (String.length suffix)) original_name ++ suffix.

(** The [while] loop, run for at most [fuel] iterations: [None] when the
    fuel runs out before the loop exits. *)
Fixpoint while_name_taken (fuel : nat) (used : list string)
  (original_name new_tab_name : string) (counter : N) : option string :=
  if bool_decide (new_tab_name ∈ used) then
    match fuel with
    | O => None
    | S f =>
        while_name_taken f used original_name
          (candidate original_name counter) (counter + 1)%N
    end
  else Some new_tab_name.

(** Truncation to the limit of Excel, then the loop.  The fuel is enough for
    every list of used names ([unique_tab_name_total]). *)
Definition unique_tab_name (desired : string) (used : list string)
  : option string :=
  let new_tab_name := PyStr.slice_to 31 desired in
  while_name_taken (S (length used)) used new_tab_name new_tab_name 1%N.

(** The largest length of a Python list ([sys.maxsize], 64-bit build):
    [wb.sheetnames] is such a list. *)
Definition PY_SSIZE_T_MAX : N := (2 ^ 63 - 1)%N.

(* ===================================================================== *)
(** ** [create_summary_for_client] and [create_summary_files] *)
(* ===================================================================== *)

(** What lies outside the script: the answers of the file system and the
    library.  Each client starts from its own copy of the template, so the
    template reads the same for every client. *)
Record World : Type := mk_world {
  (** [os.path.exists('Template.xlsx')] *)
  template_exists : bool;
  (** [shutil.copy2] of the template and [load_workbook] of the copy;
      [None] when one of the two raises *)
  template_file : option State;
  (** what [read_account_list()] returns *)
  account_list : list string;
  (** what [get_client_files()] returns *)
  client_files : list string;
  (** the active sheet of [load_workbook(filepath)]; [None] when the file
      cannot be read as a workbook with such a sheet *)
  load_client : string -> option Worksheet;
  (** whether [summary_wb.save(output_filename)] succeeds *)
  save_ok : string -> bool;
  (** the library *)
  openpyxl : Openpyxl
}.

(** The tab name before it is made unique: the date of the sheet, else the
    date of the file name, else the file name without extension. *)
Definition desired_tab_name (client_ws : Worksheet) (filepath : string) : string :=
  let sheet_date :=
    match extract_date_from_sheet client_ws with
    | Some d => if PyStr.truthy d then d else extract_date_from_filename filepath
    | None => extract_date_from_filename filepath
    end in
  if PyStr.truthy sheet_date then sheet_date
  else splitext_root (basename filepath).

(** The body of the [try] block for one file: the workbook as the body
    leaves it, and how the body ends.  The exception of a file that cannot
    be read comes before anything is done; one raised while the tab is
    made leaves what was made of it. *)
Definition process_file (w : World) (tab1_template : nat) (filepath : string)
  (st : State) : State * result unit :=
  match load_client w filepath with
  | None => (st, Raised (FileReadError filepath))
  | Some client_ws =>
      let new_tab_name := desired_tab_name client_ws filepath in
      match unique_tab_name new_tab_name (sheetnames (wb st)) with
      | None => (st, OutOfFuel)
      | Some new_tab_name =>
          let r := copy_tab1_format_with_client_data (openpyxl w)
                     tab1_template client_ws new_tab_name st in
          (r.1, match r.2 with
                | Returned _ => Returned tt
                | Raised e => Raised e
                | OutOfFuel => OutOfFuel
                end)
      end
  end.

(** The loop over the files of the client, with its [except Exception:
    continue]: the tab is counted when the body got to its end. *)
Fixpoint process_files (w : World) (tab1_template : nat) (files : list string)
  (st : State) (tabs_created : nat) : result (State * nat) :=
  match files with
  | [] => Returned (st, tabs_created)
  | filepath :: rest =>
      match process_file w tab1_template filepath st with
      | (st', Returned _) => process_files w tab1_template rest st' (S tabs_created)
      | (st', Raised _) => process_files w tab1_template rest st' tabs_created
      | (_, OutOfFuel) => OutOfFuel
      end
  end.

(** [list.sort(key=...)]: a stable sort on the keys. *)
Fixpoint insert_by_key (key : string -> string) (x : string) (l : list string)
  : list string :=
  match l with
  | [] => [x]
  | y :: t =>
      if String.leb (key x) (key y) then x :: y :: t
      else y :: insert_by_key key x t
  end.

Definition sort_by_key (key : string -> string) (l : list string) : list string :=
  fold_right (insert_by_key key) [] l.

(** What [create_summary_for_client] leaves behind when it returns: its
    return value, the number of tabs it reports, and the workbook it saved. *)
Record Summary : Type := mk_summary {
  success : bool;
  tabs_created : nat;
  saved : option State
}.

Definition create_summary_for_client (w : World) (client_name : string)
  (client_files_list : list string) : result Summary :=
  let output_filename := client_name ++ "_summary.xlsx" in
  match template_file w with
  | None => Raised TemplateError
  | Some summary =>
      let wb1 := remove_external_links (wb summary) in
      let wb2 := if has_sheet "Calculations" wb1
                 then remove_sheet "Calculations" wb1 else wb1 in
      if negb (has_sheet "tab1" wb2) then Returned (mk_summary false 0 None)
      else
        let tab1_template := default O (index_of "tab1" wb2) in
        let sorted := sort_by_key extract_date_from_filename client_files_list in
        match process_files w tab1_template sorted
                (mk_state wb2 (heap summary)) 0 with
        | Returned (st, n) =>
            if save_ok w output_filename
            then Returned (mk_summary true n (Some st))
            else Raised (SaveError output_filename)
        | Raised e => Raised e
        | OutOfFuel => OutOfFuel
        end
  end.

(** [client_data[client_name].append(filepath)], with the entry created when
    it is missing; a dictionary keeps the order of insertion. *)
Fixpoint dict_append (k v : string) (d : list (string * list string))
  : list (string * list string) :=
  match d with
  | [] => [(k, [v])]
  | (k', vs) :: rest =>
      if String.eqb k' k then (k', (vs ++ [v])%list) :: rest
      else (k', vs) :: dict_append k v rest
  end.

Definition group_by_client (files : list string) : list (string * list string) :=
  fold_left (fun d filepath => dict_append (extract_client_name filepath) filepath d)
            files [].

(** The last loop of [create_summary_files]: no [try] around the call. *)
Fixpoint summarize_clients (w : World) (client_data : list (string * list string))
  (successful_clients failed_clients : list string)
  : result (list string * list string) :=
  match client_data with
  | [] => Returned (successful_clients, failed_clients)
  | (client_name, client_files_list) :: rest =>
      match create_summary_for_client w client_name client_files_list with
      | Returned s =>
          if success s
          then summarize_clients w rest
                 (successful_clients ++ [client_name])%list failed_clients
          else summarize_clients w rest
                 successful_clients (failed_clients ++ [client_name])%list
      | Raised e => Raised e
      | OutOfFuel => OutOfFuel
      end
  end.

(** [create_summary_files]: [Returned None] is one of the early returns,
    [Returned (Some (successful, failed))] the final report. *)
Definition create_summary_files (w : World)
  : result (option (list string * list string)) :=
  if negb (template_exists w) then Returned None
  else
    let clients_from_account_list := account_list w in
    match client_files w with
    | [] => Returned None
    | files =>
        let client_data := group_by_client files in
        let client_data :=
          match clients_from_account_list with
          | [] => client_data
          | _ => filter (fun e => bool_decide (e.1 ∈ clients_from_account_list))
                        client_data
          end in
        match client_data with
        | [] => Returned None
        | _ =>
            match summarize_clients w client_data [] [] with
            | Returned r => Returned (Some r)
            | Raised e => Raised e
            | OutOfFuel => OutOfFuel
            end
        end
    end.

(* ===================================================================== *)
(** ** The words of the claims *)
(* ===================================================================== *)

(** The formulas that [remove_external_links] clears, in one test: the
    string starts with [=], contains an opening and a closing bracket, and
    matches the external-workbook pattern or contains a single quote. *)
Definition external_reference_formula (s : string) : bool :=
  PyStr.startswith "=" s && PyStr.contains "[" s && PyStr.contains "]" s &&
  (Regex.search external_workbook_re s || PyStr.contains "'" s).

(** The cells of the 5x5 window, in row-major order. *)
Definition probe_window : list coord :=
  flat_map (fun r => map (fun c => (r, c)) (pos_range 5)) (pos_range 5).

(** A cell value that gives no date: it is neither a native date nor a
    string that one of the formats parses. *)
Definition no_date (v : option Value) : Prop :=
  match v with
  | Some (VDate _) => False
  | Some (VStr s) => forall f, f ∈ date_formats -> PyDate.strptime s f = None
  | _ => True
  end.

(** *** The transplant, sheet by sheet

    The same five loops, read as functions of the template sheet, the
    client's sheet and the style tables alone.  [transplant_appends] shows
    that [copy_tab1_format_with_client_data] appends the sheet computed
    here to the workbook and changes no other sheet. *)

Definition format_step (lib : Openpyxl) (tab1 : Worksheet)
  (acc : Worksheet * StyleTables) (p : coord) : Worksheet * StyleTables :=
  let cell := cell_at tab1 p in
  if has_style cell then
    let s1 := descriptor_set FontC p (copy (descriptor_get FontC acc.2 cell)) acc in
    let s2 := descriptor_set BorderC p (copy (descriptor_get BorderC s1.2 cell)) s1 in
    let s3 := descriptor_set FillC p (copy (descriptor_get FillC s2.2 cell)) s2 in
    let s4 := set_number_format lib p (get_number_format lib s3.2 cell) s3 in
    let s5 := descriptor_set ProtectionC p
                (copy (descriptor_get ProtectionC s4.2 cell)) s4 in
    descriptor_set AlignmentC p (copy (descriptor_get AlignmentC s5.2 cell)) s5
  else acc.

Definition width_step (tab1 ws : Worksheet) (col : string) : Worksheet :=
  match column_dimensions tab1 !! col with
  | Some w => set_width col w ws
  | None => ws
  end.

Definition height_step (tab1 ws : Worksheet) (row : positive) : Worksheet :=
  match row_dimensions tab1 !! row with
  | Some h => set_height row h ws
  | None => ws
  end.

Definition value_step (lib : Openpyxl) (client_ws : Worksheet)
  (acc : (Worksheet * StyleTables) * result unit) (p : coord)
  : (Worksheet * StyleTables) * result unit :=
  match acc.2 with
  | Returned _ =>
      match value (cell_at client_ws p) with
      | Some v => assign_value lib p v acc.1
      | None => acc
      end
  | _ => acc
  end.

Definition styled_sheet (lib : Openpyxl) (tab1 : Worksheet) (t : StyleTables)
  : Worksheet * StyleTables :=
  fold_left (format_step lib tab1) (iter_rows tab1) (empty_sheet, t).

Definition sized_sheet (tab1 ws : Worksheet) : Worksheet :=
  fold_left (height_step tab1) (map fst (map_to_list (row_dimensions tab1)))
    (fold_left (width_step tab1)
       (map fst (map_to_list (column_dimensions tab1))) ws).

Definition merged_sheet (lib : Openpyxl) (tab1 : Worksheet)
  (s : Worksheet * StyleTables) : Worksheet * StyleTables :=
  fold_left (fun acc r => merge_cells lib tab1 r acc) (merged_cells tab1) s.

Definition transplant_sheet (lib : Openpyxl) (tab1 client_ws : Worksheet)
  (t : StyleTables) : (Worksheet * StyleTables) * result unit :=
  let s1 := styled_sheet lib tab1 t in
  fold_left (value_step lib client_ws) (iter_rows client_ws)
    (merged_sheet lib tab1 (sized_sheet tab1 s1.1, s1.2), Returned tt).

(** How the call ends, from how the last loop ends. *)
Definition ending (new_ws : nat) (r : result unit) : result nat :=
  match r with
  | Returned _ => Returned new_ws
  | Raised e => Raised e
  | OutOfFuel => OutOfFuel
  end.


(** The positions of a style array are positions of the tables: in a
    workbook that openpyxl has loaded they always are. *)
Definition valid_style (t : StyleTables) (a : StyleArray) : Prop :=
  fontId a < length (fonts t)
  /\ fillId a < length (fills t)
  /\ borderId a < length (borders t)
  /\ protectionId a < length (protections t)
  /\ alignmentId a < length (alignments t)
  /\ (numFmtId a < BUILTIN_FORMATS_MAX_SIZE
      \/ numFmtId a - BUILTIN_FORMATS_MAX_SIZE < length (number_formats t)).

(** The tables of [t'] are those of [t] with entries added at the end:
    every entry of [t] is the same entry of [t']. *)
Definition tables_extend (t t' : StyleTables) : Prop :=
  fonts t `prefix_of` fonts t'
  /\ fills t `prefix_of` fills t'
  /\ borders t `prefix_of` borders t'
  /\ protections t `prefix_of` protections t'
  /\ alignments t `prefix_of` alignments t'
  /\ number_formats t `prefix_of` number_formats t'.

(** The cell at [p] lies in a merged range of the sheet. *)
Definition in_merged_range (ws : Worksheet) (p : coord) : bool :=
  existsb (fun r => bool_decide (p ∈ range_cells r)) (merged_cells ws).

(** A value that a cell takes as it is: a string of at most 32767
    characters without a character that openpyxl refuses, or a value that
    is not a string. *)
Definition writable (v : Value) : bool :=
  match v with
  | VStr s => bool_decide (check_string s = Some s)
  | _ => true
  end.



(** *** Words for the proofs about styles *)

(** What an operation on the style of the cell at [p] leaves as it is: the
    other cells, all values, the sizes and the merged ranges; the tables
    only get entries added. *)
Definition style_op (p : coord) (s r : Worksheet * StyleTables) : Prop :=
  tables_extend s.2 r.2
  /\ (forall q, q <> p -> cell_at r.1 q = cell_at s.1 q)
  /\ (forall q, value (cell_at r.1 q) = value (cell_at s.1 q))
  /\ column_dimensions r.1 = column_dimensions s.1
  /\ row_dimensions r.1 = row_dimensions s.1
  /\ merged_cells r.1 = merged_cells s.1.





(** What an assignment leaves as it is, however it ends. *)
Definition value_op (p : coord) (s : Worksheet * StyleTables)
  (r : (Worksheet * StyleTables) * result unit) : Prop :=
  tables_extend s.2 r.1.2
  /\ (forall k, collection k r.1.2 = collection k s.2)
  /\ (forall q, q <> p -> cell_at r.1.1 q = cell_at s.1 q)
  /\ (forall q k, style_key k (style_array (cell_at r.1.1 q))
                  = style_key k (style_array (cell_at s.1 q)))
  /\ (forall q, is_Some (style (cell_at s.1 q)) ->
                is_Some (style (cell_at r.1.1 q)))
  /\ column_dimensions r.1.1 = column_dimensions s.1
  /\ row_dimensions r.1.1 = row_dimensions s.1
  /\ merged_cells r.1.1 = merged_cells s.1
  /\ r.2 <> OutOfFuel
  /\ (r.2 = Returned tt \/ r.1 = s).

(** The workbook after the sanitizer and the removal of the utility sheet:
    what [create_summary_for_client] adds the tabs to. *)
Definition prepared (summary : State) : State :=
  let wb1 := remove_external_links (wb summary) in
  mk_state (if has_sheet "Calculations" wb1
            then remove_sheet "Calculations" wb1 else wb1)
           (heap summary).

(** The files of a list that can be read. *)
Definition readable (w : World) (files : list string) : list string :=
  filter (fun f => is_Some (load_client w f)) files.

(** The clients [create_summary_files] runs the builder for, with their
    files: the groups of the files found, restricted to the account list
    when that is not empty. *)
Definition selected_clients (w : World) : list (string * list string) :=
  match account_list w with
  | [] => group_by_client (client_files w)
  | _ => filter (fun e => bool_decide (e.1 ∈ account_list w))
                (group_by_client (client_files w))
  end.

(** Keys in non-decreasing order, as [str] compares. *)
Definition key_le (key : string -> string) (a b : string) : Prop :=
  String.leb (key a) (key b) = true.

(* ===================================================================== *)
(** ** Sample data *)
(* ===================================================================== *)

Definition double_quote : string := String (ascii_of_nat 34) EmptyString.

Definition sheet_of_cells (l : list (coord * Cell)) : Worksheet :=
  mk_sheet (list_to_map l) ∅ ∅ [].

Definition text_cell (s : string) : Cell := mk_cell (Some (VStr s)) None.

Definition date_cell (y m d : N) : Cell :=
  mk_cell (Some (VDate (PyDate.mk_datetime y m d 0 0 0))) None.

(** A string date at (1,1) and a native date at (2,2). *)
Definition sheet_string_then_date : Worksheet :=
  sheet_of_cells [((1, 1)%positive, text_cell "2024-01-15");
                  ((2, 2)%positive, date_cell 2023 5 6)].

(** A title at (1,1), a native date at (1,2), a string date at (1,3). *)
Definition sheet_date_then_string : Worksheet :=
  sheet_of_cells [((1, 1)%positive, text_cell "Report");
                  ((1, 2)%positive, date_cell 2024 3 4);
                  ((1, 3)%positive, text_cell "2024-01-15")].

(** A library for the examples: three of the built-in number formats, a
    date test that looks for the letters of a date format, and merged
    ranges whose cells get no border (as it is when the first cell of the
    range has none). *)
Definition sample_openpyxl : Openpyxl :=
  mk_openpyxl
    (fun i => match i with
              | 0 => Some "General"
              | 2 => Some "0.00"
              | 14 => Some "mm-dd-yy"
              | _ => None
              end)
    (PyStr.any_char (fun c => existsb (Ascii.eqb c) ["d"; "m"; "y"; "h"; "s"]%char))
    (fun _ _ _ _ => ([], fun _ => None)).

(** Style tables with a default entry and one more of each kind; a
    template whose cells A1:C1 are merged, with a styled header in A1, a
    styled cell B1 inside the merged range and a styled value in A2; and a
    client sheet with data inside and outside the cells of the template. *)
Definition sample_heap : StyleTables :=
  mk_tables
    [Font "Calibri" 11 false false; Font "Arial" 12 true false]
    [PatternFill "none" EmptyString; PatternFill "solid" "FFFF00"]
    [Border EmptyString EmptyString EmptyString EmptyString;
     Border "thin" "thin" "thin" "thin"]
    [Protection true false]
    [Alignment EmptyString EmptyString false; Alignment "center" "top" true]
    [].

(** The style of the styled cells of the template: the second font, fill
    and alignment, the number format [0.00], and no border, so that merging
    cells derives no border from it. *)
Definition sample_style : StyleArray := mk_style 1 1 0 2 0 1 0 0 0.

Definition sample_tab1 : Worksheet :=
  mk_sheet (list_to_map [((1, 1)%positive,
                          mk_cell (Some (VStr "Header")) (Some sample_style));
                         ((1, 2)%positive, mk_cell None (Some sample_style));
                         ((2, 1)%positive,
                          mk_cell (Some (VNum 7)) (Some sample_style))])
           (list_to_map [("A", 10%Z); ("B", 15%Z); ("C", 20%Z)])
           (list_to_map [(1%positive, 30%Z)])
           [mk_range 1 1 1 3].

Definition sample_client : Worksheet :=
  sheet_of_cells [((2, 1)%positive, mk_cell (Some (VNum 42)) None);
                  ((7, 9)%positive, text_cell "far")].

(** A client sheet with a value in B1, inside the merged cells of the
    template, and one after it. *)
Definition sample_client_merged : Worksheet :=
  sheet_of_cells [((1, 2)%positive, text_cell "in-merge");
                  ((2, 1)%positive, mk_cell (Some (VNum 42)) None)].


Definition sample_state : State :=
  mk_state [("tab1", sample_tab1)] sample_heap.


(** Two clients; the template and the input files are fine, but the summary
    of the first client cannot be saved. *)
Definition world_save_fails : World :=
  mk_world true (Some sample_state) []
    ["client_portfolio/Acme_20240101.xlsx"; "client_portfolio/Beta_20240101.xlsx"]
    (fun _ => Some sample_client)
    (fun path => negb (String.eqb path "Acme_summary.xlsx"))
    sample_openpyxl.

(** The scenario of the specification: a template with the tabs
    [Calculations] and [tab1], and two files of the client Acme, each with a
    native date in A1; the files are listed out of order. *)
Definition acme_sheet (m x : N) : Worksheet :=
  sheet_of_cells [((1, 1)%positive, date_cell 2024 m 1);
                  ((2, 1)%positive, mk_cell (Some (VNum (Z.of_N x))) None)].

Definition world_acme : World :=
  mk_world true
    (Some (mk_state [("Calculations", sheet_of_cells [((1, 1)%positive, text_cell "=SUM(A2:A9)")]);
                     ("tab1", sample_tab1)] sample_heap))
    []
    ["client_portfolio/Acme_20240201.xlsx"; "client_portfolio/Acme_20240101.xlsx"]
    (fun path => if String.eqb path "client_portfolio/Acme_20240101.xlsx"
                 then Some (acme_sheet 1 100)
                 else if String.eqb path "client_portfolio/Acme_20240201.xlsx"
                      then Some (acme_sheet 2 200)
                      else None)
    (fun _ => true)
    sample_openpyxl.


(** A template without the tab [tab1], and two clients. *)
Definition world_no_tab1 : World :=
  mk_world true
    (Some (mk_state [("Calculations", sheet_of_cells [])] sample_heap))
    []
    ["client_portfolio/Acme_20240101.xlsx"; "client_portfolio/Beta_20240101.xlsx"]
    (fun _ => Some sample_client)
    (fun _ => true)
    sample_openpyxl.

(* ===================================================================== *)
(** * Properties *)
(* ===================================================================== *)

(** ** Strings *)

Section StringFacts.

Lemma append_nil_l (s : string) : EmptyString ++ s = s.
Proof. reflexivity. Qed.

Lemma append_cons (c : ascii) (a b : string) :
  String c a ++ b = String c (a ++ b).
Proof. reflexivity. Qed.

Lemma append_nil_r (s : string) : s ++ EmptyString = s.
Proof.
  induction s as [|c s IH]; [reflexivity|]. now rewrite append_cons, IH.
Qed.

Lemma length_append (a b : string) :
  String.length (a ++ b) = String.length a + String.length b.
Proof.
  induction a as [|c a IH]; [reflexivity|].
  rewrite append_cons. simpl. now rewrite IH.
Qed.

Lemma length_take (n : nat) (s : string) :
  String.length (PyStr.take n s) = Nat.min n (String.length s).
Proof.
  revert s; induction n as [|n IH]; intros [|c s]; simpl; try reflexivity.
  now rewrite IH.
Qed.

Lemma take_all (n : nat) (s : string) :
  String.length s <= n -> PyStr.take n s = s.
Proof.
  revert s; induction n as [|n IH]; intros [|c s]; simpl; intros H;
    try reflexivity; try lia.
  f_equal. apply IH. lia.
Qed.

Lemma slice_to_nonneg (n : nat) (s : string) :
  PyStr.slice_to (Z.of_nat n) s = PyStr.take n s.
Proof.
  unfold PyStr.slice_to.
  destruct (Z.ltb_spec (Z.of_nat n) 0) as [H|H]; [lia|].
  now rewrite Nat2Z.id.
Qed.

Lemma append_assoc (a b c : string) : (a ++ b) ++ c = a ++ (b ++ c).
Proof.
  induction a as [|x a IH]; [reflexivity|].
  now rewrite !append_cons, IH.
Qed.

(** Characters of a decimal numeral. *)
Lemma digit_char_is_digit (d : N) : (d < 10)%N -> PyStr.is_digit (PyStr.digit_char d) = true.
Proof.
  intros H. unfold PyStr.is_digit, PyStr.digit_char.
  rewrite N_ascii_embedding by lia.
  apply andb_true_intro; split; apply N.leb_le; lia.
Qed.

Lemma digit_char_value (d : N) : (d < 10)%N -> (N_of_ascii (PyStr.digit_char d) - 48 = d)%N.
Proof.
  intros H. unfold PyStr.digit_char. rewrite N_ascii_embedding by lia. lia.
Qed.

Lemma all_chars_append P (a b : string) :
  PyStr.all_chars P (a ++ b) = PyStr.all_chars P a && PyStr.all_chars P b.
Proof.
  induction a as [|c a IH]; [reflexivity|].
  rewrite append_cons. simpl. rewrite IH. now rewrite andb_assoc.
Qed.

(** [digits_of] puts digits in front of its accumulator. *)
Lemma digits_of_prefix (fuel : nat) : forall (n : N) (acc : string),
  exists d, PyStr.digits_of fuel n acc = d ++ acc
            /\ PyStr.all_chars PyStr.is_digit d = true
            /\ (forall k, (n < 10 ^ N.of_nat k)%N -> 1 <= k -> String.length d <= k)
            /\ ((n < 2 ^ N.of_nat fuel)%N -> PyStr.value_acc d 0 = n).
Proof.
  induction fuel as [|f IH]; intros n acc.
  - exists EmptyString. rewrite append_nil_l. simpl. repeat split; try lia.
  - simpl. destruct (N.ltb_spec n 10) as [Hlt|Hge].
    + exists (String (PyStr.digit_char (n mod 10)) EmptyString).
      rewrite append_cons, append_nil_l. simpl.
      rewrite N.mod_small by lia.
      rewrite digit_char_is_digit, digit_char_value by lia.
      repeat split; intros; lia.
    + destruct (IH (n / 10)%N (String (PyStr.digit_char (n mod 10)) acc))
        as (d & Hd & Hall & Hlen & Hval).
      assert (Hmod : (n mod 10 < 10)%N) by (apply N.mod_lt; lia).
      exists (d ++ String (PyStr.digit_char (n mod 10)) EmptyString).
      rewrite Hd, append_assoc, append_cons, append_nil_l.
      split; [reflexivity|].
      split; [|split].
      * rewrite all_chars_append, Hall. simpl.
        now rewrite digit_char_is_digit.
      * intros k Hk Hk1. rewrite length_append. simpl.
        destruct k as [|[|k]]; [lia| |].
        { change (10 ^ N.of_nat 1)%N with 10%N in Hk. lia. }
        assert (String.length d <= S k); [|lia].
        apply Hlen; [|lia].
        apply N.Div0.div_lt_upper_bound.
        replace (N.of_nat (S (S k))) with (N.succ (N.of_nat (S k))) in Hk by lia.
        rewrite N.pow_succ_r' in Hk. exact Hk.
      * intros Hf.
        assert (Hq : (n / 10 < 2 ^ N.of_nat f)%N).
        { apply N.Div0.div_lt_upper_bound.
          replace (N.of_nat (S f)) with (N.succ (N.of_nat f)) in Hf by lia.
          rewrite N.pow_succ_r' in Hf. lia. }
        specialize (Hval Hq).
        clear - Hval Hmod.
        assert (G : forall s a c, PyStr.value_acc (s ++ String c EmptyString) a
                    = (10 * PyStr.value_acc s a + (N_of_ascii c - 48))%N).
        { induction s as [|x s IHs]; intros a c; [reflexivity|].
          rewrite append_cons. simpl. apply IHs. }
        rewrite G, Hval, digit_char_value by exact Hmod.
        symmetry. rewrite N.add_comm, N.mul_comm.
        rewrite (N.div_mod n 10) at 1 by lia. lia.
Qed.
End StringFacts.

Section DecimalFacts.

Lemma str_of_N_spec (n : N) :
  PyStr.all_chars PyStr.is_digit (PyStr.str_of_N n) = true
  /\ (forall k, (n < 10 ^ N.of_nat k)%N -> 1 <= k ->
                String.length (PyStr.str_of_N n) <= k)
  /\ PyStr.value_acc (PyStr.str_of_N n) 0 = n.
Proof.
  unfold PyStr.str_of_N.
  destruct (digits_of_prefix (S (N.to_nat (N.log2 n))) n EmptyString)
    as (d & Hd & Hall & Hlen & Hval).
  rewrite Hd, append_nil_r. repeat split; try assumption.
  apply Hval.
  replace (N.of_nat (S (N.to_nat (N.log2 n)))) with (N.succ (N.log2 n)) by lia.
  destruct n as [|p]; [reflexivity|].
  apply N.log2_spec. lia.
Qed.

Lemma str_of_N_inj (j k : N) : PyStr.str_of_N j = PyStr.str_of_N k -> j = k.
Proof.
  intros H.
  destruct (str_of_N_spec j) as (_ & _ & Hj).
  destruct (str_of_N_spec k) as (_ & _ & Hk).
  rewrite <- Hj, <- Hk, H. reflexivity.
Qed.

Lemma digits_no_underscore (d : string) :
  PyStr.all_chars PyStr.is_digit d = true -> PyStr.contains "_" d = false.
Proof.
  induction d as [|c d IH]; simpl; [reflexivity|].
  intros H. apply andb_prop in H as [Hc Hd].
  destruct (Ascii.eqb_spec c "_") as [->|_]; [discriminate Hc|].
  now apply IH.
Qed.

Lemma contains_append_sep (c : ascii) (a b : string) :
  PyStr.contains c (a ++ String c b) = true.
Proof.
  induction a as [|x a IH].
  - rewrite append_nil_l. simpl. now rewrite Ascii.eqb_refl.
  - rewrite append_cons. simpl. rewrite IH. now destruct (Ascii.eqb x c).
Qed.

(** What follows the last separator of a string determines itself. *)
Lemma after_last_sep_unique (c : ascii) (d1 d2 : string) :
  PyStr.contains c d1 = false -> PyStr.contains c d2 = false ->
  forall p1 p2, p1 ++ String c d1 = p2 ++ String c d2 -> d1 = d2.
Proof.
  intros H1 H2. induction p1 as [|x p1 IH]; intros [|y p2];
    rewrite ?append_nil_l, ?append_cons; intros E.
  - now inversion E.
  - inversion E; subst. now rewrite contains_append_sep in H1.
  - inversion E; subst. now rewrite contains_append_sep in H2.
  - inversion E; subst. eauto.
Qed.

End DecimalFacts.

(** ** The unique tab name *)

Section TabName.

Lemma candidate_inj (original_name : string) (j k : N) :
  candidate original_name j = candidate original_name k -> j = k.
Proof.
  unfold candidate. intros E.
  rewrite !append_cons, !append_nil_l in E.
  apply str_of_N_inj.
  eapply after_last_sep_unique; [| |exact E];
    apply digits_no_underscore, str_of_N_spec.
Qed.

Lemma candidates_NoDup (original_name : string) (c : N) (n : nat) :
  NoDup (map (fun i => candidate original_name (c + N.of_nat i)) (seq 0 n)).
Proof.
  apply NoDup_fmap_2_strong; [|apply NoDup_seq].
  intros i j _ _ E. apply candidate_inj in E. lia.
Qed.

(** When the fuel runs out, every name that was tried is taken. *)
Lemma while_name_taken_None (used : list string) (original_name : string) :
  forall (fuel : nat) (name : string) (c : N),
    while_name_taken fuel used original_name name c = None ->
    (name ∈ used) /\
    forall i, i < fuel -> candidate original_name (c + N.of_nat i) ∈ used.
Proof.
  induction fuel as [|f IH]; intros name c; simpl;
    case_bool_decide as Hin; try discriminate; intros H.
  - split; [assumption | lia].
  - apply IH in H as [H0 Hall]. split; [assumption|].
    intros [|i] Hi.
    + now rewrite N.add_0_r.
    + replace (c + N.of_nat (S i))%N with (c + 1 + N.of_nat i)%N by lia.
      apply Hall. lia.
Qed.

(** What the loop returns: the first name of the sequence that is free. *)
Lemma while_name_taken_Some (used : list string) (original_name : string) :
  forall (fuel : nat) (name : string) (c : N) (r : string),
    while_name_taken fuel used original_name name c = Some r ->
    (r ∉ used) /\
    (((name ∉ used) /\ r = name) \/
     ((name ∈ used) /\ exists i, i < fuel /\
        r = candidate original_name (c + N.of_nat i) /\
        forall j, j < i -> candidate original_name (c + N.of_nat j) ∈ used)).
Proof.
  induction fuel as [|f IH]; intros name c r; simpl;
    case_bool_decide as Hin; try discriminate; intros H.
  - inversion H; subst. split; [assumption | left; split; [assumption|reflexivity]].
  - apply IH in H as [Hr [[Hfree ->]|[Htaken (i & Hi & -> & Hbefore)]]].
    + split; [assumption|]. right. split; [assumption|].
      exists 0. rewrite N.add_0_r. split; [lia|]. split; [reflexivity|]. lia.
    + split; [assumption|]. right. split; [assumption|].
      exists (S i). split; [lia|]. split.
      * f_equal. lia.
      * intros [|j] Hj.
        -- now rewrite N.add_0_r.
        -- replace (c + N.of_nat (S j))%N with (c + 1 + N.of_nat j)%N by lia.
           apply Hbefore. lia.
  - inversion H; subst. split; [assumption | left; split; [assumption|reflexivity]].
Qed.

(** More names of the sequence than used names cannot all be taken. *)
Lemma taken_candidates_bound (used : list string) (original_name : string)
  (c : N) (n : nat) :
  (forall i, i < n -> candidate original_name (c + N.of_nat i) ∈ used) ->
  n <= length used.
Proof.
  intros H.
  pose (l := map (fun i => candidate original_name (c + N.of_nat i)) (seq 0 n)).
  assert (Hl : length l = n) by (unfold l; now rewrite length_map, length_seq).
  rewrite <- Hl.
  apply submseteq_length, NoDup_submseteq; [apply candidates_NoDup|].
  intros x Hx. apply list_elem_of_In, in_map_iff in Hx as (i & <- & Hi).
  apply H. apply in_seq in Hi. lia.
Qed.

Lemma while_name_taken_terminates (used : list string)
  (original_name name : string) (c : N) (fuel : nat) :
  length used < fuel ->
  exists r, while_name_taken fuel used original_name name c = Some r.
Proof.
  intros Hfuel.
  destruct (while_name_taken fuel used original_name name c) as [r|] eqn:E;
    [eauto|].
  apply while_name_taken_None in E as [_ Hall].
  apply taken_candidates_bound in Hall. lia.
Qed.

Lemma while_name_taken_more_fuel (used : list string) (original_name : string) :
  forall (fuel fuel' : nat) (name : string) (c : N) (r : string),
    while_name_taken fuel used original_name name c = Some r ->
    fuel <= fuel' ->
    while_name_taken fuel' used original_name name c = Some r.
Proof.
  induction fuel as [|f IH]; intros [|f'] name c r; simpl;
    case_bool_decide; try discriminate; try lia; try tauto.
  intros E Hle. apply IH; [assumption | lia].
Qed.

(** The loop exits within the fuel [unique_tab_name] gives it. *)
Lemma unique_tab_name_total (desired : string) (used : list string) :
  exists label, unique_tab_name desired used = Some label.
Proof.
  unfold unique_tab_name. apply while_name_taken_terminates. lia.
Qed.

(** With enough fuel the result does not depend on the fuel. *)
Lemma unique_tab_name_any_fuel (desired : string) (used : list string)
  (label : string) (fuel : nat) :
  unique_tab_name desired used = Some label ->
  length used < fuel ->
  while_name_taken fuel used (PyStr.slice_to 31 desired)
    (PyStr.slice_to 31 desired) 1 = Some label.
Proof.
  unfold unique_tab_name. intros Hr Hfuel.
  destruct (while_name_taken_terminates used (PyStr.slice_to 31 desired)
              (PyStr.slice_to 31 desired) 1 fuel Hfuel) as [r' Hr'].
  destruct (Nat.le_ge_cases fuel (S (length used))) as [Hle|Hge].
  - apply (while_name_taken_more_fuel _ _ _ _ _ _ _ Hr') in Hle. congruence.
  - now apply (while_name_taken_more_fuel _ _ _ _ _ _ _ Hr) in Hge.
Qed.

End TabName.

Section TabNameClaims.

(** C5.  The loop that makes the tab name unique terminates, whatever the
    desired name and the list of used names, and the name it exits with is
    not a used name: with one iteration more than there are used names the
    loop exits, and it exits with the same name for every larger bound.
    The name is the desired one cut to 31 characters, or the name tried for
    a counter [k] that is at most one more than the number of used names,
    all the names tried before it being used.  The names tried for
    different values of the counter are different, which is why they
    cannot all be used. *)
Theorem unique_tab_name_terminates (desired : string) (used : list string) :
  (exists label,
      unique_tab_name desired used = Some label
      /\ (label ∉ used)
      /\ (label = PyStr.slice_to 31 desired
          \/ exists k : N,
               (1 <= k <= N.of_nat (S (length used)))%N
               /\ label = candidate (PyStr.slice_to 31 desired) k
               /\ (PyStr.slice_to 31 desired ∈ used)
               /\ forall j : N, (1 <= j < k)%N ->
                    candidate (PyStr.slice_to 31 desired) j ∈ used)
      /\ forall fuel, length used < fuel ->
           while_name_taken fuel used (PyStr.slice_to 31 desired)
             (PyStr.slice_to 31 desired) 1 = Some label)
  /\ (forall j k : N,
        candidate (PyStr.slice_to 31 desired) j
        = candidate (PyStr.slice_to 31 desired) k -> j = k).
Proof.
  split; [|intros j k; apply candidate_inj].
  destruct (unique_tab_name_total desired used) as [r Hr].
  exists r. split; [exact Hr|].
  pose proof Hr as Hloop. unfold unique_tab_name in Hloop.
  apply while_name_taken_Some in Hloop
    as [Hfree [[_ ->]|[Hbase (i & Hi & -> & Hbefore)]]].
  - split; [exact Hfree|]. split; [now left|].
    intros fuel Hfuel. now apply unique_tab_name_any_fuel.
  - split; [exact Hfree|]. split.
    + right. exists (1 + N.of_nat i)%N. split; [lia|].
      split; [reflexivity|]. split; [exact Hbase|].
      intros j Hj.
      replace j with (1 + N.of_nat (N.to_nat (j - 1)))%N by lia.
      apply Hbefore. lia.
    + intros fuel Hfuel. now apply unique_tab_name_any_fuel.
Qed.

(** C4.  For every desired name and every list of used names (a Python
    list, so of at most [PY_SSIZE_T_MAX] elements) the allocation returns a
    name of at most 31 characters that is not used.  It is the desired name
    cut to 31 characters when that is free; otherwise it is that name cut
    further to make room for the whole suffix [_k], followed by the whole
    suffix, for the first [k >= 1] whose name is free. *)
Theorem unique_tab_name_correct (desired : string) (used : list string) :
  (N.of_nat (length used) <= PY_SSIZE_T_MAX)%N ->
  exists label,
    unique_tab_name desired used = Some label /\
    String.length label <= 31 /\
    (label ∉ used) /\
    (((PyStr.take 31 desired ∉ used) /\ label = PyStr.take 31 desired) \/
     ((PyStr.take 31 desired ∈ used) /\
      exists k : N,
        (1 <= k)%N /\
        String.length ("_" ++ PyStr.str_of_N k) <= 31 /\
        label = PyStr.take (31 - String.length ("_" ++ PyStr.str_of_N k))
                  (PyStr.take 31 desired) ++ "_" ++ PyStr.str_of_N k /\
        forall j : N, (1 <= j < k)%N ->
          candidate (PyStr.take 31 desired) j ∈ used)).
Proof.
  intros Hlen.
  destruct (unique_tab_name_total desired used) as [r Hr].
  exists r. split; [exact Hr|].
  unfold unique_tab_name in Hr.
  change 31%Z with (Z.of_nat 31) in Hr. rewrite slice_to_nonneg in Hr.
  apply while_name_taken_Some in Hr
    as [Hfree [[Hbase ->]|[Hbase (i & Hi & -> & Hbefore)]]].
  - split; [rewrite length_take; lia|]. split; [assumption|]. now left.
  - pose proof (taken_candidates_bound _ _ _ _ Hbefore) as Hbound.
    set (k := (1 + N.of_nat i)%N) in *.
    assert (Hk : (k < 10 ^ N.of_nat 19)%N).
    { change (10 ^ N.of_nat 19)%N with 10000000000000000000%N.
      unfold PY_SSIZE_T_MAX in Hlen.
      change (2 ^ 63 - 1)%N with 9223372036854775807%N in Hlen.
      unfold k. lia. }
    destruct (str_of_N_spec k) as (_ & Hdigits & _).
    specialize (Hdigits 19 Hk ltac:(lia)).
    assert (Hsuffix : String.length ("_" ++ PyStr.str_of_N k) <= 20).
    { rewrite append_cons, append_nil_l. simpl. lia. }
    assert (Hcand : candidate (PyStr.take 31 desired) k
              = PyStr.take (31 - String.length ("_" ++ PyStr.str_of_N k))
                  (PyStr.take 31 desired) ++ "_" ++ PyStr.str_of_N k).
    { unfold candidate.
      replace (31 - Z.of_nat (String.length ("_" ++ PyStr.str_of_N k)))%Z
        with (Z.of_nat (31 - String.length ("_" ++ PyStr.str_of_N k))) by lia.
      now rewrite slice_to_nonneg. }
    split; [|split; [assumption|]].
    + rewrite Hcand, length_append, length_take. lia.
    + right. split; [assumption|]. exists k.
      split; [unfold k; lia|]. split; [lia|]. split; [exact Hcand|].
      intros j Hj.
      replace j with (1 + N.of_nat (N.to_nat (j - 1)))%N by lia.
      apply Hbefore. unfold k in Hj. lia.
Qed.

Lemma unique_tab_name_correct_witness :
  (N.of_nat (length ["tab1"; "20240101"]) <= PY_SSIZE_T_MAX)%N /\
  exists label,
    unique_tab_name "20240101" ["tab1"; "20240101"] = Some label /\
    String.length label <= 31 /\ (label ∉ ["tab1"; "20240101"]).
Proof.
  assert (H : (N.of_nat (length ["tab1"; "20240101"]) <= PY_SSIZE_T_MAX)%N)
    by (vm_compute; discriminate).
  split; [exact H|].
  destruct (unique_tab_name_correct "20240101" ["tab1"; "20240101"] H)
    as (label & H1 & H2 & H3 & _).
  exists label. auto.
Defined.

(** The bound on the number of used names cannot be dropped altogether: a
    counter of 31 digits makes the slice index negative, and the name that
    is tried is too long. *)
Remark candidate_too_long :
  String.length (candidate "ab" (10 ^ 30)) = 33.
Proof. vm_compute. reflexivity. Qed.

End TabNameClaims.

(** ** Worksheets *)

Section SheetFacts.

Lemma cell_at_set_cell (p q : coord) (c : Cell) (ws : Worksheet) :
  cell_at (set_cell p c ws) q = if decide (p = q) then c else cell_at ws q.
Proof.
  unfold cell_at, set_cell. simpl.
  destruct (decide (p = q)) as [->|Hne].
  - now rewrite lookup_insert_eq.
  - now rewrite lookup_insert_ne.
Qed.

Lemma value_set_value (p q : coord) (v : option Value) (ws : Worksheet) :
  value (cell_at (set_value p v ws) q)
  = if decide (p = q) then v else value (cell_at ws q).
Proof.
  unfold set_value. rewrite cell_at_set_cell. now destruct (decide (p = q)).
Qed.

Lemma style_set_value (p q : coord) (v : option Value) (ws : Worksheet) :
  style (cell_at (set_value p v ws) q) = style (cell_at ws q).
Proof.
  unfold set_value. rewrite cell_at_set_cell.
  now destruct (decide (p = q)) as [->|].
Qed.

Lemma value_set_style (p q : coord) (s : StyleArray) (ws : Worksheet) :
  value (cell_at (set_style p s ws) q) = value (cell_at ws q).
Proof.
  unfold set_style. rewrite cell_at_set_cell.
  now destruct (decide (p = q)) as [->|].
Qed.

Lemma style_set_style (p q : coord) (s : StyleArray) (ws : Worksheet) :
  style (cell_at (set_style p s ws) q)
  = if decide (p = q) then Some s else style (cell_at ws q).
Proof.
  unfold set_style. rewrite cell_at_set_cell. now destruct (decide (p = q)).
Qed.

Lemma elem_of_pos_range (n x : positive) : (x <= n)%positive -> x ∈ pos_range n.
Proof.
  intros H. unfold pos_range.
  apply list_elem_of_In, in_map_iff. exists (Pos.to_nat x).
  split; [apply Pos2Nat.id|]. apply in_seq. lia.
Qed.

Lemma max_row_bound (ws : Worksheet) (p : coord) :
  is_Some (cells ws !! p) -> (p.1 <= max_row ws)%positive.
Proof.
  unfold max_row.
  apply (map_fold_weak_ind
           (fun (m : positive) (cs : gmap coord Cell) =>
              is_Some (cs !! p) -> (p.1 <= m)%positive)).
  - intros [x Hx]. now rewrite lookup_empty in Hx.
  - intros q c cs m Hq IH Hp.
    destruct (decide (q = p)) as [->|Hne]; [lia|].
    rewrite lookup_insert_ne in Hp by assumption.
    specialize (IH Hp). lia.
Qed.

Lemma max_column_bound (ws : Worksheet) (p : coord) :
  is_Some (cells ws !! p) -> (p.2 <= max_column ws)%positive.
Proof.
  unfold max_column.
  apply (map_fold_weak_ind
           (fun (m : positive) (cs : gmap coord Cell) =>
              is_Some (cs !! p) -> (p.2 <= m)%positive)).
  - intros [x Hx]. now rewrite lookup_empty in Hx.
  - intros q c cs m Hq IH Hp.
    destruct (decide (q = p)) as [->|Hne]; [lia|].
    rewrite lookup_insert_ne in Hp by assumption.
    specialize (IH Hp). lia.
Qed.

(** [iter_rows] visits every cell the sheet has. *)
Lemma elem_of_iter_rows (ws : Worksheet) (p : coord) :
  is_Some (cells ws !! p) -> p ∈ iter_rows ws.
Proof.
  intros H. unfold iter_rows.
  apply list_elem_of_In, in_flat_map. exists p.1. split.
  - apply list_elem_of_In, elem_of_pos_range, max_row_bound, H.
  - apply in_map_iff. exists p.2. split; [now destruct p|].
    apply list_elem_of_In, elem_of_pos_range, max_column_bound, H.
Qed.

(** A cell that is not the empty one is a cell of the sheet. *)
Lemma cell_at_is_Some (ws : Worksheet) (p : coord) :
  cell_at ws p <> empty_cell -> is_Some (cells ws !! p).
Proof.
  unfold cell_at. destruct (cells ws !! p); simpl; [eauto | congruence].
Qed.

Lemma value_in_iter_rows (ws : Worksheet) (p : coord) (v : Value) :
  value (cell_at ws p) = Some v -> p ∈ iter_rows ws.
Proof.
  intros H. apply elem_of_iter_rows, cell_at_is_Some.
  intros E. rewrite E in H. discriminate.
Qed.


End SheetFacts.

(** ** [remove_external_links] *)

Section Sanitizer.

Lemma is_cleared_None : is_cleared None = false.
Proof. reflexivity. Qed.

Lemma sanitize_fold (l : list coord) : forall (ws : Worksheet) (p : coord),
  cell_at (fold_left sanitize_cell l ws) p
  = if bool_decide (p ∈ l) && is_cleared (value (cell_at ws p))
    then mk_cell None (style (cell_at ws p))
    else cell_at ws p.
Proof.
  induction l as [|q l IH]; intros ws p; cbn [fold_left].
  - rewrite bool_decide_eq_false_2; [reflexivity | apply not_elem_of_nil].
  - rewrite IH. unfold sanitize_cell.
    destruct (is_cleared (value (cell_at ws q))) eqn:Eq.
    + rewrite value_set_value, style_set_value.
      unfold set_value at 1. rewrite cell_at_set_cell.
      destruct (decide (q = p)) as [->|Hne].
      * rewrite Eq, is_cleared_None, andb_false_r.
        rewrite bool_decide_eq_true_2 by (apply elem_of_cons; now left).
        reflexivity.
      * destruct (is_cleared (value (cell_at ws p))) eqn:Ep;
          rewrite ?andb_false_r, ?andb_true_r; [|reflexivity].
        rewrite (bool_decide_ext (p ∈ q :: l) (p ∈ l)); [reflexivity|].
        rewrite elem_of_cons. split; [intros [->|?]; [congruence|assumption]|auto].
    + destruct (decide (q = p)) as [->|Hne].
      * now rewrite Eq, !andb_false_r.
      * rewrite (bool_decide_ext (p ∈ q :: l) (p ∈ l)); [reflexivity|].
        rewrite elem_of_cons. split; [intros [->|?]; [congruence|assumption]|auto].
Qed.

Lemma sanitize_sheet_cell (ws : Worksheet) (p : coord) :
  cell_at (sanitize_sheet ws) p
  = if is_cleared (value (cell_at ws p))
    then mk_cell None (style (cell_at ws p))
    else cell_at ws p.
Proof.
  unfold sanitize_sheet. rewrite sanitize_fold.
  destruct (is_cleared (value (cell_at ws p))) eqn:E;
    rewrite ?andb_false_r; [|reflexivity].
  rewrite bool_decide_eq_true_2; [reflexivity|].
  destruct (value (cell_at ws p)) as [v|] eqn:Ev; [|discriminate E].
  eapply value_in_iter_rows, Ev.
Qed.

Lemma sheet_at_remove_external_links (workbook : Workbook) (i : nat) :
  sheet_at (remove_external_links workbook) i
  = sanitize_sheet (sheet_at workbook i).
Proof.
  unfold sheet_at, remove_external_links.
  rewrite list_lookup_fmap.
  destruct (workbook !! i) as [[n ws]|]; simpl; [reflexivity|].
  reflexivity.
Qed.

Lemma sheetnames_remove_external_links (workbook : Workbook) :
  sheetnames (remove_external_links workbook) = sheetnames workbook.
Proof.
  unfold sheetnames, remove_external_links.
  rewrite <- list_fmap_compose. apply list_fmap_ext. now intros i [n ws].
Qed.

End Sanitizer.

(** ** Regular expressions *)

Section RegexFacts.

Import Regex.

Lemma append_eq_nil (a b : string) :
  a ++ b = EmptyString -> a = EmptyString /\ b = EmptyString.
Proof.
  destruct a as [|c a]; [rewrite append_nil_l; auto|].
  rewrite append_cons. discriminate.
Qed.

Lemma matches_cat_inv (r1 r2 : re) (s : string) :
  matches (Cat r1 r2) s ->
  exists s1 s2, s = s1 ++ s2 /\ matches r1 s1 /\ matches r2 s2.
Proof. inversion 1; subst; eauto. Qed.

Lemma nullable_matches (r : re) : nullable r = true <-> matches r EmptyString.
Proof.
  induction r as [| |c| | |r1 IH1 r2 IH2|r1 IH1 r2 IH2|r IH]; cbn [nullable].
  - split; [discriminate | inversion 1].
  - split; [constructor | reflexivity].
  - split; [discriminate | inversion 1].
  - split; [discriminate | inversion 1].
  - split; [discriminate | inversion 1].
  - rewrite andb_true_iff, IH1, IH2. split.
    + intros [H1 H2]. change EmptyString with (EmptyString ++ EmptyString).
      now constructor.
    + intros (s1 & s2 & E & H1 & H2)%matches_cat_inv. symmetry in E.
      apply append_eq_nil in E as [-> ->]. auto.
  - rewrite orb_true_iff, IH1, IH2. split.
    + intros [H|H]; [now apply MAltL | now apply MAltR].
    + inversion 1; subst; auto.
  - split; [constructor | reflexivity].
Qed.

(** A match of [Star r] on a non-empty string starts with a non-empty
    match of [r]. *)
Lemma matches_star_cons (r : re) (s : string) :
  matches (Star r) s ->
  forall a t, s = String a t ->
  exists t1 t2, t = t1 ++ t2 /\ matches r (String a t1) /\ matches (Star r) t2.
Proof.
  intros H. remember (Star r) as r' eqn:Er.
  induction H as [| | | | | | | |r0 s1 s2 H1 _ H2 IH2]; try discriminate.
  inversion Er; subst r0. intros a t E.
  destruct s1 as [|c s1].
  - rewrite append_nil_l in E. now apply IH2.
  - rewrite append_cons in E. inversion E; subst. eauto.
Qed.

Lemma deriv_matches (r : re) : forall (a : ascii) (s : string),
  matches (deriv a r) s <-> matches r (String a s).
Proof.
  induction r as [| |c| | |r1 IH1 r2 IH2|r1 IH1 r2 IH2|r IH]; intros a s;
    cbn [deriv].
  - split; inversion 1.
  - split; inversion 1.
  - destruct (Ascii.eqb_spec a c) as [->|Hne].
    + split; inversion 1; subst; constructor.
    + split; inversion 1; subst; congruence.
  - destruct (Ascii.eqb_spec a newline) as [->|Hne].
    + split; inversion 1; subst; congruence.
    + split; inversion 1; subst; now constructor.
  - split; inversion 1; subst; constructor.
  - assert (Hcat : matches (Cat (deriv a r1) r2) s
                   <-> exists s1 s2, s = s1 ++ s2 /\ matches r1 (String a s1)
                                     /\ matches r2 s2).
    { split.
      - intros (s1 & s2 & -> & H1 & H2)%matches_cat_inv.
        apply IH1 in H1. eauto.
      - intros (s1 & s2 & -> & H1 & H2). constructor; [now apply IH1|assumption]. }
    assert (Hsplit : matches (Cat r1 r2) (String a s)
                     <-> (exists s1 s2, s = s1 ++ s2 /\ matches r1 (String a s1)
                                        /\ matches r2 s2)
                         \/ (matches r1 EmptyString /\ matches r2 (String a s))).
    { split.
      - intros (s1 & s2 & E & H1 & H2)%matches_cat_inv.
        destruct s1 as [|c s1].
        + rewrite append_nil_l in E. subst. auto.
        + rewrite append_cons in E. inversion E; subst. left. eauto.
      - intros [(s1 & s2 & -> & H1 & H2)|[H1 H2]].
        + rewrite <- append_cons. now constructor.
        + rewrite <- (append_nil_l (String a s)). now constructor. }
    rewrite Hsplit. destruct (nullable r1) eqn:En.
    + split.
      * inversion 1; subst; [left; now apply Hcat|].
        right. split; [now apply nullable_matches | now apply IH2].
      * intros [H|[_ H]]; [apply MAltL; now apply Hcat | apply MAltR; now apply IH2].
    + rewrite Hcat. split; [auto|]. intros [H|[H _]]; [assumption|].
      apply nullable_matches in H. congruence.
  - split.
    + inversion 1; subst; [apply MAltL; now apply IH1 | apply MAltR; now apply IH2].
    + inversion 1; subst; [apply MAltL; now apply IH1 | apply MAltR; now apply IH2].
  - split.
    + intros (s1 & s2 & -> & H1 & H2)%matches_cat_inv.
      rewrite <- append_cons. constructor; [now apply IH | assumption].
    + intros H.
      destruct (matches_star_cons _ _ H a s eq_refl) as (t1 & t2 & -> & H1 & H2).
      constructor; [now apply IH | assumption].
Qed.

(** The matcher decides the denotation. *)
Lemma fullmatch_matches (s : string) : forall r : re,
  fullmatch r s = true <-> matches r s.
Proof.
  induction s as [|a s IH]; intros r; cbn [fullmatch].
  - apply nullable_matches.
  - rewrite IH. apply deriv_matches.
Qed.

Lemma matches_star_any (s : string) : matches (Star AnyChar) s.
Proof.
  induction s as [|a s IH]; [constructor|].
  change (String a s) with (String a EmptyString ++ s).
  constructor; [constructor | assumption].
Qed.

(** [search] finds a match of the pattern somewhere in the string. *)
Lemma search_spec (r : re) (s : string) :
  search r s = true
  <-> exists before found after,
        s = before ++ found ++ after /\ matches r found.
Proof.
  unfold search. rewrite fullmatch_matches. split.
  - intros (s1 & s23 & -> & _ & H23)%matches_cat_inv.
    apply matches_cat_inv in H23 as (s2 & s3 & -> & H2 & _). eauto.
  - intros (s1 & s2 & s3 & -> & H).
    constructor; [apply matches_star_any|].
    constructor; [assumption | apply matches_star_any].
Qed.

End RegexFacts.

Section SanitizerClaims.

Lemma is_cleared_spec (v : option Value) :
  is_cleared v = match v with
                 | Some (VStr s) => external_reference_formula s
                 | _ => false
                 end.
Proof.
  destruct v as [[s| | |]|]; try reflexivity.
  unfold is_cleared, external_reference_formula.
  destruct s as [|c s]; [reflexivity|].
  cbn [PyStr.truthy].
  destruct (PyStr.startswith "=" (String c s)),
    (PyStr.contains "[" (String c s)), (PyStr.contains "]" (String c s)),
    (Regex.search external_workbook_re (String c s) || PyStr.contains "'" (String c s));
    reflexivity.
Qed.

(** C2, as amended.  For every sheet of the workbook and every coordinate,
    the value is cleared when it is a string that starts with [=],
    contains both [[] and []], and either matches the pattern
    [\[.*\.xl.*\]] or contains a single quote; the style of such a cell is
    kept.  Every other cell, and the titles of the sheets, are left as
    they were. *)
Theorem remove_external_links_cell (workbook : Workbook) (i : nat) (p : coord) :
  cell_at (sheet_at (remove_external_links workbook) i) p
  = match value (cell_at (sheet_at workbook i) p) with
    | Some (VStr s) =>
        if external_reference_formula s
        then mk_cell None (style (cell_at (sheet_at workbook i) p))
        else cell_at (sheet_at workbook i) p
    | _ => cell_at (sheet_at workbook i) p
    end
  /\ sheetnames (remove_external_links workbook) = sheetnames workbook.
Proof.
  split; [|apply sheetnames_remove_external_links].
  rewrite sheet_at_remove_external_links, sanitize_sheet_cell, is_cleared_spec.
  now destruct (value (cell_at (sheet_at workbook i) p)) as [[s| | |]|].
Qed.

(** C2, the counterexample: a formula with a single-quoted sheet qualifier
    and no bracket is not cleared. *)
Lemma remove_external_links_quote_only :
  PyStr.startswith "=" "='Sheet 2'!A1" = true /\
  PyStr.contains "'" "='Sheet 2'!A1" = true /\
  value (cell_at (sheet_at (remove_external_links
           [("Sheet1", sheet_of_cells [((1, 1)%positive, text_cell "='Sheet 2'!A1")])]) 0)
           (1, 1)%positive)
  = Some (VStr "='Sheet 2'!A1").
Proof. vm_compute. auto. Qed.

(** The two cells of the selectivity test. *)
Example remove_external_links_selectivity :
  let formula := "=" ++ double_quote ++ "[Book1.xlsx]Sheet1'!A1" ++ double_quote in
  let wb0 := [("Sheet1", sheet_of_cells
                [((1, 1)%positive, text_cell formula);
                 ((2, 3)%positive, text_cell "see [notes]")])] in
  value (cell_at (sheet_at (remove_external_links wb0) 0) (1, 1)%positive) = None /\
  value (cell_at (sheet_at (remove_external_links wb0) 0) (2, 3)%positive)
  = Some (VStr "see [notes]").
Proof. vm_compute. auto. Qed.

End SanitizerClaims.

(** ** [extract_date_from_sheet] *)

Section DateResolver.

Lemma try_formats_None (s : string) (fmts : list (list PyDate.directive)) :
  try_formats fmts s = None <-> forall f, f ∈ fmts -> PyDate.strptime s f = None.
Proof.
  induction fmts as [|f fmts IH]; simpl.
  - split; [intros _ f Hf; now apply elem_of_nil in Hf | reflexivity].
  - destruct (PyDate.strptime s f) as [d|] eqn:E.
    + split; [discriminate|]. intros H.
      specialize (H f ltac:(apply elem_of_cons; now left)). congruence.
    + rewrite IH. split.
      * intros H g Hg. apply elem_of_cons in Hg as [->|Hg]; auto.
      * intros H g Hg. apply H, elem_of_cons. now right.
Qed.

Lemma try_formats_first (s : string) (f : list PyDate.directive)
  (d : PyDate.datetime) (fs1 fs2 : list (list PyDate.directive)) :
  (forall g, g ∈ fs1 -> PyDate.strptime s g = None) ->
  PyDate.strptime s f = Some d ->
  try_formats (fs1 ++ f :: fs2)%list s = Some (PyDate.strftime_Ymd d).
Proof.
  intros Hnone Hf. induction fs1 as [|g fs1 IH]; simpl.
  - now rewrite Hf.
  - rewrite (Hnone g) by (apply elem_of_cons; now left).
    apply IH. intros g' Hg'. apply Hnone, elem_of_cons. now right.
Qed.

Lemma probe_cell_None (v : option Value) : probe_cell v = None <-> no_date v.
Proof.
  unfold probe_cell, no_date.
  destruct v as [[s|x|b|d]|]; cbn [truthy]; try tauto.
  - destruct s as [|c s]; cbn [PyStr.truthy].
    + split; [|reflexivity]. intros _ f Hf.
      unfold date_formats in Hf.
      repeat (apply elem_of_cons in Hf as [->|Hf]; [reflexivity|]).
      now apply elem_of_nil in Hf.
    + apply try_formats_None.
  - destruct (negb _); tauto.
  - destruct b; tauto.
  - split; [discriminate | tauto].
Qed.

Lemma scan_columns_flat (ws : Worksheet) (row : positive) (cols : list positive) :
  scan_columns ws row cols
  = head (omap (fun q => probe_cell (value (cell_at ws q)))
               (map (fun c => (row, c)) cols)).
Proof.
  induction cols as [|c cols IH]; simpl; [reflexivity|].
  destruct (probe_cell (value (cell_at ws (row, c)))); [reflexivity | exact IH].
Qed.

Lemma scan_rows_flat (ws : Worksheet) (rows : list positive) :
  scan_rows ws rows
  = head (omap (fun q => probe_cell (value (cell_at ws q)))
               (flat_map (fun r => map (fun c => (r, c)) (pos_range 5)) rows)).
Proof.
  induction rows as [|r rows IH]; [reflexivity|].
  cbn [scan_rows flat_map]. rewrite scan_columns_flat, IH, omap_app.
  now destruct (omap _ (map _ (pos_range 5))).
Qed.

Lemma omap_all_None {A B} (f : A -> option B) (l : list A) :
  (forall x, x ∈ l -> f x = None) -> omap f l = [].
Proof.
  induction l as [|x l IH]; intros H; simpl; [reflexivity|].
  rewrite (H x) by (apply elem_of_cons; now left).
  apply IH. intros y Hy. apply H, elem_of_cons. now right.
Qed.

(** The scan returns what the first cell of the window with a date gives. *)
Lemma extract_date_from_sheet_at (ws : Worksheet) (before after : list coord)
  (p : coord) (r : string) :
  probe_window = (before ++ p :: after)%list ->
  (forall q, q ∈ before -> no_date (value (cell_at ws q))) ->
  probe_cell (value (cell_at ws p)) = Some r ->
  extract_date_from_sheet ws = Some r.
Proof.
  intros Hw Hbefore Hp.
  unfold extract_date_from_sheet. rewrite scan_rows_flat.
  fold probe_window. rewrite Hw, omap_app, omap_all_None.
  - simpl. now rewrite Hp.
  - intros q Hq. now apply probe_cell_None, Hbefore.
Qed.

Lemma extract_date_from_sheet_None (ws : Worksheet) :
  (forall q, q ∈ probe_window -> no_date (value (cell_at ws q))) ->
  extract_date_from_sheet ws = None.
Proof.
  intros H. unfold extract_date_from_sheet. rewrite scan_rows_flat.
  fold probe_window. rewrite omap_all_None; [reflexivity|].
  intros q Hq. now apply probe_cell_None, H.
Qed.

End DateResolver.

Section DateResolverClaims.

(** C1, as amended.  The window is scanned once, in row-major order, and
    the first cell that holds a native date or a string that one of the
    formats parses decides: a native date is returned as YYYYMMDD when no
    cell before it holds a native date or a parseable string, and a string
    is returned as parsed by the first format that accepts it under the
    same condition.  So a native date wins over the parseable strings that
    come after it, not over those that come before. *)
Theorem extract_date_from_sheet_first (ws : Worksheet)
  (before after : list coord) (p : coord) :
  probe_window = (before ++ p :: after)%list ->
  (forall q, q ∈ before -> no_date (value (cell_at ws q))) ->
  (forall d, value (cell_at ws p) = Some (VDate d) ->
             extract_date_from_sheet ws = Some (PyDate.strftime_Ymd d))
  /\ (forall s f d fs1 fs2,
        value (cell_at ws p) = Some (VStr s) ->
        date_formats = (fs1 ++ f :: fs2)%list ->
        (forall g, g ∈ fs1 -> PyDate.strptime s g = None) ->
        PyDate.strptime s f = Some d ->
        extract_date_from_sheet ws = Some (PyDate.strftime_Ymd d)).
Proof.
  intros Hw Hbefore. split.
  - intros d Hd. apply (extract_date_from_sheet_at ws before after p); auto.
    now rewrite Hd.
  - intros s f d fs1 fs2 Hs Hfmts Hnone Hf.
    apply (extract_date_from_sheet_at ws before after p); auto.
    rewrite Hs. unfold probe_cell. cbn [truthy].
    destruct s as [|c s].
    + assert (Hin : f ∈ date_formats).
      { rewrite Hfmts. apply elem_of_app. right. apply elem_of_cons. now left. }
      unfold date_formats in Hin.
      repeat (apply elem_of_cons in Hin as [->|Hin]; [discriminate Hf|]).
      now apply elem_of_nil in Hin.
    + cbn [PyStr.truthy]. rewrite Hfmts. now apply try_formats_first.
Qed.

Lemma extract_date_from_sheet_first_witness :
  probe_window = ([(1, 1)%positive] ++ (1, 2)%positive :: drop 2 probe_window)%list
  /\ no_date (value (cell_at sheet_date_then_string (1, 1)%positive))
  /\ extract_date_from_sheet sheet_date_then_string = Some "20240304".
Proof.
  assert (Hno : no_date (value (cell_at sheet_date_then_string (1, 1)%positive)))
    by (apply probe_cell_None; reflexivity).
  split; [reflexivity|]. split; [exact Hno|].
  refine (proj1 (extract_date_from_sheet_first sheet_date_then_string
                   [(1, 1)%positive] (drop 2 probe_window) (1, 2)%positive
                   eq_refl _) _ eq_refl).
  intros q Hq. apply list_elem_of_singleton in Hq. subst q. exact Hno.
Defined.

(** C1, the counterexample: with a parseable string at (1,1) and a native
    date at (2,2), the string is what is returned. *)
Lemma extract_date_from_sheet_string_first :
  value (cell_at sheet_string_then_date (2, 2)%positive)
  = Some (VDate (PyDate.mk_datetime 2023 5 6 0 0 0))
  /\ PyDate.strftime_Ymd (PyDate.mk_datetime 2023 5 6 0 0 0) = "20230506"
  /\ value (cell_at sheet_string_then_date (1, 1)%positive)
     = Some (VStr "2024-01-15")
  /\ extract_date_from_sheet sheet_string_then_date = Some "20240115".
Proof. vm_compute. auto. Qed.

(** A window without a native date and without a parseable string gives
    no date. *)
Lemma extract_date_from_sheet_nothing (ws : Worksheet) :
  (forall q, q ∈ probe_window -> no_date (value (cell_at ws q))) ->
  extract_date_from_sheet ws = None.
Proof. apply extract_date_from_sheet_None. Qed.

Lemma extract_date_from_sheet_nothing_witness :
  extract_date_from_sheet (sheet_of_cells [((1, 1)%positive, text_cell "Report")])
  = None.
Proof.
  apply extract_date_from_sheet_nothing.
  intros q Hq. apply probe_cell_None.
  unfold probe_window in Hq. cbn in Hq.
  repeat (apply elem_of_cons in Hq as [->|Hq]; [reflexivity|]).
  now apply elem_of_nil in Hq.
Defined.

(** A string that both [%m/%d/%Y] and [%d/%m/%Y] accept is read month
    first; one that only the second accepts is read day first. *)
Example month_first :
  try_formats date_formats "03/04/2024" = Some "20240304"
  /\ try_formats date_formats "13/04/2024" = Some "20240413".
Proof. vm_compute. auto. Qed.

End DateResolverClaims.

(** ** Style tables *)

Section IndexedLists.

Context {A : Type} `{EqDecision A}.

Lemma index_last_Some (x : A) (l : list A) (i : nat) :
  index_last x l = Some i -> l !! i = Some x.
Proof.
  revert i. induction l as [|y l IH]; intros i; cbn [index_last]; [discriminate|].
  destruct (index_last x l) as [j|].
  - intros [= <-]. now apply IH.
  - destruct (decide (x = y)) as [->|]; [|discriminate]. now intros [= <-].
Qed.

Lemma index_last_None (x : A) (l : list A) :
  index_last x l = None <-> x ∉ l.
Proof.
  induction l as [|y l IH]; cbn [index_last].
  - split; [intros _; apply not_elem_of_nil | reflexivity].
  - rewrite not_elem_of_cons. destruct (index_last x l) as [j|].
    + split; [discriminate|]. intros [_ H]. now apply IH in H.
    + destruct (decide (x = y)) as [->|Hne].
      * split; [discriminate | intros [H _]; congruence].
      * split; [intros _; split; [assumption | now apply IH] | reflexivity].
Qed.

(** Of a value that occurs once the position is that of its occurrence. *)
Lemma index_last_unique (x : A) (l : list A) (i : nat) :
  l !! i = Some x -> (forall j, l !! j = Some x -> j = i) ->
  index_last x l = Some i.
Proof.
  intros Hi Huniq.
  destruct (index_last x l) as [j|] eqn:E.
  - apply index_last_Some in E. f_equal. now apply Huniq.
  - apply index_last_None in E. exfalso. apply E.
    eapply list_elem_of_lookup_2, Hi.
Qed.

Lemma indexed_add_spec (x : A) (l : list A) :
  l `prefix_of` (indexed_add x l).1
  /\ (indexed_add x l).1 !! (indexed_add x l).2 = Some x
  /\ (x ∈ l -> (indexed_add x l).1 = l /\ (indexed_add x l).2 < length l).
Proof.
  unfold indexed_add. destruct (index_last x l) as [i|] eqn:E; cbn [fst snd].
  - split; [reflexivity|]. split; [now apply index_last_Some|].
    intros _. split; [reflexivity|].
    apply index_last_Some in E. now apply lookup_lt_Some in E.
  - split; [now apply prefix_app_r|]. split.
    + rewrite lookup_app_r by lia. now rewrite Nat.sub_diag.
    + intros Hin. now apply index_last_None in E.
Qed.


End IndexedLists.

Section StyleTablesFacts.

Lemma tables_extend_refl (t : StyleTables) : tables_extend t t.
Proof. unfold tables_extend. repeat split; reflexivity. Qed.

Lemma tables_extend_trans (t1 t2 t3 : StyleTables) :
  tables_extend t1 t2 -> tables_extend t2 t3 -> tables_extend t1 t3.
Proof.
  unfold tables_extend. intros (?&?&?&?&?&?) (?&?&?&?&?&?).
  repeat split; etrans; eassumption.
Qed.


Lemma collection_with_collection (k k' : component) (l : list StyleObj)
  (t : StyleTables) :
  collection k' (with_collection k l t)
  = if decide (k = k') then l else collection k' t.
Proof. destruct k, k'; reflexivity. Qed.


Lemma with_collection_extend (k : component) (l : list StyleObj)
  (t : StyleTables) :
  collection k t `prefix_of` l -> tables_extend t (with_collection k l t).
Proof.
  intros H. unfold tables_extend. destruct k; cbn in *; repeat split;
    first [exact H | reflexivity].
Qed.



Lemma style_key_with_numFmtId (k : component) (i : nat) (a : StyleArray) :
  style_key k (with_numFmtId i a) = style_key k a.
Proof. now destruct k. Qed.



Lemma valid_style_no_style (t : StyleTables) (a : StyleArray) :
  valid_style t a -> valid_style t no_style.
Proof.
  intros (?&?&?&?&?&?). unfold valid_style, no_style, BUILTIN_FORMATS_MAX_SIZE.
  cbn. repeat split; lia.
Qed.






End StyleTablesFacts.

(** ** Cells and their styles *)

Section CellOps.

Lemma cell_at_update_style (p q : coord) (f : StyleArray -> StyleArray)
  (ws : Worksheet) :
  cell_at (update_style p f ws) q
  = if decide (p = q)
    then mk_cell (value (cell_at ws p)) (Some (f (style_array (cell_at ws p))))
    else cell_at ws q.
Proof. unfold update_style, set_style. apply cell_at_set_cell. Qed.

Lemma cell_at_update_style_ne (p q : coord) (f : StyleArray -> StyleArray)
  (ws : Worksheet) :
  q <> p -> cell_at (update_style p f ws) q = cell_at ws q.
Proof. intros H. rewrite cell_at_update_style, decide_False; congruence. Qed.

Lemma value_update_style (p q : coord) (f : StyleArray -> StyleArray)
  (ws : Worksheet) :
  value (cell_at (update_style p f ws) q) = value (cell_at ws q).
Proof.
  rewrite cell_at_update_style. now destruct (decide (p = q)) as [->|].
Qed.

Lemma style_array_update_style (p : coord) (f : StyleArray -> StyleArray)
  (ws : Worksheet) :
  style_array (cell_at (update_style p f ws) p) = f (style_array (cell_at ws p)).
Proof. rewrite cell_at_update_style, decide_True; reflexivity. Qed.

Lemma style_op_refl (p : coord) (s : Worksheet * StyleTables) : style_op p s s.
Proof. unfold style_op. repeat split; auto using tables_extend_refl. Qed.

Lemma style_op_trans (p : coord) (s1 s2 s3 : Worksheet * StyleTables) :
  style_op p s1 s2 -> style_op p s2 s3 -> style_op p s1 s3.
Proof.
  intros (T1&C1&V1&D1&R1&M1) (T2&C2&V2&D2&R2&M2).
  split; [eapply tables_extend_trans; eassumption|].
  split; [intros q Hq; now rewrite C2, C1|].
  split; [intros q; now rewrite V2, V1|].
  split; [congruence|]. split; congruence.
Qed.

Lemma update_style_op (p : coord) (f : StyleArray -> StyleArray)
  (ws : Worksheet) (t t' : StyleTables) :
  tables_extend t t' -> style_op p (ws, t) (update_style p f ws, t').
Proof.
  intros Ht. split; [exact Ht|]. cbn [fst snd].
  split; [intros q Hq; now apply cell_at_update_style_ne|].
  split; [intros q; apply value_update_style|].
  repeat split.
Qed.

Lemma descriptor_set_op (k : component) (p : coord) (v : StyleObj)
  (s : Worksheet * StyleTables) :
  style_op p s (descriptor_set k p v s).
Proof.
  unfold descriptor_set.
  destruct (indexed_add_spec v (collection k s.2)) as (Hpre & _ & _).
  destruct (indexed_add v (collection k s.2)) as [l idx]. cbn [fst] in Hpre.
  destruct s as [ws t]. apply update_style_op.
  now apply with_collection_extend.
Qed.

Lemma set_number_format_op (lib : Openpyxl) (p : coord) (v : string)
  (s : Worksheet * StyleTables) :
  style_op p s (set_number_format lib p v s).
Proof.
  unfold set_number_format. destruct s as [ws t]. cbn [fst snd].
  destruct (BUILTIN_FORMATS_REVERSE lib v) as [idx|].
  - apply update_style_op, tables_extend_refl.
  - destruct (indexed_add_spec v (number_formats t)) as (Hpre & _ & _).
    destruct (indexed_add v (number_formats t)) as [l i]. cbn [fst] in Hpre.
    apply update_style_op. unfold tables_extend. cbn.
    repeat split; first [exact Hpre | reflexivity].
Qed.












End CellOps.

(** ** The loop over the cells of the template *)

Section FormatLoop.

Variable lib : Openpyxl.
Variable tab1 : Worksheet.

Lemma format_step_op (acc : Worksheet * StyleTables) (p : coord) :
  style_op p acc (format_step lib tab1 acc p).
Proof.
  unfold format_step. destruct (has_style (cell_at tab1 p)); [|apply style_op_refl].
  cbv zeta.
  do 5 (eapply style_op_trans;
        [|first [apply descriptor_set_op | apply set_number_format_op]]).
  apply descriptor_set_op.
Qed.


(** The loop as a whole. *)
Lemma format_fold_frame (ps : list coord) :
  forall acc : Worksheet * StyleTables,
    let r := fold_left (format_step lib tab1) ps acc in
    tables_extend acc.2 r.2
    /\ (forall q, q ∉ ps -> cell_at r.1 q = cell_at acc.1 q)
    /\ (forall q, value (cell_at r.1 q) = value (cell_at acc.1 q))
    /\ column_dimensions r.1 = column_dimensions acc.1
    /\ row_dimensions r.1 = row_dimensions acc.1
    /\ merged_cells r.1 = merged_cells acc.1.
Proof.
  induction ps as [|p ps IH]; intros acc; cbn [fold_left]; cbv zeta.
  - repeat split; auto using tables_extend_refl.
  - destruct (IH (format_step lib tab1 acc p)) as (T&C&V&D&R&M).
    destruct (format_step_op acc p) as (T'&C'&V'&D'&R'&M').
    split; [eapply tables_extend_trans; eassumption|].
    split.
    { intros q Hq. apply not_elem_of_cons in Hq as [Hne Hq].
      now rewrite C, C'. }
    split; [intros q; now rewrite V, V'|].
    split; [congruence|]. split; congruence.
Qed.



End FormatLoop.

(** ** The cells of a range *)

Section Ranges.

Lemma pos_between_cons (lo hi : positive) :
  (lo <= hi)%positive ->
  pos_between lo hi = lo :: pos_between (Pos.succ lo) hi.
Proof.
  intros H. unfold pos_between.
  replace (S (Pos.to_nat hi) - Pos.to_nat lo)
    with (S (S (Pos.to_nat hi) - Pos.to_nat (Pos.succ lo))) by lia.
  cbn [seq map]. rewrite Pos2Nat.id.
  replace (S (Pos.to_nat lo)) with (Pos.to_nat (Pos.succ lo)) by lia.
  reflexivity.
Qed.

Lemma pos_between_nil (lo hi : positive) :
  (hi < lo)%positive -> pos_between lo hi = [].
Proof.
  intros H. unfold pos_between.
  replace (S (Pos.to_nat hi) - Pos.to_nat lo) with 0 by lia. reflexivity.
Qed.

Lemma elem_of_pos_between (lo hi x : positive) :
  x ∈ pos_between lo hi <-> (lo <= x <= hi)%positive.
Proof.
  unfold pos_between. rewrite list_elem_of_In, in_map_iff. split.
  - intros (n & <- & Hn). apply in_seq in Hn.
    assert (E : Pos.to_nat (Pos.of_nat n) = n) by (apply Nat2Pos.id; lia).
    lia.
  - intros Hx. exists (Pos.to_nat x). split; [apply Pos2Nat.id|].
    apply in_seq. lia.
Qed.

Lemma elem_of_range_cells (r : CellRange) (p : coord) :
  p ∈ range_cells r
  <-> (first_row r <= p.1 <= last_row r)%positive
      /\ (first_col r <= p.2 <= last_col r)%positive.
Proof.
  unfold range_cells. rewrite list_elem_of_In, in_flat_map. split.
  - intros (row & Hrow & Hp). apply in_map_iff in Hp as (c & <- & Hc).
    apply list_elem_of_In, elem_of_pos_between in Hrow, Hc. cbn [fst snd]. tauto.
  - intros [Hr Hc]. exists p.1. split.
    + now apply list_elem_of_In, elem_of_pos_between.
    + apply in_map_iff. exists p.2. split; [now destruct p|].
      now apply list_elem_of_In, elem_of_pos_between.
Qed.

(** The cells of a range after the first: those that are not the top left
    cell. *)
Lemma elem_of_tail_range_cells (r : CellRange) (p : coord) :
  p ∈ tail (range_cells r)
  <-> p ∈ range_cells r /\ p <> (first_row r, first_col r).
Proof.
  destruct (Pos.lt_total (last_row r) (first_row r)) as [Hr|Hr].
  { unfold range_cells.
    rewrite (pos_between_nil (first_row r) (last_row r) Hr). cbn.
    split; [intros H; now apply elem_of_nil in H|].
    intros [H _]. now apply elem_of_nil in H. }
  destruct (Pos.lt_total (last_col r) (first_col r)) as [Hc|Hc].
  { assert (E : range_cells r = []).
    { unfold range_cells. rewrite (pos_between_nil _ _ Hc).
      induction (pos_between (first_row r) (last_row r)); [reflexivity|].
      cbn. exact IHl. }
    rewrite E. cbn.
    split; [intros H; now apply elem_of_nil in H|].
    intros [H _]. now apply elem_of_nil in H. }
  assert (Hr' : (first_row r <= last_row r)%positive) by lia.
  assert (Hc' : (first_col r <= last_col r)%positive) by lia.
  assert (E : range_cells r
              = (first_row r, first_col r)
                :: (map (fun c => (first_row r, c))
                      (pos_between (Pos.succ (first_col r)) (last_col r))
                    ++ flat_map (fun row => map (fun c => (row, c))
                                   (pos_between (first_col r) (last_col r)))
                         (pos_between (Pos.succ (first_row r)) (last_row r)))%list).
  { unfold range_cells. rewrite (pos_between_cons _ _ Hr'). cbn [flat_map].
    rewrite (pos_between_cons _ _ Hc') at 1. reflexivity. }
  rewrite elem_of_range_cells. rewrite E. cbn [tail].
  rewrite elem_of_app, !list_elem_of_In, in_map_iff, in_flat_map. split.
  - intros [(c & <- & Hc0)|(row & Hrow & Hp)].
    + apply list_elem_of_In, elem_of_pos_between in Hc0. cbn [fst snd].
      split; [lia|]. intros [= H]. lia.
    + apply in_map_iff in Hp as (c & <- & Hc0).
      apply list_elem_of_In, elem_of_pos_between in Hrow, Hc0. cbn [fst snd].
      split; [lia|]. intros [= H _]. lia.
  - intros [[H1 H2] Hne]. destruct p as [row c]. cbn [fst snd] in *.
    destruct (decide (row = first_row r)) as [->|Hrow].
    + left. exists c. split; [reflexivity|].
      apply list_elem_of_In, elem_of_pos_between.
      assert (c <> first_col r) by congruence. lia.
    + right. exists row. split.
      * apply list_elem_of_In, elem_of_pos_between. lia.
      * apply in_map_iff. exists c. split; [reflexivity|].
        apply list_elem_of_In, elem_of_pos_between. lia.
Qed.

(** The merged cells of a range that lies within another are merged cells
    of the other. *)
Lemma tail_range_cells_issubset (r r' : CellRange) (p : coord) :
  issubset r r' = true ->
  p ∈ tail (range_cells r) -> p ∈ tail (range_cells r').
Proof.
  unfold issubset. intros H.
  repeat (apply andb_prop in H as [H ?]).
  repeat match goal with
         | H : (_ <=? _)%positive = true |- _ => apply Pos.leb_le in H
         end.
  rewrite !elem_of_tail_range_cells, !elem_of_range_cells.
  intros [[Hr Hc] Hne]. split; [lia|].
  intros ->. cbn [fst snd] in *. apply Hne. f_equal; lia.
Qed.

End Ranges.

Section Sharing.

Variable lib : Openpyxl.






Lemma set_number_format_key (k : component) (p : coord) (v : string)
  (s : Worksheet * StyleTables) :
  style_key k (style_array (cell_at (set_number_format lib p v s).1 p))
  = style_key k (style_array (cell_at s.1 p)).
Proof.
  unfold set_number_format.
  destruct (BUILTIN_FORMATS_REVERSE lib v) as [i|].
  - cbn [fst]. now rewrite style_array_update_style, style_key_with_numFmtId.
  - destruct (indexed_add v (number_formats s.2)) as [l i]. cbn [fst].
    now rewrite style_array_update_style, style_key_with_numFmtId.
Qed.

Lemma set_number_format_objects (k : component) (p : coord) (v : string)
  (s : Worksheet * StyleTables) :
  collection k (set_number_format lib p v s).2 = collection k s.2.
Proof.
  unfold set_number_format.
  destruct (BUILTIN_FORMATS_REVERSE lib v) as [i|]; [reflexivity|].
  destruct (indexed_add v (number_formats s.2)) as [l i]. now destruct k.
Qed.

Lemma set_number_format_styled (p : coord) (v : string)
  (s : Worksheet * StyleTables) :
  is_Some (style (cell_at (set_number_format lib p v s).1 p)).
Proof.
  unfold set_number_format.
  destruct (BUILTIN_FORMATS_REVERSE lib v) as [i|].
  - cbn [fst]. rewrite cell_at_update_style, decide_True by reflexivity.
    cbn. eauto.
  - destruct (indexed_add v (number_formats s.2)) as [l i]. cbn [fst].
    rewrite cell_at_update_style, decide_True by reflexivity. cbn. eauto.
Qed.

(** The first loop in a workbook whose template cells hold positions of
    the tables: every value it assigns is an entry of a table already. *)
Variables (tab1 : Worksheet) (t0 : StyleTables).

Hypothesis tab1_valid : forall q,
  has_style (cell_at tab1 q) = true ->
  valid_style t0 (style_array (cell_at tab1 q)).





End Sharing.

(** ** Merged ranges *)

Section MergePhase.

Variables (lib : Openpyxl) (tab1 : Worksheet).

Lemma add_range_spec (r : CellRange) (ws : Worksheet) :
  cells (add_range r ws) = cells ws
  /\ column_dimensions (add_range r ws) = column_dimensions ws
  /\ row_dimensions (add_range r ws) = row_dimensions ws
  /\ (forall x, x ∈ merged_cells (add_range r ws) ->
                x ∈ merged_cells ws \/ x = r)
  /\ (forall x, x ∈ merged_cells ws -> x ∈ merged_cells (add_range r ws))
  /\ (r ∈ merged_cells (add_range r ws)
      \/ exists r', r' ∈ merged_cells (add_range r ws) /\ issubset r r' = true).
Proof.
  unfold add_range. cbn [cells column_dimensions row_dimensions merged_cells].
  do 3 (split; [reflexivity|]).
  destruct (existsb (issubset r) (merged_cells ws)) eqn:E.
  - split; [auto|]. split; [auto|]. right.
    apply existsb_exists in E as (r' & Hin & Hsub).
    exists r'. split; [now apply list_elem_of_In | exact Hsub].
  - split.
    { intros x Hx. apply elem_of_app in Hx as [Hx|Hx]; [now left|].
      right. now apply list_elem_of_singleton in Hx. }
    split.
    { intros x Hx. apply elem_of_app. now left. }
    left. apply elem_of_app. right. now apply list_elem_of_singleton.
Qed.

Lemma clean_fold_spec (l : list coord) : forall ws : Worksheet,
  let r := fold_left (fun s p => set_cell p empty_cell s) l ws in
  (forall q, q ∉ l -> cell_at r q = cell_at ws q)
  /\ (forall q, q ∈ l -> cell_at r q = empty_cell)
  /\ column_dimensions r = column_dimensions ws
  /\ row_dimensions r = row_dimensions ws
  /\ merged_cells r = merged_cells ws.
Proof.
  induction l as [|p l IH]; intros ws; cbn [fold_left]; cbv zeta.
  - repeat split; auto. intros q H. now apply elem_of_nil in H.
  - destruct (IH (set_cell p empty_cell ws)) as (C&E&D&R&M).
    split.
    { intros q Hq. apply not_elem_of_cons in Hq as [Hne Hq].
      rewrite C by assumption. rewrite cell_at_set_cell, decide_False; congruence. }
    split.
    { intros q Hq. destruct (decide (q ∈ l)) as [Hin|Hnin]; [now apply E|].
      apply elem_of_cons in Hq as [->|Hq]; [|contradiction].
      rewrite C by assumption. now rewrite cell_at_set_cell, decide_True. }
    auto.
Qed.

Lemma format_merged_spec (styles : coord -> option StyleArray) (l : list coord) :
  forall ws : Worksheet,
  let r := fold_left (fun s p => match styles p with
                                 | Some a => set_style p a s
                                 | None => s
                                 end) l ws in
  (forall q, q ∉ l -> cell_at r q = cell_at ws q)
  /\ (forall q, value (cell_at r q) = value (cell_at ws q))
  /\ column_dimensions r = column_dimensions ws
  /\ row_dimensions r = row_dimensions ws
  /\ merged_cells r = merged_cells ws.
Proof.
  induction l as [|p l IH]; intros ws; cbn [fold_left]; cbv zeta.
  - repeat split; auto.
  - match goal with |- context [fold_left _ l ?w] => destruct (IH w) as (C&V&D&R&M) end.
    split.
    { intros q Hq. apply not_elem_of_cons in Hq as [Hne Hq].
      rewrite C by assumption. destruct (styles p); [|reflexivity].
      unfold set_style. rewrite cell_at_set_cell, decide_False; congruence. }
    split.
    { intros q. rewrite V. destruct (styles p); [|reflexivity].
      apply value_set_style. }
    rewrite D, R, M. now destruct (styles p).
Qed.

Lemma merge_cells_spec (r : CellRange) (s : Worksheet * StyleTables) :
  let m := merge_cells lib tab1 r s in
  tables_extend s.2 m.2
  /\ (forall k, k <> BorderC -> collection k m.2 = collection k s.2)
  /\ (forall q, q ∉ range_cells r -> cell_at m.1 q = cell_at s.1 q)
  /\ (forall q, value (cell_at m.1 q) = None
                \/ value (cell_at m.1 q) = value (cell_at s.1 q))
  /\ column_dimensions m.1 = column_dimensions s.1
  /\ row_dimensions m.1 = row_dimensions s.1
  /\ merged_cells m.1 = merged_cells (add_range r s.1).
Proof.
  unfold merge_cells.
  destruct (merged_format lib tab1 (borders s.2) s.1 r) as [added styles].
  cbv zeta. cbn [fst snd].
  destruct (add_range_spec r s.1) as (Ac&Ad&Ar&_).
  destruct (clean_fold_spec (tail (range_cells r)) (add_range r s.1))
    as (Cc&Ce&Cd&Cr&Cm).
  destruct (format_merged_spec styles (range_cells r)
              (clean_merge_range r (add_range r s.1))) as (Fc&Fv&Fd&Fr&Fm).
  fold (clean_merge_range r (add_range r s.1)) in Cc, Ce, Cd, Cr, Cm.
  fold (format_merged styles r (clean_merge_range r (add_range r s.1)))
    in Fc, Fv, Fd, Fr, Fm.
  assert (Hcell : forall q, cell_at (add_range r s.1) q = cell_at s.1 q).
  { intros q. unfold cell_at. now rewrite Ac. }
  split.
  { apply (with_collection_extend BorderC). now apply prefix_app_r. }
  split.
  { intros k Hk. rewrite collection_with_collection, decide_False; congruence. }
  split.
  { intros q Hq. rewrite Fc by assumption. rewrite Cc, Hcell; [reflexivity|].
    intros Hin. apply Hq.
    destruct (range_cells r) as [|x t]; [exact Hin|]. cbn [tail] in Hin.
    apply elem_of_cons. now right. }
  split.
  { intros q. rewrite Fv.
    destruct (decide (q ∈ tail (range_cells r))) as [Hin|Hnin].
    - left. now rewrite Ce.
    - right. now rewrite Cc, Hcell. }
  rewrite Fd, Cd, Fr, Cr, Fm, Cm. auto.
Qed.

Lemma merged_fold_spec (l : list CellRange) :
  forall s : Worksheet * StyleTables,
  let m := fold_left (fun acc r => merge_cells lib tab1 r acc) l s in
  tables_extend s.2 m.2
  /\ (forall k, k <> BorderC -> collection k m.2 = collection k s.2)
  /\ (forall q, (forall r, r ∈ l -> q ∉ range_cells r) ->
                cell_at m.1 q = cell_at s.1 q)
  /\ (forall q, value (cell_at m.1 q) = None
                \/ value (cell_at m.1 q) = value (cell_at s.1 q))
  /\ column_dimensions m.1 = column_dimensions s.1
  /\ row_dimensions m.1 = row_dimensions s.1
  /\ (forall x, x ∈ merged_cells m.1 -> x ∈ merged_cells s.1 \/ x ∈ l)
  /\ (forall x, x ∈ merged_cells s.1 -> x ∈ merged_cells m.1)
  /\ (forall x, x ∈ l ->
        x ∈ merged_cells m.1
        \/ exists r', r' ∈ merged_cells m.1 /\ issubset x r' = true).
Proof.
  induction l as [|r l IH]; intros s; cbn [fold_left]; cbv zeta.
  - split; [apply tables_extend_refl|]. repeat split; auto.
    intros x H. now apply elem_of_nil in H.
  - destruct (IH (merge_cells lib tab1 r s)) as (T&O&C&V&D&R&M1&M2&M3).
    destruct (merge_cells_spec r s) as (T'&O'&C'&V'&D'&R'&M').
    destruct (add_range_spec r s.1) as (_&_&_&A1&A2&A3).
    rewrite <- M' in A1, A2, A3.
    split; [eapply tables_extend_trans; eassumption|].
    split; [intros k Hk; now rewrite O, O'|].
    split.
    { intros q Hq. rewrite C, C'; [reflexivity| |].
      - apply Hq, elem_of_cons. now left.
      - intros x Hx. apply Hq, elem_of_cons. now right. }
    split.
    { intros q. destruct (V q) as [H|H]; [now left|]. rewrite H. apply V'. }
    split; [congruence|]. split; [congruence|].
    split.
    { intros x Hx. apply M1 in Hx as [Hx|Hx].
      - apply A1 in Hx as [Hx| ->]; [now left|]. right. apply elem_of_cons. now left.
      - right. apply elem_of_cons. now right. }
    split; [intros x Hx; now apply M2, A2|].
    intros x Hx. apply elem_of_cons in Hx as [->|Hx]; [|now apply M3].
    destruct A3 as [A3|(r'&Hr'&Hsub)].
    + left. now apply M2.
    + right. exists r'. split; [now apply M2 | exact Hsub].
Qed.

End MergePhase.

(** ** The values of the client *)

Section ValuePhase.

Variable lib : Openpyxl.

Lemma cell_at_set_value_ne (p q : coord) (v : option Value) (ws : Worksheet) :
  q <> p -> cell_at (set_value p v ws) q = cell_at ws q.
Proof.
  intros H. unfold set_value. rewrite cell_at_set_cell, decide_False; congruence.
Qed.

Lemma set_value_op (p : coord) (v : option Value) (s : Worksheet * StyleTables) :
  value_op p s ((set_value p v s.1, s.2), Returned tt).
Proof.
  unfold value_op. cbn [fst snd].
  split; [apply tables_extend_refl|]. split; [reflexivity|].
  split; [intros q Hq; now apply cell_at_set_value_ne|].
  split; [intros q k; unfold style_array; now rewrite style_set_value|].
  split; [intros q; now rewrite style_set_value|].
  repeat split; auto; try discriminate.
Qed.

Lemma assign_value_op (p : coord) (v : Value) (s : Worksheet * StyleTables) :
  value_op p s (assign_value lib p v s).
Proof.
  assert (Hrefl : forall e, value_op p s (s, Raised e)).
  { intros e. unfold value_op. cbn [fst snd].
    split; [apply tables_extend_refl|]. repeat split; auto; try discriminate. }
  unfold assign_value. destruct (merged_cell s.1 p); [apply Hrefl|].
  destruct v as [x| | |d]; try apply set_value_op.
  - destruct (check_string x); [apply set_value_op | apply Hrefl].
  - destruct (is_date_format lib (get_number_format lib s.2 (cell_at s.1 p)));
      [apply set_value_op|].
    destruct (set_number_format_op lib p FORMAT_DATE_DATETIME s)
      as (T&C&V&D&R&M).
    set (s1 := set_number_format lib p FORMAT_DATE_DATETIME s) in *.
    destruct (set_value_op p (Some (VDate d)) s1)
      as (T'&O'&C'&K'&S'&D'&R'&M'&F'&E').
    cbn [fst snd] in *.
    unfold value_op. cbn [fst snd].
    split; [exact T|].
    split; [intros k; apply set_number_format_objects|].
    split; [intros q Hq; now rewrite C', C|].
    split.
    { intros q k. rewrite K'. destruct (decide (q = p)) as [->|Hne].
      - apply set_number_format_key.
      - now rewrite C. }
    split.
    { intros q Hq. apply S'. destruct (decide (q = p)) as [->|Hne].
      - apply set_number_format_styled.
      - now rewrite C. }
    repeat split; try congruence. now left.
Qed.

Lemma merged_cell_ranges (ws ws' : Worksheet) (p : coord) :
  merged_cells ws' = merged_cells ws -> merged_cell ws' p = merged_cell ws p.
Proof. intros E. unfold merged_cell. now rewrite E. Qed.

Lemma assign_value_ok (p : coord) (v : Value) (s : Worksheet * StyleTables) :
  merged_cell s.1 p = false -> writable v = true ->
  (assign_value lib p v s).2 = Returned tt
  /\ value (cell_at (assign_value lib p v s).1.1 p) = Some v.
Proof.
  intros Hm Hw. unfold assign_value. rewrite Hm.
  destruct v as [x| | |d]; cbn [fst snd];
    try (split; [reflexivity|]; now rewrite value_set_value, decide_True).
  cbn [writable] in Hw. apply bool_decide_eq_true in Hw. rewrite Hw.
  cbn [fst snd]. split; [reflexivity|]. now rewrite value_set_value, decide_True.
Qed.


Variable client_ws : Worksheet.

Lemma value_step_op (acc : (Worksheet * StyleTables) * result unit) (p : coord) :
  let r := value_step lib client_ws acc p in
  tables_extend acc.1.2 r.1.2
  /\ (forall k, collection k r.1.2 = collection k acc.1.2)
  /\ (forall q, q <> p \/ value (cell_at client_ws q) = None ->
                cell_at r.1.1 q = cell_at acc.1.1 q)
  /\ (forall q k, style_key k (style_array (cell_at r.1.1 q))
                  = style_key k (style_array (cell_at acc.1.1 q)))
  /\ (forall q, is_Some (style (cell_at acc.1.1 q)) ->
                is_Some (style (cell_at r.1.1 q)))
  /\ column_dimensions r.1.1 = column_dimensions acc.1.1
  /\ row_dimensions r.1.1 = row_dimensions acc.1.1
  /\ merged_cells r.1.1 = merged_cells acc.1.1
  /\ (acc.2 <> OutOfFuel -> r.2 <> OutOfFuel).
Proof.
  destruct acc as [s res]. unfold value_step. cbv zeta. cbn [fst snd].
  assert (Hrefl : forall res' : result unit,
    tables_extend s.2 (s, res').1.2
    /\ (forall k, collection k (s, res').1.2 = collection k s.2)
    /\ (forall q, q <> p \/ value (cell_at client_ws q) = None ->
                  cell_at (s, res').1.1 q = cell_at s.1 q)
    /\ (forall q k, style_key k (style_array (cell_at (s, res').1.1 q))
                    = style_key k (style_array (cell_at s.1 q)))
    /\ (forall q, is_Some (style (cell_at s.1 q)) ->
                  is_Some (style (cell_at (s, res').1.1 q)))
    /\ column_dimensions (s, res').1.1 = column_dimensions s.1
    /\ row_dimensions (s, res').1.1 = row_dimensions s.1
    /\ merged_cells (s, res').1.1 = merged_cells s.1
    /\ (res' <> OutOfFuel -> (s, res').2 <> OutOfFuel)).
  { intros res'. cbn [fst snd].
    split; [apply tables_extend_refl|]. repeat split; auto. }
  destruct res as [u| |]; try apply Hrefl.
  destruct (value (cell_at client_ws p)) as [v|] eqn:Ev; [|apply Hrefl].
  destruct (assign_value_op p v s) as (T&O&C&K&S&D&R&M&F&_).
  split; [exact T|]. split; [exact O|].
  split.
  { intros q [Hq|Hq]; [now apply C|].
    destruct (decide (q = p)) as [->|Hne]; [congruence | now apply C]. }
  repeat split; auto.
Qed.

Lemma value_fold_op (ps : list coord) :
  forall acc : (Worksheet * StyleTables) * result unit,
  let r := fold_left (value_step lib client_ws) ps acc in
  tables_extend acc.1.2 r.1.2
  /\ (forall k, collection k r.1.2 = collection k acc.1.2)
  /\ (forall q, q ∉ ps \/ value (cell_at client_ws q) = None ->
                cell_at r.1.1 q = cell_at acc.1.1 q)
  /\ (forall q k, style_key k (style_array (cell_at r.1.1 q))
                  = style_key k (style_array (cell_at acc.1.1 q)))
  /\ (forall q, is_Some (style (cell_at acc.1.1 q)) ->
                is_Some (style (cell_at r.1.1 q)))
  /\ column_dimensions r.1.1 = column_dimensions acc.1.1
  /\ row_dimensions r.1.1 = row_dimensions acc.1.1
  /\ merged_cells r.1.1 = merged_cells acc.1.1
  /\ (acc.2 <> OutOfFuel -> r.2 <> OutOfFuel).
Proof.
  induction ps as [|p ps IH]; intros acc; cbn [fold_left]; cbv zeta.
  - split; [apply tables_extend_refl|]. repeat split; auto.
  - destruct (IH (value_step lib client_ws acc p)) as (T&O&C&K&S&D&R&M&F).
    destruct (value_step_op acc p) as (T'&O'&C'&K'&S'&D'&R'&M'&F').
    split; [eapply tables_extend_trans; eassumption|].
    split; [intros k; now rewrite O, O'|].
    split.
    { intros q Hq. rewrite C, C'; [reflexivity| |].
      - destruct Hq as [Hq|Hq]; [|now right].
        left. apply not_elem_of_cons in Hq. tauto.
      - destruct Hq as [Hq|Hq]; [|now right].
        left. apply not_elem_of_cons in Hq. tauto. }
    split; [intros q k; now rewrite K, K'|].
    split; [intros q Hq; now apply S, S'|].
    repeat split; try congruence. auto.
Qed.

(** When no value of the client meets a merged cell or is refused, the
    loop gets to its end and every value is written. *)
Lemma value_fold_ok (ps : list coord) :
  forall s : Worksheet * StyleTables,
  (forall q v, q ∈ ps -> value (cell_at client_ws q) = Some v ->
               merged_cell s.1 q = false /\ writable v = true) ->
  let r := fold_left (value_step lib client_ws) ps (s, Returned tt) in
  r.2 = Returned tt
  /\ forall q v, q ∈ ps -> value (cell_at client_ws q) = Some v ->
                 value (cell_at r.1.1 q) = Some v.
Proof.
  induction ps as [|p ps IH]; intros s Hok; cbn [fold_left]; cbv zeta.
  - split; [reflexivity|]. intros q v H. now apply elem_of_nil in H.
  - assert (Hstep : exists s',
               value_step lib client_ws (s, Returned tt) p = (s', Returned tt)
               /\ merged_cells s'.1 = merged_cells s.1
               /\ forall v, value (cell_at client_ws p) = Some v ->
                            value (cell_at s'.1 p) = Some v).
    { unfold value_step. cbn [fst snd].
      destruct (value (cell_at client_ws p)) as [v|] eqn:Ev.
      - destruct (Hok p v) as [Hm Hw]; [apply elem_of_cons; now left|exact Ev|].
        destruct (assign_value_ok p v s Hm Hw) as [E1 E2].
        destruct (assign_value_op p v s) as (_&_&_&_&_&_&_&M&_).
        exists (assign_value lib p v s).1. split.
        + rewrite <- E1. now destruct (assign_value lib p v s).
        + split; [exact M|]. now intros v' [= <-].
      - exists s. split; [reflexivity|]. split; [reflexivity|]. discriminate. }
    destruct Hstep as (s' & -> & Hm' & Hp).
    destruct (IH s') as [E V].
    { intros q v Hq Hv. rewrite (merged_cell_ranges s.1 s'.1 q Hm').
      apply (Hok q v); [apply elem_of_cons; now right | exact Hv]. }
    split; [exact E|]. intros q v Hq Hv.
    destruct (decide (q ∈ ps)) as [Hin|Hnin]; [now apply V|].
    apply elem_of_cons in Hq as [->|Hq]; [|contradiction].
    destruct (value_fold_op ps (s', Returned tt)) as (_&_&C&_).
    cbn [fst snd] in C. rewrite C by now left. now apply Hp.
Qed.

(** Once an assignment has raised, nothing more happens. *)
Lemma value_fold_raised (ps : list coord) (s : Worksheet * StyleTables) (e : exn) :
  fold_left (value_step lib client_ws) ps (s, Raised e) = (s, Raised e).
Proof. induction ps as [|p ps IH]; [reflexivity | exact IH]. Qed.

Lemma assign_value_refused (p : coord) (v : Value) (s : Worksheet * StyleTables) :
  merged_cell s.1 p = true \/ (exists x, v = VStr x /\ check_string x = None) ->
  exists e, assign_value lib p v s = (s, Raised e).
Proof.
  unfold assign_value. intros [H|(x & -> & H)].
  - rewrite H. eauto.
  - destruct (merged_cell s.1 p); [eauto|]. rewrite H. eauto.
Qed.


(** A value on a merged cell, or a string with a character that openpyxl
    refuses, makes the loop raise. *)
Lemma value_fold_raises (p : coord) (v : Value) (ps : list coord) :
  value (cell_at client_ws p) = Some v ->
  p ∈ ps ->
  forall (s : Worksheet * StyleTables) (res : result unit),
  merged_cell s.1 p = true \/ (exists x, v = VStr x /\ check_string x = None) ->
  res <> OutOfFuel ->
  exists e, (fold_left (value_step lib client_ws) ps (s, res)).2 = Raised e.
Proof.
  intros Hv. induction ps as [|q ps IH]; intros Hin s res Hbad Hres;
    [now apply elem_of_nil in Hin|].
  cbn [fold_left].
  destruct res as [u|e|]; [| |congruence].
  - destruct (decide (q = p)) as [->|Hne].
    + unfold value_step at 2. cbn [fst snd]. rewrite Hv.
      destruct (assign_value_refused p v s Hbad) as [e ->].
      rewrite value_fold_raised. eauto.
    + apply elem_of_cons in Hin as [Hin|Hin]; [congruence|].
      destruct (value_step_op (s, Returned u) q) as (_&_&_&_&_&_&_&M&F).
      cbn [fst snd] in M, F.
      destruct (value_step lib client_ws (s, Returned u) q) as [s' res'] eqn:E.
      cbn [fst snd] in M, F.
      apply IH; [exact Hin| |apply F; discriminate].
      destruct Hbad as [Hbad|Hbad]; [left|now right].
      now rewrite (merged_cell_ranges s.1 s'.1 p M).
  - change (value_step lib client_ws (s, Raised e) q)
      with (s, @Raised unit e).
    rewrite value_fold_raised. eauto.
Qed.



End ValuePhase.

(** ** Column widths and row heights *)

Section Dimensions.

Variable tab1 : Worksheet.

Lemma width_fold_cells (l : list string) : forall ws,
  cells (fold_left (width_step tab1) l ws) = cells ws
  /\ row_dimensions (fold_left (width_step tab1) l ws) = row_dimensions ws
  /\ merged_cells (fold_left (width_step tab1) l ws) = merged_cells ws.
Proof.
  induction l as [|c l IH]; intros ws; [auto|].
  cbn [fold_left]. destruct (IH (width_step tab1 ws c)) as (-> & -> & ->).
  unfold width_step. now destruct (column_dimensions tab1 !! c).
Qed.

Lemma height_fold_cells (l : list positive) : forall ws,
  cells (fold_left (height_step tab1) l ws) = cells ws
  /\ column_dimensions (fold_left (height_step tab1) l ws) = column_dimensions ws
  /\ merged_cells (fold_left (height_step tab1) l ws) = merged_cells ws.
Proof.
  induction l as [|r l IH]; intros ws; [auto|].
  cbn [fold_left]. destruct (IH (height_step tab1 ws r)) as (-> & -> & ->).
  unfold height_step. now destruct (row_dimensions tab1 !! r).
Qed.

Lemma elem_of_keys `{Countable K} {A} (m : gmap K A) (k : K) :
  k ∈ map fst (map_to_list m) <-> is_Some (m !! k).
Proof.
  rewrite list_elem_of_In, in_map_iff. split.
  - intros ([k' x] & <- & Hin). exists x.
    now apply elem_of_map_to_list, list_elem_of_In.
  - intros [x Hx]. exists (k, x). split; [reflexivity|].
    now apply list_elem_of_In, elem_of_map_to_list.
Qed.

Lemma width_fold_lookup (l : list string) : forall ws c,
  column_dimensions (fold_left (width_step tab1) l ws) !! c
  = match column_dimensions tab1 !! c with
    | Some w => if bool_decide (c ∈ l) then Some w else column_dimensions ws !! c
    | None => column_dimensions ws !! c
    end.
Proof.
  induction l as [|x l IH]; intros ws c; cbn [fold_left].
  - destruct (column_dimensions tab1 !! c); [|reflexivity].
    rewrite bool_decide_eq_false_2; [reflexivity | apply not_elem_of_nil].
  - rewrite IH. unfold width_step.
    destruct (decide (x = c)) as [->|Hne].
    + destruct (column_dimensions tab1 !! c) as [w|]; [|reflexivity].
      rewrite (bool_decide_eq_true_2 (c ∈ c :: l)) by (apply elem_of_cons; now left).
      cbn [set_width column_dimensions]. rewrite lookup_insert_eq.
      now destruct (bool_decide (c ∈ l)).
    + assert (E : column_dimensions
                    match column_dimensions tab1 !! x with
                    | Some w => set_width x w ws
                    | None => ws
                    end !! c = column_dimensions ws !! c).
      { destruct (column_dimensions tab1 !! x); [|reflexivity].
        cbn [set_width column_dimensions]. now rewrite lookup_insert_ne. }
      rewrite E. destruct (column_dimensions tab1 !! c); [|reflexivity].
      rewrite (bool_decide_ext (c ∈ x :: l) (c ∈ l)); [reflexivity|].
      rewrite elem_of_cons.
      split; [intros [->|?]; [congruence|assumption]|auto].
Qed.

Lemma height_fold_lookup (l : list positive) : forall ws r,
  row_dimensions (fold_left (height_step tab1) l ws) !! r
  = match row_dimensions tab1 !! r with
    | Some h => if bool_decide (r ∈ l) then Some h else row_dimensions ws !! r
    | None => row_dimensions ws !! r
    end.
Proof.
  induction l as [|x l IH]; intros ws r; cbn [fold_left].
  - destruct (row_dimensions tab1 !! r); [|reflexivity].
    rewrite bool_decide_eq_false_2; [reflexivity | apply not_elem_of_nil].
  - rewrite IH. unfold height_step.
    destruct (decide (x = r)) as [->|Hne].
    + destruct (row_dimensions tab1 !! r) as [h|]; [|reflexivity].
      rewrite (bool_decide_eq_true_2 (r ∈ r :: l)) by (apply elem_of_cons; now left).
      cbn [set_height row_dimensions]. rewrite lookup_insert_eq.
      now destruct (bool_decide (r ∈ l)).
    + assert (E : row_dimensions
                    match row_dimensions tab1 !! x with
                    | Some h => set_height x h ws
                    | None => ws
                    end !! r = row_dimensions ws !! r).
      { destruct (row_dimensions tab1 !! x); [|reflexivity].
        cbn [set_height row_dimensions]. now rewrite lookup_insert_ne. }
      rewrite E. destruct (row_dimensions tab1 !! r); [|reflexivity].
      rewrite (bool_decide_ext (r ∈ x :: l) (r ∈ l)); [reflexivity|].
      rewrite elem_of_cons.
      split; [intros [->|?]; [congruence|assumption]|auto].
Qed.

(** A sheet without dimensions gets those of the template. *)
Lemma sized_sheet_spec (ws : Worksheet) :
  column_dimensions ws = ∅ -> row_dimensions ws = ∅ ->
  cells (sized_sheet tab1 ws) = cells ws
  /\ merged_cells (sized_sheet tab1 ws) = merged_cells ws
  /\ column_dimensions (sized_sheet tab1 ws) = column_dimensions tab1
  /\ row_dimensions (sized_sheet tab1 ws) = row_dimensions tab1.
Proof.
  intros Hc Hr. unfold sized_sheet.
  set (ws1 := fold_left (width_step tab1)
                (map fst (map_to_list (column_dimensions tab1))) ws).
  set (ws2 := fold_left (height_step tab1)
                (map fst (map_to_list (row_dimensions tab1))) ws1).
  destruct (width_fold_cells (map fst (map_to_list (column_dimensions tab1))) ws)
    as (Hcells1 & Hr1 & Hm1). fold ws1 in Hcells1, Hr1, Hm1.
  destruct (height_fold_cells (map fst (map_to_list (row_dimensions tab1))) ws1)
    as (Hcells2 & Hc2 & Hm2). fold ws2 in Hcells2, Hc2, Hm2.
  split; [congruence|]. split; [congruence|]. split.
  - rewrite Hc2. apply map_eq. intros c. unfold ws1.
    rewrite width_fold_lookup, Hc, lookup_empty.
    destruct (column_dimensions tab1 !! c) as [w|] eqn:E; [|reflexivity].
    rewrite bool_decide_eq_true_2; [reflexivity|].
    apply elem_of_keys. eauto.
  - apply map_eq. intros r. unfold ws2.
    rewrite height_fold_lookup, Hr1, Hr, lookup_empty.
    destruct (row_dimensions tab1 !! r) as [h|] eqn:E; [|reflexivity].
    rewrite bool_decide_eq_true_2; [reflexivity|].
    apply elem_of_keys. eauto.
Qed.

End Dimensions.

(** ** The transplanted sheet *)

Section TransplantSheet.

Variables (lib : Openpyxl) (tab1 client_ws : Worksheet) (t0 : StyleTables).

Let s1 := styled_sheet lib tab1 t0.
Let s2 : Worksheet * StyleTables := (sized_sheet tab1 s1.1, s1.2).
Let s3 := merged_sheet lib tab1 s2.
Let X := transplant_sheet lib tab1 client_ws t0.

Lemma cell_at_empty_sheet (q : coord) : cell_at empty_sheet q = empty_cell.
Proof. unfold cell_at, empty_sheet. cbn. now rewrite lookup_empty. Qed.


Lemma in_merged_range_false (ws : Worksheet) (q : coord) :
  in_merged_range ws q = false ->
  forall r, r ∈ merged_cells ws -> q ∉ range_cells r.
Proof.
  unfold in_merged_range. intros H r Hr Hq.
  assert (E : existsb (fun r => bool_decide (q ∈ range_cells r)) (merged_cells ws)
              = true).
  { apply existsb_exists. exists r.
    split; [now apply list_elem_of_In | now apply bool_decide_eq_true]. }
  congruence.
Qed.

Lemma transplant_sheet_eq :
  X = fold_left (value_step lib client_ws) (iter_rows client_ws) (s3, Returned tt).
Proof. reflexivity. Qed.

Lemma styled_sheet_spec :
  tables_extend t0 s1.2
  /\ (forall q, value (cell_at s1.1 q) = None)
  /\ column_dimensions s1.1 = ∅
  /\ row_dimensions s1.1 = ∅
  /\ merged_cells s1.1 = [].
Proof.
  destruct (format_fold_frame lib tab1 (iter_rows tab1) (empty_sheet, t0))
    as (T&_&V&D&R&M).
  fold (styled_sheet lib tab1 t0) in T, V, D, R, M. fold s1 in T, V, D, R, M.
  split; [exact T|].
  split; [intros q; rewrite V; cbn [fst]; now rewrite cell_at_empty_sheet|].
  auto.
Qed.

Lemma sized_cells (q : coord) : cell_at s2.1 q = cell_at s1.1 q.
Proof.
  destruct styled_sheet_spec as (_&_&D&R&_).
  destruct (sized_sheet_spec tab1 s1.1 D R) as (C&_).
  unfold s2, cell_at. cbn [fst]. now rewrite C.
Qed.

Lemma merged_spec :
  tables_extend t0 s3.2
  /\ (forall k, k <> BorderC -> collection k s3.2 = collection k s1.2)
  /\ (forall q, in_merged_range tab1 q = false -> cell_at s3.1 q = cell_at s1.1 q)
  /\ (forall q, value (cell_at s3.1 q) = None)
  /\ column_dimensions s3.1 = column_dimensions tab1
  /\ row_dimensions s3.1 = row_dimensions tab1
  /\ (forall x, x ∈ merged_cells s3.1 -> x ∈ merged_cells tab1)
  /\ (forall x, x ∈ merged_cells tab1 ->
        x ∈ merged_cells s3.1
        \/ exists r', r' ∈ merged_cells s3.1 /\ issubset x r' = true).
Proof.
  destruct styled_sheet_spec as (T1&V1&D1&R1&M1).
  destruct (sized_sheet_spec tab1 s1.1 D1 R1) as (C2&M2&D2&R2).
  destruct (merged_fold_spec lib tab1 (merged_cells tab1) s2)
    as (T&O&C&V&D&R&Ma&_&Mc).
  fold (merged_sheet lib tab1 s2) in T, O, C, V, D, R, Ma, Mc.
  fold s3 in T, O, C, V, D, R, Ma, Mc.
  split; [eapply tables_extend_trans; [exact T1 | exact T]|].
  split; [exact O|].
  split.
  { intros q Hq. rewrite C; [apply sized_cells|].
    now apply in_merged_range_false. }
  split.
  { intros q. destruct (V q) as [H|H]; [exact H|].
    rewrite H, sized_cells. apply V1. }
  split; [rewrite D; exact D2|]. split; [rewrite R; exact R2|].
  split; [|exact Mc].
  intros x Hx. apply Ma in Hx as [Hx|Hx]; [|exact Hx].
  unfold s2 in Hx. cbn [fst] in Hx. rewrite M2, M1 in Hx.
  now apply elem_of_nil in Hx.
Qed.

(** The outcome, the tables, sizes and merged ranges. *)
Lemma transplant_sheet_frame :
  X.2 <> OutOfFuel
  /\ tables_extend t0 X.1.2
  /\ column_dimensions X.1.1 = column_dimensions tab1
  /\ row_dimensions X.1.1 = row_dimensions tab1
  /\ (forall x, x ∈ merged_cells X.1.1 -> x ∈ merged_cells tab1)
  /\ (forall x, x ∈ merged_cells tab1 ->
        x ∈ merged_cells X.1.1
        \/ exists r', r' ∈ merged_cells X.1.1 /\ issubset x r' = true).
Proof.
  destruct merged_spec as (T3&_&_&_&D3&R3&Ma&Mb).
  destruct (value_fold_op lib client_ws (iter_rows client_ws) (s3, Returned tt))
    as (T&_&_&_&_&D&R&M&F).
  rewrite <- transplant_sheet_eq in T, D, R, M, F. cbn [fst snd] in *.
  split; [apply F; discriminate|].
  split; [eapply tables_extend_trans; eassumption|].
  rewrite D, R, M. auto.
Qed.

(** No value of the template gets into the sheet. *)
Lemma transplant_sheet_empty (q : coord) :
  value (cell_at client_ws q) = None -> value (cell_at X.1.1 q) = None.
Proof.
  intros Hq. destruct merged_spec as (_&_&_&V3&_).
  destruct (value_fold_op lib client_ws (iter_rows client_ws) (s3, Returned tt))
    as (_&_&C&_).
  rewrite <- transplant_sheet_eq in C. cbn [fst snd] in C.
  rewrite C by now right. apply V3.
Qed.

(** Every value of the client gets into the sheet when none of them meets
    a merged cell of the template or is refused. *)
Lemma transplant_sheet_values :
  (forall q v, value (cell_at client_ws q) = Some v ->
               merged_cell tab1 q = false /\ writable v = true) ->
  X.2 = Returned tt
  /\ forall q v, value (cell_at client_ws q) = Some v ->
                 value (cell_at X.1.1 q) = Some v.
Proof.
  intros Hok. destruct merged_spec as (_&_&_&_&_&_&Ma&_).
  destruct (value_fold_ok lib client_ws (iter_rows client_ws) s3) as [E V].
  { intros q v _ Hv. destruct (Hok q v Hv) as [Hm Hw]. split; [|exact Hw].
    destruct (merged_cell s3.1 q) eqn:E; [|reflexivity].
    unfold merged_cell in E, Hm.
    apply existsb_exists in E as (r & Hr & Hin).
    rewrite <- Hm. symmetry. apply existsb_exists. exists r.
    split; [|exact Hin]. apply list_elem_of_In, Ma. now apply list_elem_of_In. }
  rewrite <- transplant_sheet_eq in E, V.
  split; [exact E|]. intros q v Hv. apply V; [|exact Hv].
  eapply value_in_iter_rows, Hv.
Qed.

(** The merged cells of the new sheet are those of the template. *)
Lemma merged_cell_new (q : coord) : merged_cell s3.1 q = merged_cell tab1 q.
Proof.
  destruct merged_spec as (_&_&_&_&_&_&Ma&Mb).
  destruct (merged_cell tab1 q) eqn:Et.
  - unfold merged_cell in Et |- *.
    apply existsb_exists in Et as (r & Hr & Hin).
    apply bool_decide_eq_true in Hin.
    apply existsb_exists.
    destruct (Mb r) as [H|(r' & Hr' & Hsub)]; [now apply list_elem_of_In|..].
    + exists r. split; [now apply list_elem_of_In | now apply bool_decide_eq_true].
    + exists r'. split; [now apply list_elem_of_In|].
      apply bool_decide_eq_true. eapply tail_range_cells_issubset; eassumption.
  - destruct (merged_cell s3.1 q) eqn:E; [|reflexivity].
    unfold merged_cell in E, Et.
    apply existsb_exists in E as (r & Hr & Hin).
    rewrite <- Et. symmetry. apply existsb_exists. exists r.
    split; [|exact Hin]. apply list_elem_of_In, Ma. now apply list_elem_of_In.
Qed.

(** A value of the client on a merged cell of the template, or a string
    with a character that openpyxl refuses, makes the call raise. *)
Lemma transplant_sheet_raises (q : coord) (v : Value) :
  value (cell_at client_ws q) = Some v ->
  merged_cell tab1 q = true \/ (exists x, v = VStr x /\ check_string x = None) ->
  exists e, X.2 = Raised e.
Proof.
  intros Hv Hbad. rewrite transplant_sheet_eq.
  apply (value_fold_raises lib client_ws q v); [exact Hv| | |discriminate].
  - eapply value_in_iter_rows, Hv.
  - destruct Hbad as [H|H]; [left|now right]. now rewrite merged_cell_new.
Qed.



(** In a workbook whose template cells hold positions of the tables, no
    style object is added for the styles of the template, and the new cell
    holds the position of an entry that the table had. *)
Hypothesis tab1_valid : forall q,
  has_style (cell_at tab1 q) = true ->
  valid_style t0 (style_array (cell_at tab1 q)).



End TransplantSheet.

(** ** The call in the workbook *)

Section Refinement.

Variables (lib : Openpyxl) (wb0 : Workbook) (title : string) (tab1_ws : nat).
Hypothesis tab1_in_wb0 : tab1_ws < length wb0.

Let new_ws : nat := length wb0.
Let with_sheet (s : Worksheet * StyleTables) : State :=
  mk_state (wb0 ++ [(title, s.1)])%list s.2.

Lemma update_sheet_last (f : Worksheet -> Worksheet) (ws : Worksheet) :
  update_sheet (length wb0) f (wb0 ++ [(title, ws)])%list
  = (wb0 ++ [(title, f ws)])%list.
Proof.
  unfold update_sheet.
  rewrite alter_app_r_alt by lia. now rewrite Nat.sub_diag.
Qed.

Lemma sheet_at_old (ws : Worksheet) :
  sheet_at (wb0 ++ [(title, ws)])%list tab1_ws = sheet_at wb0 tab1_ws.
Proof. unfold sheet_at. now rewrite lookup_app_l. Qed.

Lemma sheet_at_new (ws : Worksheet) :
  sheet_at (wb0 ++ [(title, ws)])%list (length wb0) = ws.
Proof.
  unfold sheet_at. rewrite lookup_app_r by lia. now rewrite Nat.sub_diag.
Qed.

Lemma on_sheet_last (f : Worksheet * StyleTables -> Worksheet * StyleTables)
  (s : Worksheet * StyleTables) :
  on_sheet new_ws f (with_sheet s) = with_sheet (f s).
Proof.
  unfold on_sheet, with_sheet, new_ws. cbn [wb heap].
  rewrite sheet_at_new, update_sheet_last. now destruct s.
Qed.

Lemma format_pass (l : list coord) : forall s,
  fold_left (copy_cell_format lib tab1_ws new_ws) l (with_sheet s)
  = with_sheet (fold_left (format_step lib (sheet_at wb0 tab1_ws)) l s).
Proof.
  induction l as [|p l IH]; intros s; [reflexivity|].
  cbn [fold_left]. rewrite <- IH. f_equal.
  unfold copy_cell_format, format_step.
  replace (sheet_at (wb (with_sheet s)) tab1_ws) with (sheet_at wb0 tab1_ws)
    by (symmetry; apply sheet_at_old).
  destruct (has_style (cell_at (sheet_at wb0 tab1_ws) p)); [|reflexivity].
  cbv zeta.
  repeat (rewrite on_sheet_last; cbn [heap with_sheet]).
  reflexivity.
Qed.

Lemma width_pass (l : list string) : forall s,
  fold_left (copy_column_width tab1_ws new_ws) l (with_sheet s)
  = with_sheet (fold_left (width_step (sheet_at wb0 tab1_ws)) l s.1, s.2).
Proof.
  induction l as [|c l IH]; intros s; [now destruct s|].
  cbn [fold_left].
  replace (copy_column_width tab1_ws new_ws (with_sheet s) c)
    with (with_sheet (width_step (sheet_at wb0 tab1_ws) s.1 c, s.2));
    [now rewrite IH|].
  unfold copy_column_width, width_step, with_sheet, new_ws. cbn [wb heap fst snd].
  rewrite sheet_at_old.
  destruct (column_dimensions (sheet_at wb0 tab1_ws) !! c); [|reflexivity].
  now rewrite update_sheet_last.
Qed.

Lemma height_pass (l : list positive) : forall s,
  fold_left (copy_row_height tab1_ws new_ws) l (with_sheet s)
  = with_sheet (fold_left (height_step (sheet_at wb0 tab1_ws)) l s.1, s.2).
Proof.
  induction l as [|r l IH]; intros s; [now destruct s|].
  cbn [fold_left].
  replace (copy_row_height tab1_ws new_ws (with_sheet s) r)
    with (with_sheet (height_step (sheet_at wb0 tab1_ws) s.1 r, s.2));
    [now rewrite IH|].
  unfold copy_row_height, height_step, with_sheet, new_ws. cbn [wb heap fst snd].
  rewrite sheet_at_old.
  destruct (row_dimensions (sheet_at wb0 tab1_ws) !! r); [|reflexivity].
  now rewrite update_sheet_last.
Qed.

Lemma merge_pass (l : list CellRange) : forall s,
  fold_left (copy_merged_range lib tab1_ws new_ws) l (with_sheet s)
  = with_sheet (fold_left (fun acc r => merge_cells lib (sheet_at wb0 tab1_ws) r acc)
                  l s).
Proof.
  induction l as [|r l IH]; intros s; [reflexivity|].
  cbn [fold_left]. rewrite <- IH. f_equal.
  unfold copy_merged_range.
  replace (sheet_at (wb (with_sheet s)) tab1_ws) with (sheet_at wb0 tab1_ws)
    by (symmetry; apply sheet_at_old).
  apply on_sheet_last.
Qed.

Lemma value_pass (client_ws : Worksheet) (l : list coord) :
  forall (acc : (Worksheet * StyleTables) * result unit),
  fold_left (copy_cell_value lib client_ws new_ws) l (with_sheet acc.1, acc.2)
  = (with_sheet (fold_left (value_step lib client_ws) l acc).1,
     (fold_left (value_step lib client_ws) l acc).2).
Proof.
  induction l as [|p l IH]; intros acc; [reflexivity|].
  cbn [fold_left]. rewrite <- IH. f_equal.
  destruct acc as [s res]. unfold copy_cell_value, value_step. cbn [fst snd].
  destruct res; try reflexivity.
  destruct (value (cell_at client_ws p)); [|reflexivity].
  unfold with_sheet, new_ws. cbn [wb heap].
  rewrite sheet_at_new, update_sheet_last.
  replace (s.1, s.2) with s by now destruct s.
  reflexivity.
Qed.

End Refinement.

Section Appends.

Variables (lib : Openpyxl) (tab1_ws : nat) (client_ws : Worksheet).

(** The call appends the transplanted sheet, as far as it got, and leaves
    the sheets that were there; a title that is refused leaves the
    workbook as it was. *)
Lemma transplant_appends (new_tab_name : string) (st : State) :
  tab1_ws < length (wb st) ->
  copy_tab1_format_with_client_data lib tab1_ws client_ws new_tab_name st
  = match sheet_title (sheetnames (wb st)) new_tab_name with
    | None => (st, Raised SheetTitleError)
    | Some t =>
        let X := transplant_sheet lib (sheet_at (wb st) tab1_ws) client_ws
                   (heap st) in
        (mk_state (wb st ++ [(t, X.1.1)])%list X.1.2, ending (length (wb st)) X.2)
    end.
Proof.
  intros Htab. unfold copy_tab1_format_with_client_data, create_sheet.
  destruct (sheet_title (sheetnames (wb st)) new_tab_name) as [t|];
    [|reflexivity].
  cbv zeta.
  set (tab1 := sheet_at (wb st) tab1_ws).
  pose (W := fun s : Worksheet * StyleTables =>
               mk_state (wb st ++ [(t, s.1)])%list s.2).
  assert (Hold : forall s, sheet_at (wb (W s)) tab1_ws = tab1).
  { intros s. apply sheet_at_old, Htab. }
  change (mk_state (wb st ++ [(t, empty_sheet)])%list (heap st))
    with (W (empty_sheet, heap st)).
  rewrite Hold.
  pose proof (format_pass lib (wb st) t tab1_ws Htab (iter_rows tab1)
                (empty_sheet, heap st)) as E1.
  fold tab1 in E1. fold (styled_sheet lib tab1 (heap st)) in E1.
  change (fold_left (copy_cell_format lib tab1_ws (length (wb st)))
            (iter_rows tab1) (W (empty_sheet, heap st))
          = W (styled_sheet lib tab1 (heap st))) in E1.
  rewrite E1, Hold.
  set (s1 := styled_sheet lib tab1 (heap st)).
  pose proof (width_pass (wb st) t tab1_ws Htab
                (map fst (map_to_list (column_dimensions tab1))) s1) as E2.
  fold tab1 in E2.
  set (w1 := fold_left (width_step tab1)
               (map fst (map_to_list (column_dimensions tab1))) s1.1) in *.
  change (fold_left (copy_column_width tab1_ws (length (wb st)))
            (map fst (map_to_list (column_dimensions tab1))) (W s1)
          = W (w1, s1.2)) in E2.
  rewrite E2, Hold.
  pose proof (height_pass (wb st) t tab1_ws Htab
                (map fst (map_to_list (row_dimensions tab1))) (w1, s1.2)) as E3.
  fold tab1 in E3. cbn [fst snd] in E3.
  fold (sized_sheet tab1 s1.1) in E3.
  change (fold_left (copy_row_height tab1_ws (length (wb st)))
            (map fst (map_to_list (row_dimensions tab1))) (W (w1, s1.2))
          = W (sized_sheet tab1 s1.1, s1.2)) in E3.
  rewrite E3, Hold.
  pose proof (merge_pass lib (wb st) t tab1_ws Htab (merged_cells tab1)
                (sized_sheet tab1 s1.1, s1.2)) as E4.
  fold tab1 in E4. fold (merged_sheet lib tab1 (sized_sheet tab1 s1.1, s1.2)) in E4.
  set (s3 := merged_sheet lib tab1 (sized_sheet tab1 s1.1, s1.2)) in *.
  change (fold_left (copy_merged_range lib tab1_ws (length (wb st)))
            (merged_cells tab1) (W (sized_sheet tab1 s1.1, s1.2))
          = W s3) in E4.
  rewrite E4.
  pose proof (value_pass lib (wb st) t tab1_ws Htab client_ws (iter_rows client_ws)
                (s3, Returned tt)) as E5.
  cbn [fst snd] in E5.
  change (fold_left (copy_cell_value lib client_ws (length (wb st)))
            (iter_rows client_ws) (W s3, Returned tt)
          = (W (transplant_sheet lib tab1 client_ws (heap st)).1,
             (transplant_sheet lib tab1 client_ws (heap st)).2)) in E5.
  rewrite E5. reflexivity.
Qed.

End Appends.

Section TransplantSamples.




End TransplantSamples.

Section TransplantClaims.









End TransplantClaims.

(** ** The loop over the files of a client *)

Section Builder.

Variable w : World.

Lemma process_file_unreadable (tab1_template : nat) (filepath : string)
  (st : State) :
  load_client w filepath = None ->
  process_file w tab1_template filepath st
  = (st, Raised (FileReadError filepath)).
Proof. intros H. unfold process_file. now rewrite H. Qed.

(** A file that can be read: the tab name is made unique, and the tab is
    the transplanted sheet under the title openpyxl gives it, unless
    openpyxl refuses the title. *)
Lemma process_file_readable (tab1_template : nat) (filepath : string)
  (client_ws : Worksheet) (st : State) :
  load_client w filepath = Some client_ws ->
  tab1_template < length (wb st) ->
  exists label,
    unique_tab_name (desired_tab_name client_ws filepath) (sheetnames (wb st))
    = Some label
    /\ (label ∉ sheetnames (wb st))
    /\ process_file w tab1_template filepath st
       = match sheet_title (sheetnames (wb st)) label with
         | None => (st, Raised SheetTitleError)
         | Some t =>
             let X := transplant_sheet (openpyxl w)
                        (sheet_at (wb st) tab1_template) client_ws (heap st) in
             (mk_state (wb st ++ [(t, X.1.1)])%list X.1.2, X.2)
         end.
Proof.
  intros Hload Htab. unfold process_file. rewrite Hload.
  destruct (unique_tab_name_total (desired_tab_name client_ws filepath)
              (sheetnames (wb st))) as [label Hl].
  exists label. split; [exact Hl|]. split.
  { unfold unique_tab_name in Hl. now apply while_name_taken_Some in Hl as [H _]. }
  rewrite Hl, (transplant_appends _ _ _ _ _ Htab).
  destruct (sheet_title (sheetnames (wb st)) label) as [t|]; [|reflexivity].
  cbv zeta. cbn [fst snd]. f_equal.
  now destruct (transplant_sheet _ _ _ _).2 as [[]| |].
Qed.

(** What one turn of the loop does to the workbook, however it ends. *)
Lemma process_file_step (tab1_template : nat) (filepath : string) (st : State) :
  tab1_template < length (wb st) ->
  let r := process_file w tab1_template filepath st in
  r.2 <> OutOfFuel
  /\ wb st `prefix_of` wb r.1
  /\ tables_extend (heap st) (heap r.1)
  /\ length (wb r.1) <= S (length (wb st))
  /\ (load_client w filepath = None -> r.1 = st /\ r.2 <> Returned tt)
  /\ (r.2 = Returned tt -> length (wb r.1) = S (length (wb st))).
Proof.
  intros Htab. cbv zeta.
  destruct (load_client w filepath) as [client_ws|] eqn:Hload.
  - destruct (process_file_readable tab1_template filepath client_ws st Hload Htab)
      as (label & _ & _ & ->).
    destruct (sheet_title (sheetnames (wb st)) label) as [t|].
    + cbv zeta. cbn [fst snd wb heap].
      destruct (transplant_sheet_frame (openpyxl w)
                  (sheet_at (wb st) tab1_template) client_ws (heap st))
        as (F&T&_).
      split; [exact F|]. split; [now apply prefix_app_r|].
      split; [exact T|]. rewrite length_app. cbn [length].
      split; [lia|]. split; [discriminate|]. intros _. lia.
    + cbn [fst snd]. split; [discriminate|]. split; [reflexivity|].
      split; [apply tables_extend_refl|]. split; [lia|].
      split; discriminate.
  - rewrite (process_file_unreadable _ _ _ Hload). cbn [fst snd].
    split; [discriminate|]. split; [reflexivity|].
    split; [apply tables_extend_refl|]. split; [lia|].
    split; [intros _; split; [reflexivity|discriminate] | discriminate].
Qed.

(** The loop over the files returns: it counts at most one tab for every
    file that can be read and adds a sheet for every tab it counts; the
    sheets that were there stay. *)
Lemma process_files_returns (tab1_template : nat) (files : list string) :
  forall (st : State) (n : nat),
  tab1_template < length (wb st) ->
  exists st' n',
    process_files w tab1_template files st n = Returned (st', n')
    /\ n <= n' <= n + length (readable w files)
    /\ wb st `prefix_of` wb st'
    /\ tables_extend (heap st) (heap st')
    /\ n' - n <= length (wb st') - length (wb st)
       <= length (readable w files).
Proof.
  induction files as [|f files IH]; intros st n Htab.
  - exists st, n. cbn. split; [reflexivity|]. split; [lia|].
    split; [reflexivity|]. split; [apply tables_extend_refl | lia].
  - cbn [process_files]. unfold readable. rewrite filter_cons.
    fold (readable w files).
    destruct (process_file_step tab1_template f st Htab) as (F&P&T&L&U&C).
    destruct (process_file w tab1_template f st) as [st1 [[]| |]] eqn:E;
      cbn [fst snd] in *; [| |congruence].
    + assert (Hs : is_Some (load_client w f)).
      { destruct (load_client w f); [eauto|]. now destruct U. }
      rewrite decide_True by exact Hs.
      specialize (C eq_refl).
      destruct (IH st1 (S n)) as (st' & n' & -> & Hn & P' & T' & L'); [lia|].
      apply prefix_length in P as Pl.
      exists st', n'. split; [reflexivity|]. cbn [length].
      apply prefix_length in P' as Pl'.
      split; [lia|]. split; [etrans; eassumption|].
      split; [eapply tables_extend_trans; eassumption | lia].
    + apply prefix_length in P as Pl.
      assert (Hone : is_Some (load_client w f) \/ length (wb st1) = length (wb st)).
      { destruct (load_client w f); [left; eauto|].
        right. destruct U as [-> _]; reflexivity. }
      destruct (IH st1 n) as (st' & n' & -> & Hn & P' & T' & L'); [lia|].
      exists st', n'. split; [reflexivity|].
      apply prefix_length in P' as Pl'.
      split.
      { destruct (decide (is_Some (load_client w f))); cbn [length]; lia. }
      split; [etrans; eassumption|].
      split; [eapply tables_extend_trans; eassumption|].
      destruct (decide (is_Some (load_client w f))) as [Hs|Hs]; cbn [length];
        [lia|].
      destruct Hone as [Hone|Hone]; [contradiction | lia].
Qed.

Lemma process_files_skip (tab1_template : nat) (bad : string)
  (after : list string) :
  load_client w bad = None ->
  forall (before : list string) (st : State) (n : nat),
    process_files w tab1_template (before ++ bad :: after)%list st n
    = process_files w tab1_template (before ++ after)%list st n.
Proof.
  intros Hbad. induction before as [|f before IH]; intros st n.
  - cbn [app process_files]. now rewrite (process_file_unreadable _ _ _ Hbad).
  - cbn [app process_files].
    destruct (process_file w tab1_template f st) as [st1 [u| |]]; auto.
Qed.




Lemma elem_of_sheetnames_remove_sheet (name x : string) (workbook : Workbook) :
  x <> name ->
  x ∈ sheetnames (remove_sheet name workbook) <-> x ∈ sheetnames workbook.
Proof.
  intros Hne. unfold sheetnames.
  induction workbook as [|[n ws] rest IH]; cbn [remove_sheet]; [reflexivity|].
  destruct (String.eqb_spec n name) as [->|Hn].
  - rewrite fmap_cons, elem_of_cons. cbn [fst]. tauto.
  - rewrite !fmap_cons, !elem_of_cons, IH. reflexivity.
Qed.

Lemma tab1_in_prepared (summary : State) :
  "tab1" ∈ sheetnames (wb (prepared summary))
  <-> "tab1" ∈ sheetnames (wb summary).
Proof.
  unfold prepared. cbn [wb].
  destruct (has_sheet "Calculations" (remove_external_links (wb summary))).
  - rewrite elem_of_sheetnames_remove_sheet by discriminate.
    now rewrite sheetnames_remove_external_links.
  - now rewrite sheetnames_remove_external_links.
Qed.

(** A sheet of the workbook has a position in it. *)
Lemma index_of_sheet (name : string) (workbook : Workbook) :
  name ∈ sheetnames workbook ->
  exists i, index_of name workbook = Some i
            /\ i < length workbook
            /\ sheetnames workbook !! i = Some name.
Proof.
  unfold sheetnames.
  induction workbook as [|[n ws] rest IH]; intros Hin;
    [now apply elem_of_nil in Hin|].
  cbn [index_of]. destruct (String.eqb_spec n name) as [->|Hn].
  - exists 0. cbn. repeat split; lia.
  - rewrite fmap_cons in Hin. apply elem_of_cons in Hin as [Hin|Hin];
      [cbn in Hin; congruence|].
    destruct (IH Hin) as (i & -> & Hi & Hl).
    exists (S i). cbn. repeat split; [lia | exact Hl].
Qed.

(** A summary that is saved: the run that made it. *)
Lemma create_summary_for_client_saved (client_name : string)
  (client_files_list : list string) (s : Summary) (st : State) :
  create_summary_for_client w client_name client_files_list = Returned s ->
  saved s = Some st ->
  success s = true
  /\ save_ok w (client_name ++ "_summary.xlsx") = true
  /\ exists summary i,
       template_file w = Some summary
       /\ index_of "tab1" (wb (prepared summary)) = Some i
       /\ i < length (wb (prepared summary))
       /\ process_files w i
            (sort_by_key extract_date_from_filename client_files_list)
            (prepared summary) 0 = Returned (st, tabs_created s).
Proof.
  unfold create_summary_for_client.
  destruct (template_file w) as [summary|]; [|discriminate].
  change (if has_sheet "Calculations" (remove_external_links (wb summary))
          then remove_sheet "Calculations" (remove_external_links (wb summary))
          else remove_external_links (wb summary))
    with (wb (prepared summary)).
  change (mk_state (wb (prepared summary)) (heap summary))
    with (prepared summary).
  destruct (has_sheet "tab1" (wb (prepared summary))) eqn:Htab; cbn [negb].
  2:{ intros [= <-]. cbn [saved]. intros [=]. }
  unfold has_sheet in Htab.
  apply bool_decide_eq_true, index_of_sheet in Htab as (i & Hi & Hlt & _).
  rewrite Hi. change (default 0 (Some i)) with i.
  destruct (process_files w i
              (sort_by_key extract_date_from_filename client_files_list)
              (prepared summary) 0) as [[st' n]| |] eqn:Hrun;
    try (intros [=]; fail).
  destruct (save_ok w (client_name ++ "_summary.xlsx")); [|intros [=]].
  intros [= <-]. cbn [saved success tabs_created]. intros [= ->].
  split; [reflexivity|]. split; [reflexivity|]. exists summary, i. auto.
Qed.

(** What [create_summary_for_client] does, case by case. *)
Lemma create_summary_for_client_cases (client_name : string)
  (client_files_list : list string) :
  match template_file w with
  | None =>
      create_summary_for_client w client_name client_files_list
      = Raised TemplateError
  | Some summary =>
      if bool_decide ("tab1" ∈ sheetnames (wb summary)) then
        exists st n,
          process_files w (default O (index_of "tab1" (wb (prepared summary))))
            (sort_by_key extract_date_from_filename client_files_list)
            (prepared summary) 0 = Returned (st, n)
          /\ n <= length (readable w
                    (sort_by_key extract_date_from_filename client_files_list))
          /\ create_summary_for_client w client_name client_files_list
             = if save_ok w (client_name ++ "_summary.xlsx")
               then Returned (mk_summary true n (Some st))
               else Raised (SaveError (client_name ++ "_summary.xlsx"))
      else
        create_summary_for_client w client_name client_files_list
        = Returned (mk_summary false 0 None)
  end.
Proof.
  unfold create_summary_for_client.
  destruct (template_file w) as [summary|]; [|reflexivity].
  change (if has_sheet "Calculations" (remove_external_links (wb summary))
          then remove_sheet "Calculations" (remove_external_links (wb summary))
          else remove_external_links (wb summary))
    with (wb (prepared summary)).
  change (mk_state (wb (prepared summary)) (heap summary))
    with (prepared summary).
  assert (Htab : has_sheet "tab1" (wb (prepared summary))
                 = bool_decide ("tab1" ∈ sheetnames (wb summary)))
    by (unfold has_sheet; apply bool_decide_ext, tab1_in_prepared).
  rewrite Htab.
  destruct (bool_decide ("tab1" ∈ sheetnames (wb summary))) eqn:Hb;
    [|reflexivity].
  cbn [negb].
  apply bool_decide_eq_true, tab1_in_prepared, index_of_sheet in Hb
    as (i & Hi & Hlt & _).
  destruct (process_files_returns
              (default O (index_of "tab1" (wb (prepared summary))))
              (sort_by_key extract_date_from_filename client_files_list)
              (prepared summary) 0) as (st & n & Hrun & Hn & _).
  { rewrite Hi. exact Hlt. }
  exists st, n. rewrite Hrun. split; [reflexivity|]. split; [lia|reflexivity].
Qed.

End Builder.

Section BuilderClaims.

(** C8.  The loop over the files of a client returns whatever the files
    are, and the sheets that were in the workbook stay; it counts at most
    one tab and adds at most one sheet for every file that can be read, and
    every tab it counts is a sheet it added.  A file that cannot be read is skipped: the run is the
    run without that file.  For a file that can be read, in whatever state
    the loop has reached: the date is resolved (the date of the sheet when
    there is one, else the date of the file name when there is one, else
    the file name without extension), the name is made unique among the
    names of the sheets, and the tab is made: unless openpyxl refuses the
    title the workbook gets a new sheet with that title, which has no
    value where the sheet of the file has none and has the column widths
    and row heights of the template, and the loop goes on with the
    remaining files.  When no value of the file lies on a merged cell of
    the template or is refused by openpyxl, the tab has every value of the
    file and is counted; when a value lies on a merged cell, or a string
    has a character that openpyxl refuses, the tab is not counted. *)
Theorem process_files_isolates_failures (w : World) (tab1_template : nat)
  (files : list string) (st : State) (n : nat) :
  tab1_template < length (wb st) ->
  (exists st' n',
      process_files w tab1_template files st n = Returned (st', n')
      /\ n <= n' <= n + length (readable w files)
      /\ wb st `prefix_of` wb st'
      /\ n' - n <= length (wb st') - length (wb st)
         <= length (readable w files))
  /\ (forall before bad after,
        files = (before ++ bad :: after)%list ->
        load_client w bad = None ->
        process_files w tab1_template files st n
        = process_files w tab1_template (before ++ after)%list st n)
  /\ (forall f rest client_ws st1 n1,
        load_client w f = Some client_ws ->
        tab1_template < length (wb st1) ->
        exists desired label,
          ((exists d, extract_date_from_sheet client_ws = Some d
                      /\ d <> EmptyString /\ desired = d)
           \/ ((extract_date_from_sheet client_ws = None
                \/ extract_date_from_sheet client_ws = Some EmptyString)
               /\ ((extract_date_from_filename f <> EmptyString
                    /\ desired = extract_date_from_filename f)
                   \/ (extract_date_from_filename f = EmptyString
                       /\ desired = splitext_root (basename f)))))
          /\ unique_tab_name desired (sheetnames (wb st1)) = Some label
          /\ (label ∉ sheetnames (wb st1))
          /\ match sheet_title (sheetnames (wb st1)) label with
             | None =>
                 process_files w tab1_template (f :: rest) st1 n1
                 = process_files w tab1_template rest st1 n1
             | Some t =>
                 exists new_sheet tables,
                   (process_files w tab1_template (f :: rest) st1 n1
                    = process_files w tab1_template rest
                        (mk_state (wb st1 ++ [(t, new_sheet)])%list tables) n1
                    \/ process_files w tab1_template (f :: rest) st1 n1
                       = process_files w tab1_template rest
                           (mk_state (wb st1 ++ [(t, new_sheet)])%list tables)
                           (S n1))
                   /\ (forall p, value (cell_at client_ws p) = None ->
                                 value (cell_at new_sheet p) = None)
                   /\ column_dimensions new_sheet
                      = column_dimensions (sheet_at (wb st1) tab1_template)
                   /\ row_dimensions new_sheet
                      = row_dimensions (sheet_at (wb st1) tab1_template)
                   /\ ((forall p v,
                          value (cell_at client_ws p) = Some v ->
                          merged_cell (sheet_at (wb st1) tab1_template) p = false
                          /\ writable v = true) ->
                       process_files w tab1_template (f :: rest) st1 n1
                       = process_files w tab1_template rest
                           (mk_state (wb st1 ++ [(t, new_sheet)])%list tables)
                           (S n1)
                       /\ forall p v,
                            value (cell_at client_ws p) = Some v ->
                            value (cell_at new_sheet p) = Some v)
                   /\ (forall p v,
                         value (cell_at client_ws p) = Some v ->
                         merged_cell (sheet_at (wb st1) tab1_template) p = true
                         \/ (exists x, v = VStr x /\ check_string x = None) ->
                         process_files w tab1_template (f :: rest) st1 n1
                         = process_files w tab1_template rest
                             (mk_state (wb st1 ++ [(t, new_sheet)])%list tables)
                             n1)
             end).
Proof.
  intros Htab. split; [|split].
  - destruct (process_files_returns w tab1_template files st n Htab)
      as (st' & n' & H & Hn & P & _ & L).
    exists st', n'. do 3 (split; [assumption|]). exact L.
  - intros before bad after -> Hbad. now apply process_files_skip.
  - intros f rest client_ws st1 n1 Hf Htab1.
    destruct (process_file_readable w tab1_template f client_ws st1 Hf Htab1)
      as (label & Hl & Hfree & Hrun).
    exists (desired_tab_name client_ws f), label.
    split.
    { unfold desired_tab_name.
      destruct (extract_date_from_sheet client_ws) as [[|c d]|].
      - right. split; [now right|]. cbn [PyStr.truthy].
        destruct (extract_date_from_filename f);
          [right; split; reflexivity | left; split; [discriminate|reflexivity]].
      - left. exists (String c d). split; [reflexivity|].
        split; [discriminate | reflexivity].
      - right. split; [now left|].
        destruct (extract_date_from_filename f);
          [right; split; reflexivity | left; split; [discriminate|reflexivity]]. }
    split; [exact Hl|]. split; [exact Hfree|].
    cbn [process_files]. rewrite Hrun.
    destruct (sheet_title (sheetnames (wb st1)) label) as [t|]; [|reflexivity].
    cbv zeta.
    set (tab1 := sheet_at (wb st1) tab1_template).
    set (X := transplant_sheet (openpyxl w) tab1 client_ws (heap st1)).
    destruct (transplant_sheet_frame (openpyxl w) tab1 client_ws (heap st1))
      as (F&_&D&R&_). fold X in F, D, R.
    exists X.1.1, X.1.2. split.
    { destruct X.2 as [u| |]; [now right | now left | congruence]. }
    split; [intros p; apply transplant_sheet_empty|].
    split; [exact D|]. split; [exact R|]. split.
    + intros Hok.
      destruct (transplant_sheet_values (openpyxl w) tab1 client_ws (heap st1) Hok)
        as [E V]. fold X in E, V.
      rewrite E. auto.
    + intros p v Hv Hbad.
      destruct (transplant_sheet_raises (openpyxl w) tab1 client_ws (heap st1)
                  p v Hv Hbad) as [e E]. fold X in E.
      now rewrite E.
Qed.

Lemma process_files_isolates_failures_witness :
  0 < length (wb sample_state)
  /\ load_client world_acme "client_portfolio/broken.xlsx" = None
  /\ exists st' n',
       process_files world_acme 0
         ["client_portfolio/Acme_20240101.xlsx"; "client_portfolio/broken.xlsx";
          "client_portfolio/Acme_20240201.xlsx"] sample_state 0
       = Returned (st', n')
       /\ process_files world_acme 0
            ["client_portfolio/Acme_20240101.xlsx";
             "client_portfolio/Acme_20240201.xlsx"] sample_state 0
          = Returned (st', n')
       /\ 0 <= n' <= 0 + 2.
Proof.
  assert (Htab : 0 < length (wb sample_state)) by (cbn; lia).
  split; [exact Htab|]. split; [reflexivity|].
  destruct (process_files_isolates_failures world_acme 0
              ["client_portfolio/Acme_20240101.xlsx";
               "client_portfolio/broken.xlsx";
               "client_portfolio/Acme_20240201.xlsx"] sample_state 0 Htab)
    as ((st' & n' & Hrun & Hn & _) & Hskip & _).
  exists st', n'. split; [exact Hrun|]. split; [|exact Hn].
  rewrite <- Hrun. symmetry.
  apply (Hskip ["client_portfolio/Acme_20240101.xlsx"]
           "client_portfolio/broken.xlsx"
           ["client_portfolio/Acme_20240201.xlsx"]); reflexivity.
Defined.



(** C3, as amended.  A file that cannot be read never makes the client
    fail, and a template without the tab [tab1] gives a failed client, not
    an exception.  The other errors are not caught: when the template
    cannot be copied or loaded, or the summary cannot be saved,
    [create_summary_for_client] raises, the loop over the clients raises
    with it, and the clients that come after are not processed.  When the
    template loads and every summary can be saved, the whole run
    returns.  A client whose summary is saved is a success whatever
    happened to its files; the number of tabs reported is at most the
    number of its files that can be read. *)
Theorem client_errors (w : World) (client_name : string)
  (client_files_list : list string) (rest : list (string * list string))
  (successful failed : list string) :
  match template_file w with
  | None =>
      create_summary_for_client w client_name client_files_list
      = Raised TemplateError
  | Some summary =>
      if bool_decide ("tab1" ∈ sheetnames (wb summary)) then
        if save_ok w (client_name ++ "_summary.xlsx") then
          exists st n,
            n <= length (readable w
                   (sort_by_key extract_date_from_filename client_files_list))
            /\ create_summary_for_client w client_name client_files_list
               = Returned (mk_summary true n (Some st))
        else
          create_summary_for_client w client_name client_files_list
          = Raised (SaveError (client_name ++ "_summary.xlsx"))
      else
        create_summary_for_client w client_name client_files_list
        = Returned (mk_summary false 0 None)
  end
  /\ (forall e,
        create_summary_for_client w client_name client_files_list = Raised e ->
        summarize_clients w ((client_name, client_files_list) :: rest)
          successful failed = Raised e)
  /\ (forall s,
        create_summary_for_client w client_name client_files_list = Returned s ->
        summarize_clients w ((client_name, client_files_list) :: rest)
          successful failed
        = if success s
          then summarize_clients w rest (successful ++ [client_name])%list failed
          else summarize_clients w rest successful (failed ++ [client_name])%list)
  /\ (template_file w <> None ->
      (forall path, save_ok w path = true) ->
      exists report, create_summary_files w = Returned report).
Proof.
  split; [|split; [|split]].
  - pose proof (create_summary_for_client_cases w client_name client_files_list)
      as H.
    destruct (template_file w) as [summary|]; [|exact H].
    destruct (bool_decide ("tab1" ∈ sheetnames (wb summary))); [|exact H].
    destruct H as (st & n & _ & Hn & ->).
    destruct (save_ok w (client_name ++ "_summary.xlsx")); eauto.
  - intros e He. cbn [summarize_clients]. now rewrite He.
  - intros s Hs. cbn [summarize_clients]. now rewrite Hs.
  - intros Htemplate Hsave.
    assert (Hloop : forall data succ fl,
               exists r, summarize_clients w data succ fl = Returned r).
    { induction data as [|[c fs] data IH]; intros succ fl;
        cbn [summarize_clients]; [eauto|].
      pose proof (create_summary_for_client_cases w c fs) as H.
      destruct (template_file w) as [summary|]; [|congruence].
      destruct (bool_decide ("tab1" ∈ sheetnames (wb summary))).
      - destruct H as (st & n & _ & _ & ->). rewrite Hsave. cbn [success].
        apply IH.
      - rewrite H. cbn [success]. apply IH. }
    unfold create_summary_files.
    destruct (negb (template_exists w)); [eauto|].
    destruct (client_files w) as [|f fs]; [eauto|].
    match goal with
    | |- context [match ?d with [] => Returned None | _ :: _ => _ end] =>
        destruct d as [|e data] eqn:Ed; [eauto|]
    end.
    destruct (Hloop (e :: data) [] []) as [r ->]. eauto.
Qed.

(** C3, the counterexample: the summary of the first of two clients cannot
    be saved; the exception leaves [create_summary_files], and the second
    client, whose summary would have been created, is never reached. *)
Lemma save_failure_aborts_batch :
  create_summary_for_client world_save_fails "Acme"
    ["client_portfolio/Acme_20240101.xlsx"]
  = Raised (SaveError "Acme_summary.xlsx")
  /\ match create_summary_for_client world_save_fails "Beta"
             ["client_portfolio/Beta_20240101.xlsx"] with
     | Returned s => (success s, tabs_created s)
     | _ => (false, 0)
     end = (true, 1)
  /\ group_by_client (client_files world_save_fails)
     = [("Acme", ["client_portfolio/Acme_20240101.xlsx"]);
        ("Beta", ["client_portfolio/Beta_20240101.xlsx"])]
  /\ create_summary_files world_save_fails
     = Raised (SaveError "Acme_summary.xlsx").
Proof. vm_compute. auto. Qed.

(** The scenario of the specification, run: the summary of Acme is saved
    with the tabs [tab1], [20240101], [20240201], in that order, without
    [Calculations]; each new tab has the value of its file at A2, no value
    at A1 but the file's date, and the column widths of [tab1]. *)
Example acme_summary :
  match create_summary_for_client world_acme "Acme" (client_files world_acme) with
  | Returned (mk_summary true 2 (Some st)) =>
      sheetnames (wb st) = ["tab1"; "20240101"; "20240201"]
      /\ value (cell_at (sheet_at (wb st) 1) (2, 1)%positive) = Some (VNum 100)
      /\ value (cell_at (sheet_at (wb st) 2) (2, 1)%positive) = Some (VNum 200)
      /\ value (cell_at (sheet_at (wb st) 1) (1, 1)%positive)
         = Some (VDate (PyDate.mk_datetime 2024 1 1 0 0 0))
      /\ column_dimensions (sheet_at (wb st) 2) !! "B" = Some 15%Z
  | _ => False
  end.
Proof. vm_compute. auto 10. Qed.

(** A file whose tab cannot be finished is not counted, and the client is
    a success all the same: the only file of the client has a value on a
    merged cell of the template; the summary is saved with the tab as far
    as it was made, and no tab is reported. *)
Example unfinished_tab_not_counted :
  match create_summary_for_client
          (mk_world true (Some sample_state) []
             ["client_portfolio/Acme_20240101.xlsx"]
             (fun _ => Some sample_client_merged) (fun _ => true)
             sample_openpyxl)
          "Acme" ["client_portfolio/Acme_20240101.xlsx"] with
  | Returned (mk_summary true 0 (Some st)) =>
      sheetnames (wb st) = ["tab1"; "20240101"]
  | _ => False
  end.
Proof. vm_compute. reflexivity. Qed.

End BuilderClaims.

(** ** File names *)

Section SplitJoin.

Variable sep : ascii.

Lemma split_not_nil (s : string) : PyStr.split sep s <> [].
Proof.
  destruct s as [|a t]; cbn [PyStr.split]; [discriminate|].
  destruct (Ascii.eqb a sep); [discriminate|].
  destruct (PyStr.split sep t); discriminate.
Qed.

Lemma join_cons (p : string) (rest : list string) :
  rest <> [] ->
  PyStr.join (String sep EmptyString) (p :: rest)
  = p ++ String sep (PyStr.join (String sep EmptyString) rest).
Proof. destruct rest as [|q rest]; [congruence|]. reflexivity. Qed.

(** Joining what [split] gives is the string itself. *)
Lemma join_split (s : string) :
  PyStr.join (String sep EmptyString) (PyStr.split sep s) = s.
Proof.
  induction s as [|a t IH]; [reflexivity|].
  cbn [PyStr.split]. pose proof (split_not_nil t) as Hne.
  destruct (Ascii.eqb_spec a sep) as [->|Hsep].
  - rewrite join_cons by assumption. now rewrite append_nil_l, IH.
  - destruct (PyStr.split sep t) as [|h tl]; [congruence|].
    destruct tl as [|q tl].
    + cbn [PyStr.join] in *. now rewrite IH.
    + rewrite join_cons in * by discriminate.
      rewrite append_cons. now rewrite IH.
Qed.

(** No part contains the separator. *)
Lemma split_parts (s : string) :
  Forall (fun p => PyStr.contains sep p = false) (PyStr.split sep s).
Proof.
  induction s as [|a t IH]; cbn [PyStr.split].
  - now constructor.
  - destruct (Ascii.eqb_spec a sep) as [->|Hsep].
    + now constructor.
    + destruct (PyStr.split sep t) as [|h tl]; [repeat constructor|].
      * cbn. now rewrite (proj2 (Ascii.eqb_neq a sep)).
      * apply Forall_cons in IH as [Hh Htl]. constructor; [|assumption].
        cbn. now rewrite (proj2 (Ascii.eqb_neq a sep)).
Qed.

Lemma split_no_sep (s : string) :
  PyStr.contains sep s = false -> PyStr.split sep s = [s].
Proof.
  induction s as [|a t IH]; [reflexivity|].
  cbn [PyStr.contains PyStr.split].
  destruct (Ascii.eqb a sep); [discriminate|].
  intros H. now rewrite IH.
Qed.

Lemma split_append_sep (a b : string) :
  PyStr.split sep (a ++ String sep b)
  = (PyStr.split sep a ++ PyStr.split sep b)%list.
Proof.
  induction a as [|x a IH].
  - rewrite append_nil_l. cbn [PyStr.split]. now rewrite Ascii.eqb_refl.
  - rewrite append_cons. cbn [PyStr.split]. rewrite IH.
    destruct (Ascii.eqb x sep); [reflexivity|].
    pose proof (split_not_nil a) as Hne.
    destruct (PyStr.split sep a); [congruence | reflexivity].
Qed.

Lemma split_length_contains (s : string) :
  (2 <=? length (PyStr.split sep s))%nat = PyStr.contains sep s.
Proof.
  induction s as [|a t IH]; [reflexivity|].
  cbn [PyStr.split PyStr.contains].
  pose proof (split_not_nil t) as Hne.
  destruct (Ascii.eqb a sep).
  - destruct (PyStr.split sep t); [congruence | reflexivity].
  - rewrite <- IH. destruct (PyStr.split sep t) as [|h tl]; reflexivity.
Qed.

(** A list of at least two parts is its front, the separator and its last
    part. *)
Lemma join_removelast (parts : list string) :
  2 <= length parts ->
  PyStr.join (String sep EmptyString) parts
  = PyStr.join (String sep EmptyString) (removelast parts)
    ++ String sep (PyStr.last_part parts).
Proof.
  unfold PyStr.last_part.
  induction parts as [|p [|q rest] IH]; cbn [length]; try lia.
  intros _. destruct rest as [|r rest].
  - reflexivity.
  - change (removelast (p :: q :: r :: rest))
      with (p :: removelast (q :: r :: rest)).
    change (List.last (p :: q :: r :: rest) EmptyString)
      with (List.last (q :: r :: rest) EmptyString).
    rewrite join_cons by discriminate.
    rewrite IH by (cbn; lia).
    rewrite join_cons.
    + now rewrite append_assoc, append_cons.
    + destruct rest; discriminate.
Qed.

Lemma last_part_no_sep (s : string) :
  PyStr.contains sep (PyStr.last_part (PyStr.split sep s)) = false.
Proof.
  pose proof (split_parts s) as H. pose proof (split_not_nil s) as Hne.
  unfold PyStr.last_part.
  rewrite Forall_forall in H. apply H.
  apply exists_last in Hne as (front & x & ->).
  rewrite last_last. apply elem_of_app. right. apply elem_of_cons. now left.
Qed.

End SplitJoin.

Section FileNames.

Lemma contains_append (c : ascii) (a b : string) :
  PyStr.contains c (a ++ b) = PyStr.contains c a || PyStr.contains c b.
Proof.
  induction a as [|x a IH]; [reflexivity|].
  rewrite append_cons. cbn [PyStr.contains]. rewrite IH.
  now destruct (Ascii.eqb x c).
Qed.

Lemma split_has_part (sep c : ascii) (s : string) :
  c <> sep -> PyStr.contains c s = true ->
  existsb PyStr.truthy (PyStr.split sep s) = true.
Proof.
  intros Hc. induction s as [|a t IH]; [discriminate|].
  cbn [PyStr.contains PyStr.split].
  destruct (Ascii.eqb_spec a sep) as [->|Hsep].
  - destruct (Ascii.eqb_spec sep c) as [E|_]; [congruence|].
    intros H. cbn [existsb PyStr.truthy]. now apply IH.
  - intros _. destruct (PyStr.split sep t); reflexivity.
Qed.

(** The name without extension is the client name, an underscore and the
    date token, whenever it contains an underscore, and the token contains
    none; without an underscore the whole name is the client name and the
    token is empty. *)
Theorem filename_decomposition (filename : string) :
  if PyStr.contains "_" (splitext_root (basename filename))
  then splitext_root (basename filename)
       = extract_client_name filename ++ "_"
         ++ extract_date_from_filename filename
       /\ PyStr.contains "_" (extract_date_from_filename filename) = false
  else extract_client_name filename = splitext_root (basename filename)
       /\ extract_date_from_filename filename = EmptyString.
Proof.
  unfold extract_client_name, extract_date_from_filename.
  rewrite split_length_contains.
  destruct (PyStr.contains "_" (splitext_root (basename filename))) eqn:E;
    [|auto].
  split; [|apply last_part_no_sep].
  rewrite <- (join_split "_" (splitext_root (basename filename))) at 1.
  rewrite join_removelast; [reflexivity|].
  rewrite <- split_length_contains in E. now apply Nat.leb_le in E.
Qed.

(** The convention [<dir>/<client>_<date>.<ext>] is read back: the client
    name may contain underscores and dots, the date token dots. *)
Theorem filename_convention (dir client date ext : string) :
  PyStr.contains "/" client = false ->
  PyStr.contains "/" date = false ->
  PyStr.contains "/" ext = false ->
  PyStr.contains "." ext = false ->
  PyStr.contains "_" date = false ->
  extract_client_name (dir ++ "/" ++ client ++ "_" ++ date ++ "." ++ ext) = client
  /\ extract_date_from_filename (dir ++ "/" ++ client ++ "_" ++ date ++ "." ++ ext)
     = date.
Proof.
  intros Hc Hd He Hdot Hus.
  set (stem := client ++ String "_" date).
  assert (Hbase : basename (dir ++ "/" ++ client ++ "_" ++ date ++ "." ++ ext)
                  = stem ++ String "." ext).
  { unfold basename, PyStr.last_part, stem.
    rewrite !append_cons, !append_nil_l, split_append_sep.
    rewrite (split_no_sep "/" (client ++ String "_" (date ++ String "." ext))).
    - rewrite last_last. now rewrite append_assoc, append_cons.
    - rewrite contains_append, Hc. cbn [PyStr.contains orb].
      change (Ascii.eqb "_" "/") with false. cbn match.
      rewrite contains_append, Hd. cbn [PyStr.contains orb].
      change (Ascii.eqb "." "/") with false. cbn match. exact He. }
  assert (Hroot : splitext_root (stem ++ String "." ext) = stem).
  { unfold splitext_root.
    rewrite split_append_sep, (split_no_sep "." ext Hdot), removelast_last.
    rewrite (split_has_part "." "_" stem); [apply join_split|discriminate|].
    unfold stem. apply contains_append_sep. }
  assert (Hparts : PyStr.split "_" stem = (PyStr.split "_" client ++ [date])%list).
  { unfold stem. now rewrite split_append_sep, (split_no_sep "_" date Hus). }
  unfold extract_client_name, extract_date_from_filename.
  assert (Hcontains : PyStr.contains "_" stem = true)
    by (unfold stem; apply contains_append_sep).
  rewrite Hbase, Hroot, split_length_contains, Hcontains, Hparts.
  rewrite removelast_last. unfold PyStr.last_part. rewrite last_last.
  split; [apply join_split | reflexivity].
Qed.

Lemma filename_convention_witness :
  PyStr.contains "/" "Big_Co" = false
  /\ PyStr.contains "/" "2024.Q1" = false
  /\ PyStr.contains "/" "xlsx" = false
  /\ PyStr.contains "." "xlsx" = false
  /\ PyStr.contains "_" "2024.Q1" = false
  /\ extract_client_name ("client_portfolio" ++ "/" ++ "Big_Co" ++ "_" ++ "2024.Q1" ++ "." ++ "xlsx")
     = "Big_Co"
  /\ extract_date_from_filename ("client_portfolio" ++ "/" ++ "Big_Co" ++ "_" ++ "2024.Q1" ++ "." ++ "xlsx")
     = "2024.Q1".
Proof.
  do 5 (split; [reflexivity|]).
  exact (filename_convention "client_portfolio" "Big_Co" "2024.Q1" "xlsx"
           eq_refl eq_refl eq_refl eq_refl eq_refl).
Defined.

End FileNames.

(** ** [get_client_files] *)

Section ClientFiles.

Lemma endswith_spec (suffix s : string) :
  endswith suffix s = true <-> exists front, s = front ++ suffix.
Proof.
  induction s as [|a t IH]; cbn [endswith].
  - rewrite orb_false_r, String.eqb_eq. split.
    + intros <-. now exists EmptyString.
    + intros ([|x front] & E); [now rewrite append_nil_l in E|].
      rewrite append_cons in E. discriminate.
  - rewrite orb_true_iff, IH, String.eqb_eq. split.
    + intros [<-|[front ->]]; [now exists EmptyString|].
      exists (String a front). now rewrite append_cons.
    + intros ([|x front] & E).
      * left. now rewrite append_nil_l in E.
      * right. rewrite append_cons in E. inversion E; subst. eauto.
Qed.

Lemma excel_suffixes_disjoint (s1 s2 n : string) :
  s1 ∈ excel_suffixes -> s2 ∈ excel_suffixes ->
  endswith s1 n = true -> endswith s2 n = true -> s1 = s2.
Proof.
  intros H1 H2 [f1 ->]%endswith_spec [f2 E]%endswith_spec.
  unfold excel_suffixes in *.
  repeat (apply elem_of_cons in H1 as [->|H1]);
    try (now apply elem_of_nil in H1);
    repeat (apply elem_of_cons in H2 as [->|H2]);
    try (now apply elem_of_nil in H2);
    try reflexivity;
    match type of E with
    | _ ++ String _ ?d1 = _ ++ String _ ?d2 =>
        apply (after_last_sep_unique "." d1 d2 eq_refl eq_refl) in E
    end;
    discriminate E.
Qed.

Lemma basename_join (dir n : string) :
  PyStr.contains "/" n = false -> basename (dir ++ "/" ++ n) = n.
Proof.
  intros H. unfold basename, PyStr.last_part.
  rewrite append_cons, append_nil_l, split_append_sep, (split_no_sep "/" n H).
  apply last_last.
Qed.

Lemma elem_of_glob_star (dir suffix f : string) (names : list string) :
  f ∈ glob_star dir suffix names
  <-> exists n, n ∈ names /\ f = dir ++ "/" ++ n /\ endswith suffix n = true
                /\ PyStr.startswith "." n = false.
Proof.
  unfold glob_star. rewrite list_elem_of_In, in_map_iff. split.
  - intros (n & <- & Hn). apply filter_In in Hn as [Hn Ht].
    apply andb_prop in Ht as [He Hh]. apply negb_true_iff in Hh.
    exists n. now rewrite list_elem_of_In.
  - intros (n & Hn & -> & He & Hh). exists n. split; [reflexivity|].
    apply filter_In. rewrite <- list_elem_of_In, He, Hh. auto.
Qed.

Lemma join_inj (dir a b : string) :
  dir ++ "/" ++ a = dir ++ "/" ++ b -> a = b.
Proof.
  induction dir as [|x dir IH]; rewrite ?append_cons, ?append_nil_l;
    intros E; inversion E; auto.
Qed.

Lemma NoDup_list_filter {A} (f : A -> bool) (l : list A) :
  NoDup l -> NoDup (List.filter f l).
Proof.
  induction l as [|x l IH]; intros H; cbn [List.filter]; [constructor|].
  apply NoDup_cons in H as [Hx Hl].
  destruct (f x); [|auto].
  apply NoDup_cons. split; [|auto].
  rewrite list_elem_of_In, filter_In, <- list_elem_of_In. tauto.
Qed.

Lemma get_client_files_unfold (names : list string) :
  get_client_files (Some names)
  = flat_map (fun suffix =>
                List.filter (fun f => negb (PyStr.startswith "~$" (basename f)))
                            (glob_star "client_portfolio" suffix names))
             excel_suffixes.
Proof.
  unfold get_client_files, excel_suffixes. cbn [fold_left flat_map].
  now rewrite app_nil_l, app_nil_r, app_assoc.
Qed.

(** What is found: the entries of the directory that end with one of the
    three suffixes and start neither with a dot nor with the marker of a
    temporary file, each joined to the directory. *)
Theorem get_client_files_spec (names : list string) (f : string) :
  Forall (fun n => PyStr.contains "/" n = false) names ->
  f ∈ get_client_files (Some names)
  <-> exists n,
        n ∈ names /\ f = "client_portfolio" ++ "/" ++ n
        /\ (endswith ".xlsx" n = true \/ endswith ".xls" n = true
            \/ endswith ".xlsm" n = true)
        /\ PyStr.startswith "." n = false
        /\ PyStr.startswith "~$" n = false.
Proof.
  intros Hnames. rewrite Forall_forall in Hnames.
  rewrite get_client_files_unfold, list_elem_of_In, in_flat_map. split.
  - intros (suffix & Hs & Hf). apply filter_In in Hf as [Hf Ht].
    apply list_elem_of_In, elem_of_glob_star in Hf as (n & Hn & -> & He & Hh).
    rewrite basename_join in Ht by now apply Hnames.
    apply negb_true_iff in Ht.
    exists n. repeat split; try assumption.
    unfold excel_suffixes in Hs.
    destruct Hs as [<-|[<-|[<-|[]]]]; auto.
  - intros (n & Hn & -> & He & Hh & Ht).
    assert (Hs : exists suffix, In suffix excel_suffixes /\ endswith suffix n = true).
    { unfold excel_suffixes.
      destruct He as [He|[He|He]]; eexists; (split; [|exact He]); cbn; auto. }
    destruct Hs as (suffix & Hs & Hsuf). exists suffix. split; [exact Hs|].
    apply filter_In. split.
    + apply list_elem_of_In, elem_of_glob_star. eauto 6.
    + rewrite basename_join by now apply Hnames. now rewrite Ht.
Qed.

Lemma get_client_files_spec_witness :
  Forall (fun n => PyStr.contains "/" n = false)
         ["Acme_20240101.xlsx"; "~$Acme_20240101.xlsx"; "notes.txt"; "Old_2019.xls"]
  /\ get_client_files
       (Some ["Acme_20240101.xlsx"; "~$Acme_20240101.xlsx"; "notes.txt"; "Old_2019.xls"])
     = ["client_portfolio/Acme_20240101.xlsx"; "client_portfolio/Old_2019.xls"]
  /\ ("client_portfolio" ++ "/" ++ "Old_2019.xls"
      ∈ get_client_files
          (Some ["Acme_20240101.xlsx"; "~$Acme_20240101.xlsx"; "notes.txt"; "Old_2019.xls"])).
Proof.
  assert (H : Forall (fun n => PyStr.contains "/" n = false)
         ["Acme_20240101.xlsx"; "~$Acme_20240101.xlsx"; "notes.txt"; "Old_2019.xls"])
    by (repeat constructor).
  split; [exact H|]. split; [reflexivity|].
  apply (get_client_files_spec _ _ H).
  exists "Old_2019.xls". repeat split; auto.
  do 3 (apply elem_of_cons; right). apply elem_of_cons. now left.
Defined.

(** No file is found twice when the directory lists no name twice. *)
Theorem get_client_files_NoDup (names : list string) :
  NoDup names -> NoDup (get_client_files (Some names)).
Proof.
  intros Hnames. rewrite get_client_files_unfold.
  assert (Hglob : forall suffix, NoDup (glob_star "client_portfolio" suffix names)).
  { intros suffix. unfold glob_star. apply NoDup_fmap_2_strong.
    - intros a b _ _ E. now apply join_inj in E.
    - now apply NoDup_list_filter. }
  assert (Hsuffix : forall suffix f,
             In f (List.filter (fun f => negb (PyStr.startswith "~$" (basename f)))
                     (glob_star "client_portfolio" suffix names)) ->
             exists n, f = "client_portfolio" ++ "/" ++ n /\ endswith suffix n = true).
  { intros suffix f [Hf _]%filter_In.
    apply list_elem_of_In, elem_of_glob_star in Hf as (n & _ & -> & He & _). eauto. }
  assert (Hparts : forall l,
             NoDup l -> (forall s, s ∈ l -> s ∈ excel_suffixes) ->
             NoDup (flat_map (fun suffix =>
                      List.filter (fun f => negb (PyStr.startswith "~$" (basename f)))
                        (glob_star "client_portfolio" suffix names)) l)).
  { induction l as [|s l IH]; intros Hl Hin; cbn [flat_map]; [constructor|].
    apply NoDup_cons in Hl as [Hs Hl].
    apply NoDup_app. split; [|split].
    - apply NoDup_list_filter, Hglob.
    - intros f Hf Hf'. apply list_elem_of_In in Hf, Hf'.
      apply Hsuffix in Hf as (n & -> & He).
      apply in_flat_map in Hf' as (s' & Hs' & Hf').
      apply Hsuffix in Hf' as (n' & E & He').
      apply join_inj in E. subst n'.
      assert (s = s').
      { apply (excel_suffixes_disjoint s s' n); auto.
        - apply Hin, elem_of_cons. now left.
        - apply Hin, elem_of_cons. right. now apply list_elem_of_In. }
      subst s'. apply Hs. now apply list_elem_of_In.
    - apply IH; [assumption|]. intros s' Hs'. apply Hin, elem_of_cons. now right. }
  apply Hparts; [|auto].
  unfold excel_suffixes. repeat (apply NoDup_cons; split);
    try apply NoDup_nil_2;
    rewrite ?elem_of_cons, ?elem_of_nil; intuition discriminate.
Qed.

Lemma get_client_files_NoDup_witness :
  NoDup ["Acme_20240101.xlsx"; "Acme_20240101.xls"]
  /\ NoDup (get_client_files (Some ["Acme_20240101.xlsx"; "Acme_20240101.xls"])).
Proof.
  assert (H : NoDup ["Acme_20240101.xlsx"; "Acme_20240101.xls"]).
  { apply NoDup_cons. split.
    - rewrite elem_of_cons, elem_of_nil. intros [E|[]]. discriminate E.
    - apply NoDup_cons. split; [apply not_elem_of_nil | apply NoDup_nil_2]. }
  split; [exact H|]. exact (get_client_files_NoDup _ H).
Defined.

End ClientFiles.

(** ** Grouping the files by client *)

Section Grouping.

Lemma dict_append_keys (k v : string) (d : list (string * list string)) :
  (dict_append k v d).*1 = if bool_decide (k ∈ d.*1) then d.*1 else (d.*1 ++ [k])%list.
Proof.
  induction d as [|[k' vs] d IH]; cbn [dict_append].
  - rewrite bool_decide_eq_false_2 by apply not_elem_of_nil. reflexivity.
  - rewrite fmap_cons. cbn [fst].
    destruct (String.eqb_spec k' k) as [->|Hne].
    + rewrite bool_decide_eq_true_2 by (apply elem_of_cons; now left).
      reflexivity.
    + rewrite fmap_cons, IH. cbn [fst].
      rewrite (bool_decide_ext (k ∈ k' :: d.*1) (k ∈ d.*1)).
      * now destruct (bool_decide (k ∈ d.*1)).
      * rewrite elem_of_cons. split; [intros [->|?]; [congruence|assumption]|auto].
Qed.

Lemma dict_append_NoDup (k v : string) (d : list (string * list string)) :
  NoDup d.*1 -> NoDup (dict_append k v d).*1.
Proof.
  intros H. rewrite dict_append_keys. case_bool_decide as Hk; [assumption|].
  apply NoDup_app. split; [assumption|]. split.
  - intros x Hx Hx'. apply list_elem_of_singleton in Hx'. now subst.
  - apply NoDup_singleton.
Qed.

Lemma dict_append_lookup (k v : string) (d : list (string * list string)) :
  (list_to_map (dict_append k v d) : gmap string (list string))
  = <[k := (default [] ((list_to_map d : gmap string (list string)) !! k) ++ [v])%list]>
      (list_to_map d).
Proof.
  induction d as [|[k' vs] d IH]; cbn [dict_append].
  - reflexivity.
  - destruct (String.eqb_spec k' k) as [->|Hne]; cbn [list_to_map foldr].
    + rewrite lookup_insert_eq. cbn [default]. now rewrite insert_insert_eq.
    + fold (list_to_map (dict_append k v d) : gmap string (list string)).
      fold (list_to_map d : gmap string (list string)).
      rewrite IH, lookup_insert_ne by assumption.
      cbn [uncurry fst snd]. now apply insert_insert_ne.
Qed.

Lemma group_fold (key : string -> string) (files : list string) :
  forall (d : list (string * list string)) (l : list string),
    NoDup d.*1 ->
    (forall c, (list_to_map d : gmap string (list string)) !! c
               = match filter (fun f => key f = c) l with
                 | [] => None
                 | fs => Some fs
                 end) ->
    let d' := fold_left (fun d filepath => dict_append (key filepath) filepath d)
                files d in
    NoDup d'.*1
    /\ forall c, (list_to_map d' : gmap string (list string)) !! c
                 = match filter (fun f => key f = c) (l ++ files)%list with
                   | [] => None
                   | fs => Some fs
                   end.
Proof.
  induction files as [|x files IH]; intros d l Hnd Hlook; cbn [fold_left].
  - now rewrite app_nil_r.
  - replace (l ++ x :: files)%list with ((l ++ [x]) ++ files)%list
      by now rewrite <- app_assoc.
    apply IH; [now apply dict_append_NoDup|].
    intros c. rewrite dict_append_lookup, filter_app, filter_cons, filter_nil.
    destruct (decide (key x = c)) as [<-|Hne].
    + rewrite lookup_insert_eq, Hlook.
      destruct (filter (fun f => key f = key x) l); reflexivity.
    + rewrite lookup_insert_ne by assumption. rewrite Hlook, app_nil_r.
      reflexivity.
Qed.

Lemma group_by_client_lookup (files : list string) :
  NoDup (group_by_client files).*1
  /\ forall c, (list_to_map (group_by_client files) : gmap string (list string)) !! c
               = match filter (fun f => extract_client_name f = c) files with
                 | [] => None
                 | fs => Some fs
                 end.
Proof.
  destruct (group_fold extract_client_name files [] []) as [Hnd Hlook].
  - constructor.
  - intros c. now rewrite filter_nil.
  - rewrite app_nil_l in Hlook. now fold (group_by_client files) in Hnd, Hlook.
Qed.

Lemma group_by_client_NoDup (files : list string) :
  NoDup (group_by_client files).*1.
Proof. apply group_by_client_lookup. Qed.

Lemma elem_of_group_by_client (files : list string) (c : string)
  (fs : list string) :
  (c, fs) ∈ group_by_client files
  <-> fs = filter (fun f => extract_client_name f = c) files /\ fs <> [].
Proof.
  destruct (group_by_client_lookup files) as [Hnd Hlook].
  etrans; [apply (elem_of_list_to_map (M := gmap string)); exact Hnd|].
  rewrite Hlook.
  destruct (filter (fun f => extract_client_name f = c) files) as [|f fs'].
  - split; [discriminate | intros [-> H]; congruence].
  - split; [intros [= <-]; split; [reflexivity|discriminate]
           | intros [-> _]; reflexivity].
Qed.

End Grouping.

Section GroupingClaims.

(** Every client name is a key once, and its group is the files of that
    name, in the order of the listing; no group is empty. *)
Theorem group_by_client_spec (files : list string) :
  NoDup (group_by_client files).*1
  /\ forall c fs,
       (c, fs) ∈ group_by_client files
       <-> fs = filter (fun f => extract_client_name f = c) files /\ fs <> [].
Proof.
  split; [apply group_by_client_NoDup|].
  intros c fs. apply elem_of_group_by_client.
Qed.

End GroupingClaims.

(** ** The report of [create_summary_files] *)

Section Report.

Variable w : World.

Lemma create_summary_files_unfold :
  create_summary_files w
  = if negb (template_exists w) then Returned None
    else match client_files w with
         | [] => Returned None
         | _ =>
             match selected_clients w with
             | [] => Returned None
             | data =>
                 match summarize_clients w data [] [] with
                 | Returned r => Returned (Some r)
                 | Raised e => Raised e
                 | OutOfFuel => OutOfFuel
                 end
             end
         end.
Proof.
  unfold create_summary_files, selected_clients.
  destruct (negb (template_exists w)); [reflexivity|].
  destruct (client_files w) as [|f fs]; [reflexivity|].
  destruct (account_list w).
  - now destruct (group_by_client (f :: fs)).
  - now destruct (filter _ (group_by_client (f :: fs))).
Qed.

Lemma selected_clients_spec (c : string) (fs : list string) :
  (c, fs) ∈ selected_clients w
  <-> fs = filter (fun f => extract_client_name f = c) (client_files w)
      /\ fs <> []
      /\ (account_list w = [] \/ c ∈ account_list w).
Proof.
  unfold selected_clients. destruct (account_list w) as [|a l] eqn:E.
  - rewrite elem_of_group_by_client. intuition.
  - rewrite list_elem_of_filter, elem_of_group_by_client, bool_decide_spec.
    cbn [fst]. intuition discriminate.
Qed.

Lemma selected_clients_NoDup : NoDup (selected_clients w).*1.
Proof.
  pose proof (group_by_client_NoDup (client_files w)) as Hnd.
  unfold selected_clients. destruct (account_list w); [exact Hnd|].
  match goal with
  | |- NoDup (filter ?P ?g).*1 =>
      assert (Hs : (filter P g).*1 `sublist_of` g.*1)
        by apply fmap_sublist, sublist_filter
  end.
  first [exact (sublist_NoDup _ _ Hs Hnd) | exact (sublist_NoDup _ _ Hnd Hs)].
Qed.

(** The loop with a template that loads: every client ends in the same
    list, which one being decided by the template alone. *)
Lemma summarize_clients_returned (summary : State)
  (data : list (string * list string)) :
  template_file w = Some summary ->
  forall s f s' f',
    summarize_clients w data s f = Returned (s', f') ->
    if bool_decide ("tab1" ∈ sheetnames (wb summary))
    then s' = (s ++ data.*1)%list /\ f' = f
         /\ forall c, c ∈ data.*1 -> save_ok w (c ++ "_summary.xlsx") = true
    else s' = s /\ f' = (f ++ data.*1)%list.
Proof.
  intros Ht. induction data as [|[c fs] data IH]; intros s f s' f' H.
  - cbn in H. inversion H; subst. rewrite !app_nil_r.
    destruct (bool_decide _); repeat split; auto.
    intros c Hc. now apply elem_of_nil in Hc.
  - cbn [summarize_clients] in H.
    pose proof (create_summary_for_client_cases w c fs) as Hc.
    rewrite Ht in Hc.
    destruct (bool_decide ("tab1" ∈ sheetnames (wb summary))) eqn:Etab.
    + destruct Hc as (st & n & _ & _ & Hc). rewrite Hc in H.
      destruct (save_ok w (c ++ "_summary.xlsx")) eqn:Es; [|discriminate].
      cbn [success] in H. apply IH in H as (-> & -> & Hsave).
      rewrite fmap_cons, <- app_assoc. cbn [fst app].
      split; [reflexivity|]. split; [reflexivity|].
      intros c' [->|Hc']%elem_of_cons; auto.
    + rewrite Hc in H. cbn [success] in H. apply IH in H as (-> & ->).
      rewrite fmap_cons, <- app_assoc. now cbn [fst app].
Qed.

Lemma create_summary_files_returned (succ failed : list string) :
  create_summary_files w = Returned (Some (succ, failed)) ->
  exists summary,
    template_file w = Some summary
    /\ if bool_decide ("tab1" ∈ sheetnames (wb summary))
       then succ = (selected_clients w).*1 /\ failed = []
            /\ forall c, c ∈ succ -> save_ok w (c ++ "_summary.xlsx") = true
       else succ = [] /\ failed = (selected_clients w).*1.
Proof.
  rewrite create_summary_files_unfold.
  destruct (negb (template_exists w)); [discriminate|].
  destruct (client_files w); [discriminate|].
  destruct (selected_clients w) as [|[c fs] data] eqn:Esel; [discriminate|].
  destruct (summarize_clients w ((c, fs) :: data) [] []) as [[s1 f1]| |] eqn:Erun;
    try discriminate.
  intros [= -> ->].
  destruct (template_file w) as [summary|] eqn:Et.
  - exists summary. split; [reflexivity|].
    pose proof (summarize_clients_returned summary _ Et _ _ _ _ Erun) as H.
    destruct (bool_decide _).
    + destruct H as (-> & -> & Hsave). rewrite app_nil_l. auto.
    + destruct H as (-> & ->). now rewrite app_nil_l.
  - cbn [summarize_clients] in Erun.
    pose proof (create_summary_for_client_cases w c fs) as Hc.
    rewrite Et in Hc. rewrite Hc in Erun. discriminate.
Qed.

End Report.

Section ReportClaims.

(** When [create_summary_files] gets to its report, the clients in it are
    the client names of the files found, restricted to the account list
    when that is not empty; each is reported once. *)
Theorem report_clients (w : World) (succ failed : list string) :
  create_summary_files w = Returned (Some (succ, failed)) ->
  NoDup (succ ++ failed)%list
  /\ forall c,
       c ∈ (succ ++ failed)%list
       <-> (exists f, f ∈ client_files w /\ extract_client_name f = c)
           /\ (account_list w = [] \/ c ∈ account_list w).
Proof.
  intros H. apply create_summary_files_returned in H as (summary & _ & H).
  assert (E : (succ ++ failed)%list = (selected_clients w).*1).
  { destruct (bool_decide _).
    - destruct H as (-> & -> & _). apply app_nil_r.
    - now destruct H as (-> & ->). }
  rewrite E. split; [apply selected_clients_NoDup|].
  intros c. rewrite list_elem_of_fmap. split.
  - intros ([c' fs] & -> & Hin). cbn [fst].
    apply selected_clients_spec in Hin as (-> & Hne & Hr).
    split; [|exact Hr].
    destruct (filter (fun f => extract_client_name f = c') (client_files w))
      as [|f fs'] eqn:Ef; [congruence|].
    assert (Hf : f ∈ filter (fun f => extract_client_name f = c') (client_files w))
      by (rewrite Ef; apply elem_of_cons; now left).
    apply list_elem_of_filter in Hf as [Hk Hf]. eauto.
  - intros [(f & Hf & Hk) Hr].
    exists (c, filter (fun f => extract_client_name f = c) (client_files w)).
    split; [reflexivity|]. apply selected_clients_spec.
    repeat split; [|exact Hr].
    intros Hnil.
    assert (Hin : f ∈ filter (fun f => extract_client_name f = c) (client_files w))
      by now apply list_elem_of_filter.
    rewrite Hnil in Hin. now apply elem_of_nil in Hin.
Qed.

(** The template is the same for every client, so the report is all or
    nothing: with the tab [tab1] in the template every client is reported
    as created and its summary was saved, without it every client is
    reported as failed. *)
Theorem report_all_or_nothing (w : World) (succ failed : list string) :
  create_summary_files w = Returned (Some (succ, failed)) ->
  exists summary,
    template_file w = Some summary
    /\ if bool_decide ("tab1" ∈ sheetnames (wb summary))
       then failed = []
            /\ forall c, c ∈ succ -> save_ok w (c ++ "_summary.xlsx") = true
       else succ = [].
Proof.
  intros H. apply create_summary_files_returned in H as (summary & Ht & H).
  exists summary. split; [exact Ht|].
  destruct (bool_decide _).
  - now destruct H as (_ & -> & Hs).
  - now destruct H as (-> & _).
Qed.

Lemma report_clients_witness :
  create_summary_files world_acme = Returned (Some (["Acme"], []))
  /\ NoDup (["Acme"] ++ [])%list.
Proof.
  assert (E : create_summary_files world_acme = Returned (Some (["Acme"], [])))
    by (vm_compute; reflexivity).
  split; [exact E|]. exact (proj1 (report_clients world_acme _ _ E)).
Defined.

Lemma report_all_or_nothing_witness :
  create_summary_files world_no_tab1 = Returned (Some ([], ["Acme"; "Beta"]))
  /\ exists summary, template_file world_no_tab1 = Some summary.
Proof.
  assert (E : create_summary_files world_no_tab1
              = Returned (Some ([], ["Acme"; "Beta"])))
    by (vm_compute; reflexivity).
  split; [exact E|].
  destruct (report_all_or_nothing world_no_tab1 _ _ E) as (summary & Ht & _).
  eauto.
Defined.

End ReportClaims.

(** ** The order of the files *)

Section SortFacts.

Variable key : string -> string.

Lemma leb_refl (s : string) : String.leb s s = true.
Proof.
  apply Is_true_true. change (String.le s s). reflexivity.
Qed.

Lemma leb_trans (a b c : string) :
  String.leb a b = true -> String.leb b c = true -> String.leb a c = true.
Proof.
  intros H1%Is_true_true H2%Is_true_true. apply Is_true_true.
  change (String.le a c). etrans; eassumption.
Qed.

Lemma leb_false_le (a b : string) :
  String.leb a b = false -> String.leb b a = true.
Proof.
  intros H. destruct (String.leb_total a b) as [E|E]; [congruence|assumption].
Qed.

Lemma insert_by_key_Permutation (x : string) (l : list string) :
  insert_by_key key x l ≡ₚ x :: l.
Proof.
  induction l as [|y l IH]; cbn [insert_by_key]; [reflexivity|].
  destruct (String.leb (key x) (key y)); [reflexivity|].
  rewrite IH. apply Permutation_swap.
Qed.

Lemma insert_by_key_Sorted (x : string) (l : list string) :
  StronglySorted (key_le key) l ->
  StronglySorted (key_le key) (insert_by_key key x l).
Proof.
  induction l as [|y l IH]; intros Hs; cbn [insert_by_key].
  - repeat constructor.
  - apply StronglySorted_inv in Hs as [Hl Hy].
    destruct (String.leb (key x) (key y)) eqn:E.
    + constructor; [now constructor|].
      constructor; [exact E|].
      eapply Forall_impl; [exact Hy|].
      intros z Hz. eapply leb_trans; eassumption.
    + constructor; [auto|].
      rewrite insert_by_key_Permutation. constructor; [|exact Hy].
      now apply leb_false_le.
Qed.

Lemma insert_by_key_filter (x : string) (l : list string) (k : string) :
  filter (fun f => key f = k) (insert_by_key key x l)
  = filter (fun f => key f = k) (x :: l).
Proof.
  induction l as [|y l IH]; cbn [insert_by_key]; [reflexivity|].
  destruct (String.leb (key x) (key y)) eqn:E; [reflexivity|].
  rewrite filter_cons, IH, !filter_cons.
  destruct (decide (key y = k)) as [Hy|Hy], (decide (key x = k)) as [Hx|Hx];
    try reflexivity.
  rewrite Hx, <- Hy, leb_refl in E. discriminate.
Qed.

Lemma sort_by_key_Permutation (l : list string) : sort_by_key key l ≡ₚ l.
Proof.
  induction l as [|x l IH]; cbn [sort_by_key fold_right]; [reflexivity|].
  fold (sort_by_key key l). now rewrite insert_by_key_Permutation, IH.
Qed.

End SortFacts.

Section SortClaims.

(** [sort(key=...)] as the builder uses it: the files come out in
    non-decreasing order of their keys, none is lost or added, and files
    with the same key keep the order they had. *)
Theorem sort_by_key_spec (key : string -> string) (l : list string) :
  sort_by_key key l ≡ₚ l
  /\ StronglySorted (key_le key) (sort_by_key key l)
  /\ forall k, filter (fun f => key f = k) (sort_by_key key l)
               = filter (fun f => key f = k) l.
Proof.
  split; [apply sort_by_key_Permutation|].
  induction l as [|x l (IHs & IHf)]; cbn [sort_by_key fold_right].
  - repeat split; constructor.
  - fold (sort_by_key key l). split.
    + now apply insert_by_key_Sorted.
    + intros k. now rewrite insert_by_key_filter, !filter_cons, IHf.
Qed.

End SortClaims.

(** ** More on [remove_external_links] *)

Section SanitizerFrame.

Lemma sanitize_cell_frame (ws : Worksheet) (p : coord) :
  column_dimensions (sanitize_cell ws p) = column_dimensions ws
  /\ row_dimensions (sanitize_cell ws p) = row_dimensions ws
  /\ merged_cells (sanitize_cell ws p) = merged_cells ws.
Proof. unfold sanitize_cell. destruct (is_cleared _); auto. Qed.

Lemma sanitize_fold_frame (l : list coord) : forall ws : Worksheet,
  column_dimensions (fold_left sanitize_cell l ws) = column_dimensions ws
  /\ row_dimensions (fold_left sanitize_cell l ws) = row_dimensions ws
  /\ merged_cells (fold_left sanitize_cell l ws) = merged_cells ws.
Proof.
  induction l as [|q l IH]; intros ws; cbn [fold_left]; [auto|].
  destruct (IH (sanitize_cell ws q)) as (-> & -> & ->).
  apply sanitize_cell_frame.
Qed.

Lemma sanitize_fold_fixed (l : list coord) : forall ws : Worksheet,
  (forall p, p ∈ l -> is_cleared (value (cell_at ws p)) = false) ->
  fold_left sanitize_cell l ws = ws.
Proof.
  induction l as [|q l IH]; intros ws H; cbn [fold_left]; [reflexivity|].
  assert (sanitize_cell ws q = ws) as ->.
  { unfold sanitize_cell. rewrite H; [reflexivity|]. apply elem_of_cons. now left. }
  apply IH. intros p Hp. apply H, elem_of_cons. now right.
Qed.

Lemma sanitized_not_cleared (ws : Worksheet) (p : coord) :
  is_cleared (value (cell_at (sanitize_sheet ws) p)) = false.
Proof.
  rewrite sanitize_sheet_cell.
  destruct (is_cleared (value (cell_at ws p))) eqn:E; [reflexivity | exact E].
Qed.

Lemma sanitize_sheet_idempotent (ws : Worksheet) :
  sanitize_sheet (sanitize_sheet ws) = sanitize_sheet ws.
Proof.
  unfold sanitize_sheet at 1. apply sanitize_fold_fixed.
  intros p _. apply sanitized_not_cleared.
Qed.

(** After the pass no cell holds a formula that the pass clears, and a
    second pass changes nothing. *)
Theorem remove_external_links_idempotent (workbook : Workbook) (i : nat)
  (p : coord) :
  match value (cell_at (sheet_at (remove_external_links workbook) i) p) with
  | Some (VStr s) => external_reference_formula s
  | _ => false
  end = false
  /\ remove_external_links (remove_external_links workbook)
     = remove_external_links workbook.
Proof.
  split.
  - rewrite <- is_cleared_spec, sheet_at_remove_external_links.
    apply sanitized_not_cleared.
  - unfold remove_external_links. rewrite <- list_fmap_compose.
    apply list_fmap_ext. intros _ [n ws] _. cbn.
    now rewrite sanitize_sheet_idempotent.
Qed.

(** The pass keeps the number of sheets and, in every sheet, the column
    widths, the row heights and the merged ranges. *)
Theorem remove_external_links_frame (workbook : Workbook) (i : nat) :
  length (remove_external_links workbook) = length workbook
  /\ column_dimensions (sheet_at (remove_external_links workbook) i)
     = column_dimensions (sheet_at workbook i)
  /\ row_dimensions (sheet_at (remove_external_links workbook) i)
     = row_dimensions (sheet_at workbook i)
  /\ merged_cells (sheet_at (remove_external_links workbook) i)
     = merged_cells (sheet_at workbook i).
Proof.
  split; [unfold remove_external_links; apply length_fmap|].
  rewrite sheet_at_remove_external_links. apply sanitize_fold_frame.
Qed.

End SanitizerFrame.

(** ** More on [extract_date_from_sheet] *)

Section DateFormat.

Lemma omap_ext_in {A B} (f g : A -> option B) (l : list A) :
  (forall x, x ∈ l -> f x = g x) -> omap f l = omap g l.
Proof.
  induction l as [|x l IH]; intros H; simpl; [reflexivity|].
  rewrite (H x) by (apply elem_of_cons; now left).
  assert (E : omap f l = omap g l).
  { apply IH. intros y Hy. apply H, elem_of_cons. now right. }
  destruct (g x); [f_equal|]; exact E.
Qed.

Lemma head_omap_Some {A B} (f : A -> option B) (l : list A) (r : B) :
  head (omap f l) = Some r -> exists x, x ∈ l /\ f x = Some r.
Proof.
  induction l as [|x l IH]; simpl; [discriminate|].
  destruct (f x) as [y|] eqn:E; simpl.
  - intros [= ->]. exists x. split; [apply elem_of_cons; now left | exact E].
  - intros H. destruct (IH H) as (z & Hz & Hfz).
    exists z. split; [apply elem_of_cons; now right | exact Hfz].
Qed.

Lemma try_formats_Some (fmts : list (list PyDate.directive)) (s r : string) :
  try_formats fmts s = Some r ->
  exists f d, f ∈ fmts /\ PyDate.strptime s f = Some d
              /\ r = PyDate.strftime_Ymd d.
Proof.
  induction fmts as [|f fmts IH]; simpl; [discriminate|].
  destruct (PyDate.strptime s f) as [d|] eqn:E.
  - intros [= <-]. exists f, d. split; [apply elem_of_cons; now left | auto].
  - intros H. destruct (IH H) as (g & d & Hg & Hd & Hr).
    exists g, d. split; [apply elem_of_cons; now right | auto].
Qed.

Lemma strptime_valid (s : string) (f : list PyDate.directive)
  (d : PyDate.datetime) :
  PyDate.strptime s f = Some d ->
  PyDate.valid_date (PyDate.year d) (PyDate.month d) (PyDate.day d) = true.
Proof.
  unfold PyDate.strptime.
  destruct (PyDate.matches_of f s (1900, 1, 1)%N) as [|[[[y m] dd] [|c rest]] l];
    try discriminate.
  destruct (PyDate.valid_date y m dd) eqn:E; [|discriminate].
  now intros [= <-].
Qed.

Lemma join_zeros (k : nat) :
  String.length (PyStr.join EmptyString (replicate k "0")) = k
  /\ PyStr.all_chars PyStr.is_digit
       (PyStr.join EmptyString (replicate k "0")) = true.
Proof.
  induction k as [|k [IH1 IH2]]; [split; reflexivity|].
  assert (E : PyStr.join EmptyString (replicate (S k) "0")
              = String "0" (PyStr.join EmptyString (replicate k "0"))).
  { cbn [replicate PyStr.join]. destruct (replicate k "0") as [|z l] eqn:Ez.
    - reflexivity.
    - now rewrite append_cons, !append_nil_l. }
  rewrite E. split; simpl; [now rewrite IH1 | exact IH2].
Qed.

Lemma zero_pad_format (w : nat) (s : string) :
  String.length s <= w ->
  PyStr.all_chars PyStr.is_digit s = true ->
  String.length (PyDate.zero_pad w s) = w
  /\ PyStr.all_chars PyStr.is_digit (PyDate.zero_pad w s) = true.
Proof.
  intros Hlen Hall. unfold PyDate.zero_pad.
  destruct (join_zeros (w - String.length s)) as [H1 H2].
  rewrite length_append, all_chars_append, H1, H2, Hall.
  split; [lia | reflexivity].
Qed.

Lemma days_in_month_bound (y m : N) : (PyDate.days_in_month y m <= 31)%N.
Proof.
  unfold PyDate.days_in_month.
  repeat match goal with
         | |- context [match ?x with _ => _ end] => destruct x
         end; lia.
Qed.

Lemma is_digit_val (c : ascii) :
  PyStr.is_digit c = true -> (N_of_ascii c - 48 <= 9)%N.
Proof.
  unfold PyStr.is_digit. intros H. apply andb_prop in H as [H1 H2].
  apply N.leb_le in H1, H2. lia.
Qed.

(** [str(n)] has four digits exactly when [n] has: no zero is put in front
    of a smaller number. *)
Lemma str_of_N_length (n : N) :
  (1 <= n < 10000)%N ->
  1 <= String.length (PyStr.str_of_N n) <= 4
  /\ (String.length (PyStr.str_of_N n) = 4 <-> (1000 <= n)%N).
Proof.
  intros Hn. destruct (str_of_N_spec n) as (Hall & Hlen & Hval).
  pose proof (Hlen 4 ltac:(change (10 ^ N.of_nat 4)%N with 10000%N; lia)
                ltac:(lia)) as H4.
  assert (H3 : (n < 1000)%N -> String.length (PyStr.str_of_N n) <= 3).
  { intros Hlt. apply Hlen; [|lia].
    change (10 ^ N.of_nat 3)%N with 1000%N. exact Hlt. }
  destruct (PyStr.str_of_N n) as [|a [|b [|c [|e [|x s]]]]];
    cbn [String.length] in *; cbn [PyStr.value_acc] in Hval;
    cbn [PyStr.all_chars] in Hall;
    repeat match goal with
           | H : (_ && _)%bool = true |- _ => apply andb_prop in H as [? H]
           end;
    repeat match goal with
           | H : PyStr.is_digit _ = true |- _ => apply is_digit_val in H
           end;
    lia.
Qed.

(** What [%Y%m%d] prints: the digits of the year, as many as it has, and
    two digits each for the month and the day. *)
Lemma strftime_Ymd_format (d : PyDate.datetime) :
  PyDate.valid_date (PyDate.year d) (PyDate.month d) (PyDate.day d) = true ->
  PyStr.all_chars PyStr.is_digit (PyDate.strftime_Ymd d) = true
  /\ 5 <= String.length (PyDate.strftime_Ymd d) <= 8
  /\ (String.length (PyDate.strftime_Ymd d) = 8 <-> (1000 <= PyDate.year d)%N).
Proof.
  unfold PyDate.valid_date. intros H.
  repeat (apply andb_prop in H as [H ?]).
  repeat match goal with
         | H : (_ <=? _)%N = true |- _ => apply N.leb_le in H
         end.
  pose proof (days_in_month_bound (PyDate.year d) (PyDate.month d)) as Hdays.
  destruct (str_of_N_spec (PyDate.year d)) as (Hy1 & _ & _).
  destruct (str_of_N_spec (PyDate.month d)) as (Hm1 & Hm2 & _).
  destruct (str_of_N_spec (PyDate.day d)) as (Hd1 & Hd2 & _).
  destruct (str_of_N_length (PyDate.year d)) as [Ly Ey]; [lia|].
  specialize (Hm2 2 ltac:(change (10 ^ N.of_nat 2)%N with 100%N; lia) ltac:(lia)).
  specialize (Hd2 2 ltac:(change (10 ^ N.of_nat 2)%N with 100%N; lia) ltac:(lia)).
  destruct (zero_pad_format 2 _ Hm2 Hm1) as [Lm Am].
  destruct (zero_pad_format 2 _ Hd2 Hd1) as [Ld Ad].
  unfold PyDate.strftime_Ymd.
  rewrite !length_append, !all_chars_append, Hy1, Lm, Ld, Am, Ad.
  split; [reflexivity|]. split; [lia|].
  rewrite <- Ey. lia.
Qed.

Lemma probe_cell_Some (v : option Value) (r : string) :
  probe_cell v = Some r ->
  (exists d, v = Some (VDate d) /\ r = PyDate.strftime_Ymd d)
  \/ (exists s f d, v = Some (VStr s) /\ f ∈ date_formats
                    /\ PyDate.strptime s f = Some d
                    /\ r = PyDate.strftime_Ymd d).
Proof.
  unfold probe_cell.
  destruct v as [[s|x|b|d]|]; cbn [truthy]; try discriminate.
  - destruct (PyStr.truthy s); [|discriminate].
    intros H. apply try_formats_Some in H as (f & d & Hf & Hd & Hr).
    right. exists s, f, d. auto.
  - destruct (negb _); discriminate.
  - destruct b; discriminate.
  - intros [= <-]. left. eauto.
Qed.

End DateFormat.

Section DateFormatClaims.

(** Only the 25 cells of the window matter: two sheets with the same values
    there give the same date. *)
Theorem extract_date_from_sheet_window (ws1 ws2 : Worksheet) :
  (forall q, q ∈ probe_window ->
             value (cell_at ws1 q) = value (cell_at ws2 q)) ->
  extract_date_from_sheet ws1 = extract_date_from_sheet ws2.
Proof.
  intros H. unfold extract_date_from_sheet. rewrite !scan_rows_flat.
  fold probe_window. f_equal. apply omap_ext_in.
  intros q Hq. now rewrite H.
Qed.

Lemma extract_date_from_sheet_window_witness :
  value (cell_at (sheet_of_cells [((1, 1)%positive, text_cell "2024-01-15");
                                  ((6, 1)%positive, text_cell "2025-02-16")])
                 (6, 1)%positive)
  = Some (VStr "2025-02-16")
  /\ extract_date_from_sheet
       (sheet_of_cells [((1, 1)%positive, text_cell "2024-01-15");
                        ((6, 1)%positive, text_cell "2025-02-16")])
     = extract_date_from_sheet
         (sheet_of_cells [((1, 1)%positive, text_cell "2024-01-15")]).
Proof.
  split; [reflexivity|].
  apply extract_date_from_sheet_window.
  intros q Hq. unfold probe_window in Hq. cbn in Hq.
  repeat (apply elem_of_cons in Hq as [->|Hq]; [reflexivity|]).
  now apply elem_of_nil in Hq.
Defined.

(** A date that is found is the text that [%Y%m%d] prints for a date of
    the calendar: a string of decimal digits, eight of them when the year
    has four digits and fewer when it has fewer, since the year is printed
    without zeros in front.  The native dates of the window are taken to be
    dates of the calendar, as every [datetime] is. *)
Theorem extract_date_from_sheet_format (ws : Worksheet) (r : string) :
  (forall q d, q ∈ probe_window -> value (cell_at ws q) = Some (VDate d) ->
     PyDate.valid_date (PyDate.year d) (PyDate.month d) (PyDate.day d) = true) ->
  extract_date_from_sheet ws = Some r ->
  exists d,
    PyDate.valid_date (PyDate.year d) (PyDate.month d) (PyDate.day d) = true
    /\ r = PyStr.str_of_N (PyDate.year d)
           ++ PyDate.zero_pad 2 (PyStr.str_of_N (PyDate.month d))
           ++ PyDate.zero_pad 2 (PyStr.str_of_N (PyDate.day d))
    /\ PyStr.all_chars PyStr.is_digit r = true
    /\ 5 <= String.length r <= 8
    /\ (String.length r = 8 <-> (1000 <= PyDate.year d)%N).
Proof.
  intros Hvalid. unfold extract_date_from_sheet. rewrite scan_rows_flat.
  fold probe_window. intros H.
  apply head_omap_Some in H as (q & Hq & Hr).
  apply probe_cell_Some in Hr
    as [(d & Hd & ->)|(s & f & d & _ & _ & Hd & ->)];
    exists d.
  - pose proof (Hvalid q d Hq Hd) as Hv.
    split; [exact Hv|]. split; [reflexivity|]. now apply strftime_Ymd_format.
  - pose proof (strptime_valid _ _ _ Hd) as Hv.
    split; [exact Hv|]. split; [reflexivity|]. now apply strftime_Ymd_format.
Qed.

Lemma extract_date_from_sheet_format_witness :
  extract_date_from_sheet sheet_date_then_string = Some "20240304"
  /\ String.length "20240304" = 8
  /\ PyStr.all_chars PyStr.is_digit "20240304" = true.
Proof.
  split; [reflexivity|].
  destruct (extract_date_from_sheet_format sheet_date_then_string "20240304")
    as (d & _ & _ & Hall & _); [|reflexivity|].
  - intros q d Hq Hv. unfold probe_window in Hq. cbn in Hq.
    repeat (apply elem_of_cons in Hq as [->|Hq];
            [vm_compute in Hv; first [discriminate Hv | now inversion Hv]|]).
    now apply elem_of_nil in Hq.
  - split; [reflexivity | exact Hall].
Defined.

(** A year before 1000 is printed with fewer than four digits: a native
    date of the year 999 gives a text of seven digits. *)
Example short_year :
  extract_date_from_sheet (sheet_of_cells [((1, 1)%positive, date_cell 999 1 1)])
  = Some "9990101".
Proof. reflexivity. Qed.

End DateFormatClaims.

(** ** The limit of 31 characters *)

Section CandidateLength.

Lemma value_acc_bound (d : string) :
  PyStr.all_chars PyStr.is_digit d = true ->
  forall a : N,
    (PyStr.value_acc d a < (a + 1) * 10 ^ N.of_nat (String.length d))%N.
Proof.
  induction d as [|c d IH]; intros Hall a.
  - simpl. lia.
  - cbn [PyStr.all_chars] in Hall. apply andb_prop in Hall as [Hc Hd].
    cbn [PyStr.value_acc String.length].
    specialize (IH Hd (10 * a + (N_of_ascii c - 48))%N).
    unfold PyStr.is_digit in Hc. apply andb_prop in Hc as [H1 H2].
    apply N.leb_le in H1, H2.
    replace (N.of_nat (S (String.length d)))
      with (N.succ (N.of_nat (String.length d))) by lia.
    rewrite N.pow_succ_r'. nia.
Qed.

Lemma str_of_N_long (k : N) (n : nat) :
  (10 ^ N.of_nat n <= k)%N -> n < String.length (PyStr.str_of_N k).
Proof.
  intros Hk. destruct (str_of_N_spec k) as (Hall & _ & Hval).
  pose proof (value_acc_bound _ Hall 0%N) as Hb. rewrite Hval in Hb.
  destruct (Nat.lt_ge_cases n (String.length (PyStr.str_of_N k))) as [|Hle];
    [assumption|].
  assert ((10 ^ N.of_nat (String.length (PyStr.str_of_N k))
           <= 10 ^ N.of_nat n)%N) by (apply N.pow_le_mono_r; lia).
  lia.
Qed.

(** The name tried for a counter has at most 31 characters exactly when the
    counter has at most 30 digits. *)
Theorem candidate_length_limit (original_name : string) (counter : N) :
  String.length (candidate original_name counter) <= 31
  <-> (counter < 10 ^ 30)%N.
Proof.
  unfold candidate. rewrite length_append.
  assert (Hs : String.length ("_" ++ PyStr.str_of_N counter)
               = S (String.length (PyStr.str_of_N counter)))
    by now rewrite append_cons, append_nil_l.
  split.
  - intros Hlen. destruct (N.lt_ge_cases counter (10 ^ 30)) as [|Hge];
      [assumption|].
    apply (str_of_N_long counter 30) in Hge. lia.
  - intros Hk. destruct (str_of_N_spec counter) as (_ & Hdigits & _).
    specialize (Hdigits 30 Hk ltac:(lia)).
    replace (31 - Z.of_nat (String.length ("_" ++ PyStr.str_of_N counter)))%Z
      with (Z.of_nat (31 - String.length ("_" ++ PyStr.str_of_N counter)))
      by lia.
    rewrite slice_to_nonneg, length_take. lia.
Qed.

End CandidateLength.

Section CanonicalDates.

Abbreviation val c := (N_of_ascii c - 48)%N (only parsing).

Lemma value_acc_zeros (k : nat) (s : string) :
  PyStr.value_acc (PyStr.join EmptyString (replicate k "0") ++ s) 0
  = PyStr.value_acc s 0.
Proof.
  induction k as [|k IH]; [reflexivity|].
  assert (E : PyStr.join EmptyString (replicate (S k) "0")
              = String "0" (PyStr.join EmptyString (replicate k "0"))).
  { cbn [replicate PyStr.join]. destruct (replicate k "0") as [|z l] eqn:Ez.
    - reflexivity.
    - now rewrite append_cons, !append_nil_l. }
  rewrite E, append_cons. cbn [PyStr.value_acc]. exact IH.
Qed.

(** A number printed with [%m] or [%d]: two digits with its value. *)
Lemma zero_pad_2 (n : N) :
  (n < 100)%N ->
  exists a b,
    PyDate.zero_pad 2 (PyStr.str_of_N n) = String a (String b EmptyString)
    /\ PyStr.is_digit a = true /\ PyStr.is_digit b = true
    /\ (10 * val a + val b = n)%N.
Proof.
  intros Hn. destruct (str_of_N_spec n) as (Hall & Hlen & Hval).
  specialize (Hlen 2 Hn ltac:(lia)).
  destruct (zero_pad_format 2 _ Hlen Hall) as [L A].
  pose proof (value_acc_zeros (2 - String.length (PyStr.str_of_N n))
                (PyStr.str_of_N n)) as V.
  fold (PyDate.zero_pad 2 (PyStr.str_of_N n)) in V. rewrite Hval in V.
  destruct (PyDate.zero_pad 2 (PyStr.str_of_N n)) as [|a [|b [|c s]]];
    try discriminate L.
  exists a, b. cbn in A. apply andb_prop in A as [Ha A].
  apply andb_prop in A as [Hb _].
  split; [reflexivity|]. split; [exact Ha|]. split; [exact Hb|].
  cbn [PyStr.value_acc] in V. lia.
Qed.

(** A year of four digits printed with [%Y]. *)
Lemma str_of_N_four (n : N) :
  (1000 <= n < 10000)%N ->
  exists a b c e,
    PyStr.str_of_N n
    = String a (String b (String c (String e EmptyString)))
    /\ PyStr.is_digit a = true /\ PyStr.is_digit b = true
    /\ PyStr.is_digit c = true /\ PyStr.is_digit e = true
    /\ (1000 * val a + 100 * val b + 10 * val c + val e = n)%N.
Proof.
  intros Hn. destruct (str_of_N_spec n) as (Hall & _ & Hval).
  destruct (str_of_N_length n) as [_ [_ L]]; [lia|].
  specialize (L ltac:(lia)).
  destruct (PyStr.str_of_N n) as [|a [|b [|c [|e [|x s]]]]];
    try discriminate L.
  exists a, b, c, e. cbn in Hall.
  repeat (apply andb_prop in Hall as [? Hall]).
  repeat (split; [assumption || reflexivity|]).
  cbn [PyStr.value_acc] in Hval. lia.
Qed.

Lemma in_range_digit (lo hi : N) (c : ascii) :
  PyStr.is_digit c = true ->
  PyDate.in_range lo hi c
  = if ((lo <=? val c) && (val c <=? hi))%N then Some (val c) else None.
Proof. intros H. unfold PyDate.in_range, PyDate.digit_val. now rewrite H. Qed.

Lemma digit_not (c x : ascii) :
  PyStr.is_digit c = true -> PyStr.is_digit x = false -> Ascii.eqb c x = false.
Proof.
  intros Hc Hx. destruct (Ascii.eqb_spec c x) as [->|]; [congruence|reflexivity].
Qed.

(** [%m] and [%d] at the start of a string of digits cannot be followed by
    a slash. *)
Lemma month_then_slash (a b c : ascii) (rest : string)
  (fmt : list PyDate.directive) (acc : PyDate.ymd) :
  Ascii.eqb b "/" = false -> Ascii.eqb c "/" = false ->
  PyDate.matches_of (PyDate.Dirm :: PyDate.Lit "/" :: fmt)
    (String a (String b (String c rest))) acc = [].
Proof.
  intros Hb Hc. cbn [PyDate.matches_of PyDate.alternatives].
  unfold PyDate.two_digits, PyDate.one_digit.
  repeat match goal with
         | |- context [PyDate.in_range ?l ?h ?x] =>
             destruct (PyDate.in_range l h x)
         end;
    cbn; rewrite ?Hb, ?Hc; reflexivity.
Qed.

Lemma day_then_slash (a b c : ascii) (rest : string)
  (fmt : list PyDate.directive) (acc : PyDate.ymd) :
  Ascii.eqb b "/" = false -> Ascii.eqb c "/" = false ->
  PyDate.matches_of (PyDate.Dird :: PyDate.Lit "/" :: fmt)
    (String a (String b (String c rest))) acc = [].
Proof.
  intros Hb Hc. cbn [PyDate.matches_of PyDate.alternatives].
  unfold PyDate.two_digits, PyDate.one_digit, PyDate.space_digit,
    PyDate.one_digit.
  destruct (Ascii.eqb a " ");
  repeat match goal with
         | |- context [PyDate.in_range ?l ?h ?x] =>
             destruct (PyDate.in_range l h x)
         end;
    cbn; rewrite ?Hb, ?Hc; reflexivity.
Qed.

Lemma year_alternatives (a b c e : ascii) (rest : string) :
  PyStr.is_digit a = true -> PyStr.is_digit b = true ->
  PyStr.is_digit c = true -> PyStr.is_digit e = true ->
  PyDate.alternatives PyDate.DirY (String a (String b (String c (String e rest))))
  = [((1000 * val a + 100 * val b + 10 * val c + val e)%N, rest)].
Proof.
  intros Ha Hb Hc He. cbn [PyDate.alternatives]. unfold PyDate.four_digits,
    PyDate.digit_val. now rewrite Ha, Hb, Hc, He.
Qed.

Lemma month_alternatives (a b : ascii) (rest : string) :
  PyStr.is_digit a = true -> PyStr.is_digit b = true ->
  (1 <= 10 * val a + val b <= 12)%N ->
  exists tl, PyDate.alternatives PyDate.Dirm (String a (String b rest))
             = ((10 * val a + val b)%N, rest) :: tl.
Proof.
  intros Ha Hb Hm. cbn [PyDate.alternatives]. unfold PyDate.two_digits.
  rewrite !in_range_digit by assumption.
  pose proof (is_digit_val b Hb) as Hb9.
  assert (Hcase : val a = 0%N \/ val a = 1%N) by lia.
  destruct Hcase as [E|E]; rewrite E in *.
  - cbn [N.leb N.compare andb Pos.compare].
    destruct (N.leb_spec 1 (val b)); [|lia].
    destruct (N.leb_spec (val b) 9); [|lia].
    cbn. eauto.
  - destruct (N.leb_spec 0 (val b)); [|lia].
    destruct (N.leb_spec (val b) 2); [|lia].
    cbn. eauto.
Qed.

Lemma day_alternatives (a b : ascii) (rest : string) :
  PyStr.is_digit a = true -> PyStr.is_digit b = true ->
  (1 <= 10 * val a + val b <= 31)%N ->
  exists tl, PyDate.alternatives PyDate.Dird (String a (String b rest))
             = ((10 * val a + val b)%N, rest) :: tl.
Proof.
  intros Ha Hb Hm. cbn [PyDate.alternatives]. unfold PyDate.two_digits.
  rewrite !in_range_digit by assumption.
  pose proof (is_digit_val b Hb) as Hb9.
  assert (Hcase : val a = 0%N \/ val a = 1%N \/ val a = 2%N \/ val a = 3%N)
    by lia.
  destruct Hcase as [E|[E|[E|E]]]; rewrite E in *.
  - cbn [N.leb N.compare andb Pos.compare].
    destruct (N.leb_spec 1 (val b)); [|lia].
    destruct (N.leb_spec (val b) 9); [|lia].
    cbn. eauto.
  - cbn [N.leb N.compare andb Pos.compare].
    destruct (N.leb_spec 0 (val b)); [|lia].
    destruct (N.leb_spec (val b) 9); [|lia].
    cbn. eauto.
  - cbn [N.leb N.compare andb Pos.compare].
    destruct (N.leb_spec 0 (val b)); [|lia].
    destruct (N.leb_spec (val b) 9); [|lia].
    cbn. eauto.
  - destruct (N.leb_spec 0 (val b)); [|lia].
    destruct (N.leb_spec (val b) 1); [|lia].
    cbn. eauto.
Qed.

Lemma strftime_Ymd_chars (d : PyDate.datetime) :
  PyDate.valid_date (PyDate.year d) (PyDate.month d) (PyDate.day d) = true ->
  (1000 <= PyDate.year d)%N ->
  exists a b c e f g h i,
    PyDate.strftime_Ymd d
    = String a (String b (String c (String e (String f (String g
        (String h (String i EmptyString)))))))
    /\ (PyStr.is_digit a = true /\ PyStr.is_digit b = true
        /\ PyStr.is_digit c = true /\ PyStr.is_digit e = true)
    /\ (PyStr.is_digit f = true /\ PyStr.is_digit g = true
        /\ PyStr.is_digit h = true /\ PyStr.is_digit i = true)
    /\ (1000 * val a + 100 * val b + 10 * val c + val e = PyDate.year d)%N
    /\ (10 * val f + val g = PyDate.month d)%N
    /\ (10 * val h + val i = PyDate.day d)%N.
Proof.
  unfold PyDate.valid_date. intros H Hyear.
  repeat (apply andb_prop in H as [H ?]).
  repeat match goal with
         | H : (_ <=? _)%N = true |- _ => apply N.leb_le in H
         end.
  pose proof (days_in_month_bound (PyDate.year d) (PyDate.month d)) as Hdays.
  destruct (str_of_N_four (PyDate.year d)) as (a & b & c & e & Ey & Ha & Hb & Hc & He & Vy);
    [lia|].
  destruct (zero_pad_2 (PyDate.month d)) as (f & g & Em & Hf & Hg & Vm); [lia|].
  destruct (zero_pad_2 (PyDate.day d)) as (h & i & Ed & Hh & Hi & Vd); [lia|].
  exists a, b, c, e, f, g, h, i.
  unfold PyDate.strftime_Ymd. rewrite Ey, Em, Ed.
  split; [reflexivity|]. auto 10.
Qed.

End CanonicalDates.

Section CanonicalDateClaims.

(** The text YYYYMMDD of a date of the calendar from the year 1000 on is
    read back as that date by [%Y%m%d], and by none of the three formats
    tried before it: a cell that holds this text gives the same text as its
    date.  (Before the year 1000 the text has fewer than eight digits, and
    [short_year_reread] shows one that is read back as another date.) *)
Theorem canonical_date_reread (d : PyDate.datetime) :
  PyDate.valid_date (PyDate.year d) (PyDate.month d) (PyDate.day d) = true ->
  (1000 <= PyDate.year d)%N ->
  PyDate.strptime (PyDate.strftime_Ymd d) PyDate.fmt_Ymd
  = Some (PyDate.mk_datetime (PyDate.year d) (PyDate.month d) (PyDate.day d)
            0 0 0)
  /\ probe_cell (Some (VStr (PyDate.strftime_Ymd d)))
     = Some (PyDate.strftime_Ymd d).
Proof.
  intros Hvalid Hyear.
  destruct (strftime_Ymd_chars d Hvalid Hyear)
    as (a & b & c & e & f & g & h & i & Hs & (Ha & Hb & Hc & He)
        & (Hf & Hg & Hh & Hi) & Vy & Vm & Vd).
  assert (Hparse : PyDate.strptime (PyDate.strftime_Ymd d) PyDate.fmt_Ymd
                   = Some (PyDate.mk_datetime (PyDate.year d) (PyDate.month d)
                             (PyDate.day d) 0 0 0)).
  { rewrite Hs. unfold PyDate.strptime, PyDate.fmt_Ymd.
    cbn [PyDate.matches_of]. rewrite year_alternatives by assumption.
    cbn [flat_map].
    destruct (month_alternatives f g (String h (String i EmptyString)) Hf Hg)
      as [tl1 E1].
    { pose proof Hvalid as Hv. unfold PyDate.valid_date in Hv.
      repeat (apply andb_prop in Hv as [Hv ?]).
      repeat match goal with
             | H : (_ <=? _)%N = true |- _ => apply N.leb_le in H
             end. lia. }
    rewrite E1. cbn [flat_map].
    destruct (day_alternatives h i EmptyString Hh Hi) as [tl2 E2].
    { pose proof Hvalid as Hv. unfold PyDate.valid_date in Hv.
      pose proof (days_in_month_bound (PyDate.year d) (PyDate.month d)).
      repeat (apply andb_prop in Hv as [Hv ?]).
      repeat match goal with
             | H : (_ <=? _)%N = true |- _ => apply N.leb_le in H
             end. lia. }
    rewrite E2. cbn [flat_map PyDate.record_field app].
    rewrite Vy, Vm, Vd, Hvalid. reflexivity. }
  split; [exact Hparse|].
  unfold probe_cell. cbn [truthy].
  assert (Ht : PyStr.truthy (PyDate.strftime_Ymd d) = true)
    by now rewrite Hs.
  rewrite Ht. unfold date_formats. cbn [try_formats].
  assert (H1 : PyDate.strptime (PyDate.strftime_Ymd d) PyDate.fmt_Y_m_d = None).
  { rewrite Hs. unfold PyDate.strptime, PyDate.fmt_Y_m_d.
    cbn [PyDate.matches_of]. rewrite year_alternatives by assumption.
    cbn [flat_map PyDate.alternatives].
    now rewrite (digit_not f "-" Hf eq_refl). }
  assert (H2 : PyDate.strptime (PyDate.strftime_Ymd d) PyDate.fmt_m_d_Y = None).
  { rewrite Hs. unfold PyDate.strptime, PyDate.fmt_m_d_Y.
    now rewrite month_then_slash by (apply digit_not; auto). }
  assert (H3 : PyDate.strptime (PyDate.strftime_Ymd d) PyDate.fmt_d_m_Y = None).
  { rewrite Hs. unfold PyDate.strptime, PyDate.fmt_d_m_Y.
    now rewrite day_then_slash by (apply digit_not; auto). }
  rewrite H1, H2, H3, Hparse. reflexivity.
Qed.

Lemma canonical_date_reread_witness :
  PyDate.valid_date 2024 2 29 = true
  /\ (1000 <= 2024)%N
  /\ probe_cell (Some (VStr "20240229")) = Some "20240229".
Proof.
  split; [reflexivity|]. split; [lia|].
  exact (proj2 (canonical_date_reread (PyDate.mk_datetime 2024 2 29 0 0 0)
                  eq_refl ltac:(cbn; lia))).
Defined.

(** The text of 1 January 999 has seven digits; read as [%Y%m%d] it is
    1 October 9990. *)
Example short_year_reread :
  PyDate.strftime_Ymd (PyDate.mk_datetime 999 1 1 0 0 0) = "9990101"
  /\ probe_cell (Some (VStr "9990101")) = Some "99901001".
Proof. split; reflexivity. Qed.

End CanonicalDateClaims.

(** ** Runs without a report *)

Section NoReport.

Variable w : World.

Lemma selected_clients_nil :
  selected_clients w = []
  <-> client_files w = []
      \/ (account_list w <> []
          /\ forall f, f ∈ client_files w ->
                       extract_client_name f ∉ account_list w).
Proof.
  split.
  - intros Hsel.
    destruct (client_files w) as [|f fs] eqn:Ef; [now left|]. right.
    assert (Hnone : forall f', f' ∈ client_files w ->
                      ~ (account_list w = []
                         \/ extract_client_name f' ∈ account_list w)).
    { intros f' Hf' Hr.
      assert (Hin : (extract_client_name f',
                     filter (fun g => extract_client_name g
                                      = extract_client_name f')
                            (client_files w))
                    ∈ selected_clients w).
      { apply selected_clients_spec. split; [reflexivity|].
        split; [|exact Hr]. intros Hnil.
        assert (Hx : f' ∈ filter (fun g => extract_client_name g
                                            = extract_client_name f')
                                 (client_files w))
          by now apply list_elem_of_filter.
        rewrite Hnil in Hx. now apply elem_of_nil in Hx. }
      rewrite Hsel in Hin. now apply elem_of_nil in Hin. }
    rewrite <- Ef. split.
    + intros Hacc. apply (Hnone f); [|now left].
      rewrite Ef. apply elem_of_cons. now left.
    + intros f' Hf' Hin. apply (Hnone f' Hf'). now right.
  - intros H.
    destruct (selected_clients w) as [|[c fs] data] eqn:Esel; [reflexivity|].
    assert (Hin : (c, fs) ∈ selected_clients w)
      by (rewrite Esel; apply elem_of_cons; now left).
    apply selected_clients_spec in Hin as (Hfs & Hne & Hr).
    destruct (filter (fun f => extract_client_name f = c) (client_files w))
      as [|f fs'] eqn:Ef; [congruence|].
    assert (Hf : f ∈ filter (fun f => extract_client_name f = c) (client_files w))
      by (rewrite Ef; apply elem_of_cons; now left).
    apply list_elem_of_filter in Hf as [Hk Hf].
    destruct H as [Hnil|[Hacc Hall]].
    + rewrite Hnil in Hf. now apply elem_of_nil in Hf.
    + destruct Hr as [Hr|Hr]; [contradiction|].
      exfalso. apply (Hall f Hf). now rewrite Hk.
Qed.

End NoReport.

Section NoReportClaims.

(** The run ends without a report in three cases only: the template is
    not there, no client file is found, or there is an account list and no
    file is of a client on it. *)
Theorem create_summary_files_no_report (w : World) :
  create_summary_files w = Returned None
  <-> template_exists w = false
      \/ client_files w = []
      \/ (account_list w <> []
          /\ forall f, f ∈ client_files w ->
                       extract_client_name f ∉ account_list w).
Proof.
  rewrite create_summary_files_unfold.
  destruct (template_exists w); cbn [negb]; [|intuition].
  pose proof (selected_clients_nil w) as Hsel.
  destruct (client_files w) as [|f fs] eqn:Ef; [intuition|].
  destruct (selected_clients w) as [|e data] eqn:Esel.
  - split; [intros _|reflexivity]. right. now apply Hsel.
  - split.
    + destruct (summarize_clients w (e :: data) [] []); discriminate.
    + intros [H|H]; [discriminate|]. apply Hsel in H. discriminate.
Qed.

End NoReportClaims.

(** ** The summary that is saved *)

Section SavedSummaryClaims.

(** A summary that is saved is reported as a success, and it begins with
    the sheets of the prepared template (links removed, [Calculations]
    removed), [tab1] among them, as they were.  After them come the sheets
    that the loop over the files added: at most one for every file that
    can be read, and at least as many as the number of tabs reported,
    since a tab that could not be finished stays in the workbook and is
    not counted. *)
Theorem saved_summary_tabs (w : World) (client_name : string)
  (client_files_list : list string) (s : Summary) (st : State) :
  create_summary_for_client w client_name client_files_list = Returned s ->
  saved s = Some st ->
  success s = true
  /\ exists summary,
       template_file w = Some summary
       /\ ("tab1" ∈ sheetnames (wb (prepared summary)))
       /\ wb (prepared summary) `prefix_of` wb st
       /\ tabs_created s
          <= length (wb st) - length (wb (prepared summary))
          <= length (readable w
                (sort_by_key extract_date_from_filename client_files_list)).
Proof.
  intros Hrun Hsaved.
  destruct (create_summary_for_client_saved w _ _ _ _ Hrun Hsaved)
    as (Hs & _ & summary & i & Ht & Hi & Hlt & Hloop).
  split; [exact Hs|]. exists summary. split; [exact Ht|].
  destruct (process_files_returns w i
              (sort_by_key extract_date_from_filename client_files_list)
              (prepared summary) 0 Hlt)
    as (st' & n' & E & _ & P & _ & L).
  rewrite Hloop in E. injection E as <- <-.
  split.
  { destruct (decide ("tab1" ∈ sheetnames (wb (prepared summary))))
      as [Hin|Hnin]; [exact Hin|].
    exfalso. clear -Hi Hnin. revert i Hi.
    unfold sheetnames in Hnin.
    induction (wb (prepared summary)) as [|[n ws] rest IH]; intros i Hi;
      [discriminate|].
    cbn [index_of] in Hi. rewrite fmap_cons in Hnin.
    apply not_elem_of_cons in Hnin as [Hne Hnin]. cbn [fst] in Hne.
    destruct (String.eqb_spec n "tab1") as [->|_]; [congruence|].
    destruct (index_of "tab1" rest) as [j|]; [|discriminate].
    now apply (IH Hnin j). }
  split; [exact P|]. lia.
Qed.

Lemma saved_summary_tabs_witness :
  exists s st,
    create_summary_for_client world_acme "Acme" (client_files world_acme)
    = Returned s
    /\ saved s = Some st
    /\ success s = true
    /\ tabs_created s = 2
    /\ length (wb st) - 1 <= 2.
Proof.
  assert (E : exists st,
             create_summary_for_client world_acme "Acme" (client_files world_acme)
             = Returned (mk_summary true 2 (Some st)))
    by (vm_compute; eexists; reflexivity).
  destruct E as [st E].
  exists (mk_summary true 2 (Some st)), st.
  split; [exact E|]. split; [reflexivity|].
  destruct (saved_summary_tabs world_acme "Acme" (client_files world_acme)
              _ st E eq_refl) as (Hs & summary & Ht & _ & _ & Hn).
  split; [exact Hs|]. split; [reflexivity|].
  injection Ht as <-. exact (proj2 Hn).
Defined.

End SavedSummaryClaims.
